(** * The dashboard of docs/app.js: data loading, filtering, sorting, rendering

    A shallow embedding of [docs/app.js].  The program keeps one global
    [state] object and writes into a handful of DOM elements; here both are
    fields of an explicit [World] that every function takes and returns.

    The file has four parts: the pieces of the ECMAScript runtime that the
    program calls (module [JS]), the program itself (same names as in the
    source), the vocabulary in which its properties are stated, and the
    properties with their proofs. *)

From Stdlib Require Import ZArith QArith List String Ascii Bool Lia.
From Stdlib Require Import Permutation Sorted DecimalString.
From Stdlib Require DecimalPos.
Import ListNotations.

Set Implicit Arguments.

Local Open Scope string_scope.
Local Open Scope Z_scope.

(* ================================================================== *)
(** * Part 1: the runtime *)
(* ================================================================== *)

Module JS.

(** ** [Array.prototype.sort]

    ECMAScript fixes the outcome of [sort] whenever the comparator is
    consistent: the elements end up ordered by the comparator and elements
    that compare equal keep their relative order.  Stable insertion is the
    simplest procedure with that outcome.  [comparefn a b > 0] means that
    [a] goes after [b]. *)

Section ArraySort.
Variable A : Type.
Variable comparefn : A -> A -> Z.

Fixpoint insert (x : A) (l : list A) : list A :=
  match l with
  | [] => [x]
  | y :: l' => if comparefn x y <=? 0 then x :: l else y :: insert x l'
  end.

Definition sort (l : list A) : list A := fold_right insert [] l.
End ArraySort.

(** Where a local variable's array lives: [let filtered = state.xs] binds
    the very array held by the state, [xs.filter (..)] makes a new one.
    [Array.prototype.sort] reorders the array it is called on, so the
    difference is visible to the owner of the first array. *)
Inductive binding (A : Type) : Type :=
| SameArray
| NewArray (a : list A).
Arguments SameArray {A}.

Definition contents {A} (owned : list A) (b : binding A) : list A :=
  match b with
  | SameArray => owned
  | NewArray a => a
  end.

(** [b.sort (comparefn)]: returns the owner's array after the call and the
    binding, whose contents are now sorted. *)
Definition sort_in_place {A} (comparefn : A -> A -> Z)
           (owned : list A) (b : binding A) : list A * binding A :=
  match b with
  | SameArray => (sort comparefn owned, SameArray)
  | NewArray a => (owned, NewArray (sort comparefn a))
  end.

(** ** Numbers and the values of a JSON numeric field *)

(** A Number is NaN, an infinity or a finite value; a finite double is a
    rational, kept exactly.  (The sign of zero plays no part below.) *)
Inductive number : Type :=
| NaN
| Infinity (negative : bool)
| Finite (q : Q).

(** What a property read such as [exp.Temp] can yield for the data of this
    program: [null], [undefined] (the key is absent) or a Number. *)
Inductive value : Type :=
| Null
| Undefined
| Num (x : number).

(** [isNaN (v)]: [ToNumber] then the NaN test.  [ToNumber (undefined)] is
    NaN and [ToNumber (null)] is 0. *)
Definition ToNumber (v : value) : number :=
  match v with
  | Null => Finite 0
  | Undefined => NaN
  | Num x => x
  end.

Definition isNaN (v : value) : bool :=
  match ToNumber v with
  | NaN => true
  | _ => false
  end.

(** Round to nearest, ties to even, into binary64: the result of every
    arithmetic operation on finite doubles. *)
Definition round_half_even (n d : Z) : Z :=
  let q := n / d in
  let r := n mod d in
  if 2 * r <? d then q
  else if d <? 2 * r then q + 1
  else if Z.even q then q else q + 1.

Definition binary64 (q : Q) : number :=
  let a := Z.abs (Qnum q) in
  let b := Z.pos (Qden q) in
  if a =? 0 then Finite 0
  else
    let e0 := Z.log2 a - Z.log2 b in
    let above := if 0 <=? e0 then b * 2 ^ e0 <=? a else b <=? a * 2 ^ (- e0) in
    let e := if above then e0 else e0 - 1 in
    let sh := Z.max (e - 52) (-1074) in
    let m := if 0 <=? sh then round_half_even a (b * 2 ^ sh)
             else round_half_even (a * 2 ^ (- sh)) b in
    let neg := Qnum q <? 0 in
    if 0 <=? sh then
      if 2 ^ 1024 <=? m * 2 ^ sh then Infinity neg
      else Finite (Qred ((if neg then - (m * 2 ^ sh) else m * 2 ^ sh) # 1))
    else Finite (Qred (Qmake (if neg then - m else m) (Z.to_pos (2 ^ (- sh))))).

(** [v * k] for a finite constant [k > 0], as in [p_feasible * 100]. *)
Definition times (v : value) (k : Q) : number :=
  match ToNumber v with
  | NaN => NaN
  | Infinity s => Infinity s
  | Finite q => binary64 (q * k)
  end.

(** ** [String (n)] for a non-negative integer *)
Definition String_of_N (n : N) : string := NilEmpty.string_of_uint (N.to_uint n).
Definition String_of_nat (n : nat) : string := String_of_N (N.of_nat n).

(** ** The double nearest to a non-negative integer

    Round to nearest, ties to even; the result is kept as an integer, with
    2^1024, which is above every double, standing for Infinity.  Below 2^53
    every integer is a double. *)
Definition double_of_integer (n : Z) : Z :=
  if n <? 2 ^ 53 then n
  else
    let ulp := 2 ^ (Z.log2 n - 52) in
    let v := round_half_even n ulp * ulp in
    if 2 ^ 1024 <=? v then 2 ^ 1024 else v.

(** ** [Number::toString] from 10^21 on: the exponent form

    For a double [v] of [D] decimal digits, 22 or more: the least number
    [k] of digits, and with it the integer [s] of [k] digits and the [n],
    such that [s * 10^(n-k)] is read back as [v]; of two such [s] the one
    nearer to [v], of two equally near the even one.  The multiples of
    [10^(D-k)] next to [v] are the only candidates.  [k = D] always does. *)
Fixpoint shortest_digits (fuel : nat) (k D v : Z) : Z * Z :=
  match fuel with
  | O => (v, D)
  | S fuel' =>
      let p := 10 ^ (D - k) in
      let s_lo := v / p in
      let lo := s_lo * p in
      let hi := lo + p in
      let below := (s_lo, D) in
      let above := if s_lo + 1 =? 10 ^ k then (10 ^ (k - 1), D + 1)
                   else (s_lo + 1, D) in
      let ok_lo := double_of_integer lo =? v in
      let ok_hi := double_of_integer hi =? v in
      if ok_lo && ok_hi then
        if v - lo <? hi - v then below
        else if hi - v <? v - lo then above
        else if Z.even s_lo then below else above
      else if ok_lo then below
      else if ok_hi then above
      else shortest_digits fuel' (k + 1) D v
  end.

(** The digits of [s], a point after the first when there are more, then
    [e+] and the exponent [n - 1]. *)
Definition exponent_form (v : Z) : string :=
  let D := Z.of_nat (String.length (String_of_N (Z.to_N v))) in
  let '(s, n) := shortest_digits (Z.to_nat D) 1 D v in
  let e := String_of_N (Z.to_N (n - 1)) in
  match String_of_N (Z.to_N s) with
  | EmptyString => EmptyString
  | String c EmptyString => String c ("e+" ++ e)
  | String c rest => String c ("." ++ rest ++ "e+" ++ e)
  end.

(** ** [Number.prototype.toFixed]

    For a finite [x] below 10^21 in magnitude: the integer [n] nearest to
    [x * 10^f] (the larger on a tie), printed with a point before its last
    [f] digits.  From 10^21 on, where a double is an integer, [toFixed]
    returns what [Number::toString] returns: the exponent form, whatever
    [f] is.  Every call in the program passes 0, 1, 2 or 3 digits, so the
    [RangeError] for more than 100 digits cannot arise; the result is
    always [Some] text. *)
Fixpoint zeros (k : nat) : string :=
  match k with
  | O => ""
  | S k' => "0" ++ zeros k'
  end.

Definition fixed_digits (n : N) (f : nat) : string :=
  let m := String_of_N n in
  match f with
  | O => m
  | S _ =>
      let k := String.length m in
      let m := if (k <=? f)%nat then zeros (f + 1 - k) ++ m else m in
      let k := String.length m in
      substring 0 (k - f) m ++ "." ++ substring (k - f) f m
  end.

Definition toFixed (x : number) (f : nat) : option string :=
  match x with
  | NaN => Some "NaN"
  | Infinity false => Some "Infinity"
  | Infinity true => Some "-Infinity"
  | Finite q =>
      let a := Z.abs (Qnum q) in
      let b := Z.pos (Qden q) in
      let s := if Qnum q <? 0 then "-" else "" in
      if 10 ^ 21 * b <=? a then
        let v := double_of_integer (a / b) in
        Some (s ++ (if 2 ^ 1024 <=? v then "Infinity" else exponent_form v))
      else
        let n := (2 * a * 10 ^ Z.of_nat f + b) / (2 * b) in
        Some (s ++ fixed_digits (Z.to_N n) f)
  end.

(** ** [parseInt] on a string of decimal digits, and [/\D/g]

    [s.replace (/\D/g, '')] keeps the characters '0'..'9'.  [parseInt] of
    the empty string is NaN ([None]); otherwise it is the Number nearest to
    the integer the digits spell ([double_of_integer]), so an id of 15
    digits or fewer parses exactly.  (Past the 20th digit ECMAScript lets
    an engine read the digits as zeros.) *)
Definition is_digit (c : ascii) : bool :=
  let n := nat_of_ascii c in ((48 <=? n) && (n <=? 57))%nat.

Fixpoint strip_non_digits (s : string) : string :=
  match s with
  | EmptyString => EmptyString
  | String c s' =>
      if is_digit c then String c (strip_non_digits s') else strip_non_digits s'
  end.

Fixpoint digits_value (acc : Z) (s : string) : Z :=
  match s with
  | EmptyString => acc
  | String c s' => digits_value (10 * acc + (Z.of_nat (nat_of_ascii c) - 48)) s'
  end.

Definition parseInt (digits : string) : option Z :=
  match digits with
  | EmptyString => None
  | _ => Some (double_of_integer (digits_value 0 digits))
  end.

(** [x || 0] for the result of [parseInt]: NaN and 0 are the falsy ones. *)
Definition or_zero (x : option Z) : Z :=
  match x with
  | None => 0
  | Some n => n
  end.

End JS.

(* ================================================================== *)
(** * Part 2: the program *)
(* ================================================================== *)

Local Open Scope string_scope.

(** ** The records of the two JSON files *)

(** An experiment of [data/experiments.json].  [source] is [None] when the
    key is absent (the row then falls back to ['imported']). *)
Record Experiment : Type := {
  exp_id : string;
  Temp : JS.value;
  Time : JS.value;
  VOacac : JS.value;
  DDT : JS.value;
  OAm : JS.value;
  Size : JS.value;
  GSD : JS.value;
  Squareness : JS.value;
  source : option string
}.

Record Conditions : Type := {
  cond_Temp : JS.value;
  cond_Time : JS.value;
  cond_VOacac : JS.value;
  cond_DDT : JS.value;
  cond_OAm : JS.value
}.

Record Predictions : Type := {
  size_mu : JS.value;
  size_std : JS.value;
  gsd_mu : JS.value;
  gsd_std : JS.value;
  sq_mu : JS.value;
  sq_std : JS.value;
  p_feasible : JS.value
}.

Record Target : Type := {
  size : JS.value;
  tolerance : JS.value
}.

(** A recommendation of [data/recommendations.json].  [timestamp] is the
    time value, in milliseconds, of [new Date (rec.timestamp)]: the file's
    timestamps are ISO date-times, which all parse.  The three nested
    objects and [skip_reason] may be absent. *)
Record Recommendation : Type := {
  rec_id : string;
  status : string;
  conditions : option Conditions;
  predictions : option Predictions;
  target : option Target;
  timestamp : Z;
  skip_reason : option string
}.

(** ** State Management *)

Record State : Type := {
  experiments : list Experiment;
  recommendations : list Recommendation;
  currentFilter : string;
  currentSource : string;
  isLoading : bool
}.

Definition state : State := {|
  experiments := [];
  recommendations := [];
  currentFilter := "pending";
  currentSource := "all";
  isLoading := true
|}.

(** ** What the program writes into the page *)

(** The three empty objects of [rec.conditions || {}] and its siblings:
    every read of a key yields [undefined]. *)
Definition no_conditions : Conditions :=
  {| cond_Temp := JS.Undefined; cond_Time := JS.Undefined;
     cond_VOacac := JS.Undefined; cond_DDT := JS.Undefined;
     cond_OAm := JS.Undefined |}.

Definition no_predictions : Predictions :=
  {| size_mu := JS.Undefined; size_std := JS.Undefined;
     gsd_mu := JS.Undefined; gsd_std := JS.Undefined;
     sq_mu := JS.Undefined; sq_std := JS.Undefined;
     p_feasible := JS.Undefined |}.

Definition no_target : Target :=
  {| size := JS.Undefined; tolerance := JS.Undefined |}.

(** [x || d] for an object that may be absent. *)
Definition or_else {A} (x : option A) (d : A) : A :=
  match x with
  | Some a => a
  | None => d
  end.

(** A recommendation card: the interpolated pieces of the template of
    [createRecommendationCard], in the order of the template.  The two
    date lines go through [toLocaleDateString], whose text depends on the
    host's locale data and time zone; the card leaves them out. *)
Record Card : Type := {
  card_data_status : string;
  card_rec_id : string;
  card_target_size : option string;
  card_target_tolerance : option string;
  card_status_badge : string;
  card_Temp : option string;
  card_Time : option string;
  card_VOacac : option string;
  card_DDT : option string;
  card_OAm : option string;
  card_size_mu : option string;
  card_size_std : option string;
  card_gsd_mu : option string;
  card_gsd_std : option string;
  card_sq_mu : option string;
  card_sq_std : option string;
  card_p_feasible : option string;
  card_skip_reason : option string
}.

(** A row of the experiments table: the ten cells. *)
Record Row : Type := {
  row_exp_id : string;
  row_Temp : option string;
  row_Time : option string;
  row_VOacac : option string;
  row_DDT : option string;
  row_OAm : option string;
  row_Size : option string;
  row_GSD : option string;
  row_Squareness : option string;
  row_source_tag : string
}.

(** The markup assigned to [innerHTML], by shape. *)
Inductive Html : Type :=
| EmptyStateDiv (icon message : string)
    (* <div class="empty-state"><div class="empty-state-icon">icon</div>
       <p>message</p></div> *)
| EmptyStateRow (message : string)
    (* <tr><td colspan="10" class="empty-state">message</td></tr> *)
| Cards (cards : list Card)
| Rows (rows : list Row).

(** The elements the program looks up by id, with their text or markup, and
    the value of the active tab of each of the two tab groups.  The page
    itself (index.html) has all of them. *)
Record Document : Type := {
  total_experiments : string;
  pending_count : string;
  completed_count : string;
  model_accuracy : string;
  pending_badge : string;
  completed_badge : string;
  skipped_badge : string;
  recommendations_list : Html;
  experiments_tbody : Html;
  active_filter_tab : string;
  active_source_tab : string
}.

Record World : Type := {
  st : State;
  doc : Document
}.

(** Assignments to one field. *)
Definition set_experiments (v : list Experiment) (s : State) : State :=
  {| experiments := v; recommendations := recommendations s;
     currentFilter := currentFilter s; currentSource := currentSource s;
     isLoading := isLoading s |}.

Definition set_recommendations (v : list Recommendation) (s : State) : State :=
  {| experiments := experiments s; recommendations := v;
     currentFilter := currentFilter s; currentSource := currentSource s;
     isLoading := isLoading s |}.

Definition set_currentFilter (v : string) (s : State) : State :=
  {| experiments := experiments s; recommendations := recommendations s;
     currentFilter := v; currentSource := currentSource s;
     isLoading := isLoading s |}.

Definition set_currentSource (v : string) (s : State) : State :=
  {| experiments := experiments s; recommendations := recommendations s;
     currentFilter := currentFilter s; currentSource := v;
     isLoading := isLoading s |}.

Definition set_isLoading (v : bool) (s : State) : State :=
  {| experiments := experiments s; recommendations := recommendations s;
     currentFilter := currentFilter s; currentSource := currentSource s;
     isLoading := v |}.

Definition set_stats (total pending completed accuracy : string)
           (d : Document) : Document :=
  {| total_experiments := total; pending_count := pending;
     completed_count := completed; model_accuracy := accuracy;
     pending_badge := pending_badge d; completed_badge := completed_badge d;
     skipped_badge := skipped_badge d;
     recommendations_list := recommendations_list d;
     experiments_tbody := experiments_tbody d;
     active_filter_tab := active_filter_tab d;
     active_source_tab := active_source_tab d |}.

Definition set_badges (pending completed skipped : string)
           (d : Document) : Document :=
  {| total_experiments := total_experiments d; pending_count := pending_count d;
     completed_count := completed_count d; model_accuracy := model_accuracy d;
     pending_badge := pending; completed_badge := completed;
     skipped_badge := skipped;
     recommendations_list := recommendations_list d;
     experiments_tbody := experiments_tbody d;
     active_filter_tab := active_filter_tab d;
     active_source_tab := active_source_tab d |}.

Definition set_recommendations_list (h : Html) (d : Document) : Document :=
  {| total_experiments := total_experiments d; pending_count := pending_count d;
     completed_count := completed_count d; model_accuracy := model_accuracy d;
     pending_badge := pending_badge d; completed_badge := completed_badge d;
     skipped_badge := skipped_badge d;
     recommendations_list := h;
     experiments_tbody := experiments_tbody d;
     active_filter_tab := active_filter_tab d;
     active_source_tab := active_source_tab d |}.

Definition set_experiments_tbody (h : Html) (d : Document) : Document :=
  {| total_experiments := total_experiments d; pending_count := pending_count d;
     completed_count := completed_count d; model_accuracy := model_accuracy d;
     pending_badge := pending_badge d; completed_badge := completed_badge d;
     skipped_badge := skipped_badge d;
     recommendations_list := recommendations_list d;
     experiments_tbody := h;
     active_filter_tab := active_filter_tab d;
     active_source_tab := active_source_tab d |}.

Definition set_active_filter_tab (v : string) (d : Document) : Document :=
  {| total_experiments := total_experiments d; pending_count := pending_count d;
     completed_count := completed_count d; model_accuracy := model_accuracy d;
     pending_badge := pending_badge d; completed_badge := completed_badge d;
     skipped_badge := skipped_badge d;
     recommendations_list := recommendations_list d;
     experiments_tbody := experiments_tbody d;
     active_filter_tab := v;
     active_source_tab := active_source_tab d |}.

Definition set_active_source_tab (v : string) (d : Document) : Document :=
  {| total_experiments := total_experiments d; pending_count := pending_count d;
     completed_count := completed_count d; model_accuracy := model_accuracy d;
     pending_badge := pending_badge d; completed_badge := completed_badge d;
     skipped_badge := skipped_badge d;
     recommendations_list := recommendations_list d;
     experiments_tbody := experiments_tbody d;
     active_filter_tab := active_filter_tab d;
     active_source_tab := v |}.

(** ** The exceptions of [loadData]

    A computation reads and writes the world and either returns or throws;
    what it wrote before throwing stays written. *)
Inductive exn : Type :=
| Error (message : string)   (* [throw new Error (..)] *)
| TypeError                  (* a rejected [fetch]; a property read on [null] *)
| SyntaxError.               (* [response.json ()] on a body that is not JSON *)

Inductive completion (A : Type) : Type :=
| Return (a : A)
| Throw (e : exn).
Arguments Throw {A}.

Definition M (A : Type) : Type := World -> completion A * World.

Definition ret {A} (a : A) : M A := fun w => (Return a, w).

Definition throw {A} (e : exn) : M A := fun w => (Throw e, w).

Definition bind {A B} (c : M A) (k : A -> M B) : M B :=
  fun w =>
    match c w with
    | (Return a, w') => k a w'
    | (Throw e, w') => (Throw e, w')
    end.

Definition perform (f : World -> World) : M unit := fun w => (Return tt, f w).

Definition assign (f : State -> State) : M unit :=
  perform (fun w => {| st := f (st w); doc := doc w |}).

(** [try { body } catch (error) { handler }], run to its end. *)
Definition try_catch (body : M unit) (handler : exn -> M unit) : World -> World :=
  fun w =>
    match body w with
    | (Return _, w') => w'
    | (Throw e, w') => snd (handler e w')
    end.

Declare Scope js_scope.
Delimit Scope js_scope with js.
Notation "x <- c ;; k" := (bind c (fun x => k))
  (at level 61, c at next level, right associativity) : js_scope.
Notation "c ;; k" := (bind c (fun _ => k))
  (at level 61, right associativity) : js_scope.

(** ** Data Loading *)

(** A parsed JSON document, as far as [loadData] looks at it: [null], an
    object with or without the array under the key read, or some other
    value (a number, a string, ...) on which the read yields [undefined]. *)
Inductive Json (A : Type) : Type :=
| JsonNull
| JsonObject (key : option (list A))
| JsonOther.
Arguments JsonNull {A}.
Arguments JsonOther {A}.

(** A [Response]: its [ok] flag and its body, [None] when the body is not
    parseable as JSON. *)
Record Response (A : Type) : Type := {
  ok : bool;
  body : option (Json A)
}.

(** How a [fetch] settles. *)
Inductive Fetch (A : Type) : Type :=
| Rejected
| Resolved (r : Response A).
Arguments Rejected {A}.

(** [await Promise.all ([p, q])]: both responses, or the throw of a
    rejection. *)
Definition Promise_all {A B} (p : Fetch A) (q : Fetch B)
  : M (Response A * Response B) :=
  match p, q with
  | Resolved a, Resolved b => ret (a, b)
  | _, _ => throw TypeError
  end.

(** [await response.json ()]. *)
Definition json {A} (r : Response A) : M (Json A) :=
  match body r with
  | Some j => ret j
  | None => throw SyntaxError
  end.

(** [data.experiments] / [data.recommendations]: the read of the key. *)
Definition get_key {A} (data : Json A) : M (option (list A)) :=
  match data with
  | JsonNull => throw TypeError
  | JsonObject key => ret key
  | JsonOther => ret None
  end.

Definition showError (message : string) (w : World) : World :=
  let fragment := EmptyStateDiv "⚠" message in
  {| st := st w;
     doc := set_experiments_tbody fragment
              (set_recommendations_list fragment (doc w)) |}.

(** ** UI Updates *)

(** [v === s] for a string [s] and a key that may be absent. *)
Definition strict_eq (v : option string) (s : string) : bool :=
  match v with
  | Some x => x =? s
  | None => false
  end.

(** The four assignments to [textContent], the numbers turned to text. *)
Definition updateStats (w : World) : World :=
  let s := st w in
  let pending := filter (fun r => status r =? "pending") (recommendations s) in
  let completed := filter (fun r => status r =? "completed") (recommendations s) in
  let imported := List.length (filter (fun e => strict_eq (source e) "imported") (experiments s)) in
  let recommendation := List.length (filter (fun e => strict_eq (source e) "recommendation") (experiments s)) in
  let manual := List.length (filter (fun e => strict_eq (source e) "manual") (experiments s)) in
  {| st := s;
     doc := set_stats
              (JS.String_of_nat (List.length (experiments s)))
              (JS.String_of_nat (List.length pending))
              (JS.String_of_nat (List.length completed))
              (JS.String_of_nat imported ++ "/" ++ JS.String_of_nat recommendation
                 ++ "/" ++ JS.String_of_nat manual)
              (doc w) |}.

Definition updateBadges (w : World) : World :=
  let s := st w in
  let pending := List.length (filter (fun r => status r =? "pending") (recommendations s)) in
  let completed := List.length (filter (fun r => status r =? "completed") (recommendations s)) in
  let skipped := List.length (filter (fun r => status r =? "skipped") (recommendations s)) in
  {| st := s;
     doc := set_badges (JS.String_of_nat pending) (JS.String_of_nat completed)
              (JS.String_of_nat skipped) (doc w) |}.

(** ** Recommendations Display *)

Definition createRecommendationCard_formatNum (n : JS.value) (decimals : nat)
  : option string :=
  match n with
  | JS.Null => Some "--"
  | JS.Undefined => Some "--"
  | JS.Num _ => JS.toFixed (JS.ToNumber n) decimals
  end.

Definition createRecommendationCard (rec : Recommendation) : Card :=
  let conditions := or_else (conditions rec) no_conditions in
  let predictions := or_else (predictions rec) no_predictions in
  let target := or_else (target rec) no_target in
  let formatNum := createRecommendationCard_formatNum in
  let skipInfo :=
    match skip_reason rec with
    | Some reason => if reason =? "" then None else Some reason
    | None => None
    end in
  {| card_data_status := status rec;
     card_rec_id := rec_id rec;
     card_target_size := formatNum (size target) 1%nat;
     card_target_tolerance := formatNum (tolerance target) 1%nat;
     card_status_badge := status rec;
     card_Temp := formatNum (cond_Temp conditions) 1%nat;
     card_Time := formatNum (cond_Time conditions) 1%nat;
     card_VOacac := formatNum (cond_VOacac conditions) 2%nat;
     card_DDT := formatNum (cond_DDT conditions) 2%nat;
     card_OAm := formatNum (cond_OAm conditions) 2%nat;
     card_size_mu := formatNum (size_mu predictions) 1%nat;
     card_size_std := formatNum (size_std predictions) 1%nat;
     card_gsd_mu := formatNum (gsd_mu predictions) 3%nat;
     card_gsd_std := formatNum (gsd_std predictions) 3%nat;
     card_sq_mu := formatNum (sq_mu predictions) 3%nat;
     card_sq_std := formatNum (sq_std predictions) 3%nat;
     card_p_feasible :=
       formatNum (JS.Num (JS.times (p_feasible predictions) 100)) 1%nat;
     card_skip_reason := skipInfo |}.

(** [(a, b) => new Date (b.timestamp) - new Date (a.timestamp)]: the
    difference of two time values, whose sign is that of the difference of
    the integers. *)
Definition byTimestamp (a b : Recommendation) : Z :=
  (timestamp b - timestamp a)%Z.

Definition updateRecommendations (w : World) : World :=
  let s := st w in
  let filtered : JS.binding Recommendation := JS.SameArray in
  let filtered :=
    if negb (currentFilter s =? "all")
    then JS.NewArray (filter (fun r => status r =? currentFilter s)
                             (JS.contents (recommendations s) filtered))
    else filtered in
  let '(owned, filtered) := JS.sort_in_place byTimestamp (recommendations s) filtered in
  let s := set_recommendations owned s in
  let filtered := JS.contents owned filtered in
  match filtered with
  | [] =>
      {| st := s;
         doc := set_recommendations_list
                  (EmptyStateDiv "◇"
                     ("No " ++ (if currentFilter s =? "all" then "" else currentFilter s)
                        ++ " recommendations found."))
                  (doc w) |}
  | _ :: _ =>
      {| st := s;
         doc := set_recommendations_list
                  (Cards (map createRecommendationCard filtered)) (doc w) |}
  end.

(** ** Experiments Table *)

Definition createExperimentRow_formatNum (n : JS.value) (decimals : nat)
  : option string :=
  match n with
  | JS.Null => Some "--"
  | JS.Undefined => Some "--"
  | JS.Num _ => if JS.isNaN n then Some "--" else JS.toFixed (JS.ToNumber n) decimals
  end.

Definition createExperimentRow (exp : Experiment) : Row :=
  let formatNum := createExperimentRow_formatNum in
  let sourceClass :=
    match source exp with
    | Some src => if src =? "" then "imported" else src
    | None => "imported"
    end in
  {| row_exp_id := exp_id exp;
     row_Temp := formatNum (Temp exp) 0%nat;
     row_Time := formatNum (Time exp) 1%nat;
     row_VOacac := formatNum (VOacac exp) 2%nat;
     row_DDT := formatNum (DDT exp) 2%nat;
     row_OAm := formatNum (OAm exp) 2%nat;
     row_Size := formatNum (Size exp) 1%nat;
     row_GSD := formatNum (GSD exp) 3%nat;
     row_Squareness := formatNum (Squareness exp) 3%nat;
     row_source_tag := sourceClass |}.

(** [parseInt (e.exp_id.replace (/\D/g, '')) || 0] *)
Definition exp_num (e : Experiment) : Z :=
  JS.or_zero (JS.parseInt (JS.strip_non_digits (exp_id e))).

(** The comparator of the experiments.  [numA - numB] has the sign of the
    difference of the two integers; Infinity - Infinity is NaN, which
    [sort] reads as 0, the difference of 2^1024 and itself. *)
Definition byExpId (a b : Experiment) : Z :=
  let numA := exp_num a in
  let numB := exp_num b in
  (numA - numB)%Z.

Definition updateExperimentsTable (w : World) : World :=
  let s := st w in
  let filtered : JS.binding Experiment := JS.SameArray in
  let filtered :=
    if negb (currentSource s =? "all")
    then JS.NewArray (filter (fun e => strict_eq (source e) (currentSource s))
                             (JS.contents (experiments s) filtered))
    else filtered in
  let '(owned, filtered) := JS.sort_in_place byExpId (experiments s) filtered in
  let s := set_experiments owned s in
  let filtered := JS.contents owned filtered in
  match filtered with
  | [] =>
      {| st := s;
         doc := set_experiments_tbody
                  (EmptyStateRow "No experiments found for the selected source.")
                  (doc w) |}
  | _ :: _ =>
      {| st := s;
         doc := set_experiments_tbody (Rows (map createExperimentRow filtered)) (doc w) |}
  end.

Definition updateUI (w : World) : World :=
  updateBadges (updateExperimentsTable (updateRecommendations (updateStats w))).

(** [expFetch] and [recFetch] are how the two requests settle. *)
Definition loadData (expFetch : Fetch Experiment) (recFetch : Fetch Recommendation)
  : World -> World :=
  try_catch
    (responses <- Promise_all expFetch recFetch ;;
     let '(expResponse, recResponse) := responses in
     (if negb (ok expResponse) || negb (ok recResponse)
      then throw (Error "Failed to load data files")
      else ret tt) ;;
     expData <- json expResponse ;;
     recData <- json recResponse ;;
     exps <- get_key expData ;;
     assign (set_experiments (or_else exps [])) ;;
     recs <- get_key recData ;;
     assign (set_recommendations (or_else recs [])) ;;
     assign (set_isLoading false) ;;
     perform updateUI)%js
    (fun error =>
       perform (showError
         "Unable to load data. Make sure the JSON files are in the data/ folder.")).

(** ** Event Handlers

    The two click listeners that [setupEventListeners] installs on the
    filter tabs; the argument is the [data-filter] or [data-source] value of
    the tab clicked, which becomes the active one of its group. *)
Definition filterTab_click (filter : string) (w : World) : World :=
  updateRecommendations
    {| st := set_currentFilter filter (st w);
       doc := set_active_filter_tab filter (doc w) |}.

Definition sourceTab_click (src : string) (w : World) : World :=
  updateExperimentsTable
    {| st := set_currentSource src (st w);
       doc := set_active_source_tab src (doc w) |}.

(** ** The event loop

    The handlers run one at a time, each to its end.  [loadData] reads and
    writes nothing before its last [await], so a load is one step, taken
    when its two requests have settled and their bodies are parsed. *)
Inductive Event : Type :=
| Loaded (expFetch : Fetch Experiment) (recFetch : Fetch Recommendation)
| FilterTabClicked (filter : string)
| SourceTabClicked (src : string).

Definition handle (ev : Event) (w : World) : World :=
  match ev with
  | Loaded expFetch recFetch => loadData expFetch recFetch w
  | FilterTabClicked filter => filterTab_click filter w
  | SourceTabClicked src => sourceTab_click src w
  end.

Definition run (evs : list Event) (w : World) : World :=
  fold_left (fun w ev => handle ev w) evs w.

(** The listener of the navigation links: every link of the group loses
    the class [active], then the element clicked gets it.  A group is the
    list of its links' [active] flags; [target] is the position of the link
    clicked. *)
Definition navLink_click (target : nat) (links : list bool) : list bool :=
  let cleared := map (fun _ => false) links in
  firstn target cleared ++ match skipn target cleared with
                           | [] => []
                           | _ :: rest => true :: rest
                           end.

(** ** The prediction form and the copy button *)

(** The [value] of the five inputs of the form, by name; [None] where the
    form has no input of that name. *)
Record PredictForm : Type := {
  input_Temp : option string;
  input_Time : option string;
  input_VOacac : option string;
  input_DDT : option string;
  input_OAm : option string
}.

Record CopyButton : Type := {
  btn_innerHTML : string;
  btn_background : string
}.

(** What the three functions below read and write: the elements
    [predict-form], [notebook-code] (its text) and [copy-code-btn], each
    [None] when the page lacks it; the text on the system clipboard; the
    texts handed to [writeText] whose promise has not settled, oldest
    first; the [originalText] of each pending [setTimeout] callback, oldest
    first; and the messages shown by [alert], latest first. *)
Record Page : Type := {
  predict_form : option PredictForm;
  notebook_code : option string;
  copy_code_btn : option CopyButton;
  clipboard : string;
  pending_writes : list string;
  timers : list string;
  alerts : list string
}.

Definition set_predict_form (v : PredictForm) (p : Page) : Page :=
  {| predict_form := Some v; notebook_code := notebook_code p;
     copy_code_btn := copy_code_btn p; clipboard := clipboard p;
     pending_writes := pending_writes p; timers := timers p;
     alerts := alerts p |}.

Definition set_notebook_code (v : string) (p : Page) : Page :=
  {| predict_form := predict_form p; notebook_code := Some v;
     copy_code_btn := copy_code_btn p; clipboard := clipboard p;
     pending_writes := pending_writes p; timers := timers p;
     alerts := alerts p |}.

Definition set_copy_code_btn (v : CopyButton) (p : Page) : Page :=
  {| predict_form := predict_form p; notebook_code := notebook_code p;
     copy_code_btn := Some v; clipboard := clipboard p;
     pending_writes := pending_writes p; timers := timers p;
     alerts := alerts p |}.

Definition set_clipboard (v : string) (p : Page) : Page :=
  {| predict_form := predict_form p; notebook_code := notebook_code p;
     copy_code_btn := copy_code_btn p; clipboard := v;
     pending_writes := pending_writes p; timers := timers p;
     alerts := alerts p |}.

Definition set_pending_writes (v : list string) (p : Page) : Page :=
  {| predict_form := predict_form p; notebook_code := notebook_code p;
     copy_code_btn := copy_code_btn p; clipboard := clipboard p;
     pending_writes := v; timers := timers p;
     alerts := alerts p |}.

Definition set_timers (v : list string) (p : Page) : Page :=
  {| predict_form := predict_form p; notebook_code := notebook_code p;
     copy_code_btn := copy_code_btn p; clipboard := clipboard p;
     pending_writes := pending_writes p; timers := v;
     alerts := alerts p |}.

Definition alert (message : string) (p : Page) : Page :=
  {| predict_form := predict_form p; notebook_code := notebook_code p;
     copy_code_btn := copy_code_btn p; clipboard := clipboard p;
     pending_writes := pending_writes p; timers := timers p;
     alerts := message :: alerts p |}.

(** A line feed and a double quote. *)
Definition LF : string := String "010"%char EmptyString.
Definition DQ : string := String "034"%char EmptyString.

(** The template literal of [updateNotebookCode]. *)
Definition notebook_template (temp time voacac ddt oam : string) : string :=
  "# Run this in your Cu3VS4_SelfValidating_BO.ipynb notebook" ++ LF
  ++ "# Make sure to initialize the optimizer first!" ++ LF
  ++ LF
  ++ "optimizer.predict_from_conditions(" ++ LF
  ++ "    Temp=" ++ temp ++ "," ++ LF
  ++ "    Time=" ++ time ++ "," ++ LF
  ++ "    VOacac=" ++ voacac ++ "," ++ LF
  ++ "    DDT=" ++ ddt ++ "," ++ LF
  ++ "    OAm=" ++ oam ++ LF
  ++ ")".

(** Reads the five values, then writes the text of the code block; a
    property read on [null] (no form, no input of a name, no code block)
    throws before anything is written. *)
Definition updateNotebookCode (p : Page) : completion Page :=
  match predict_form p with
  | None => Throw TypeError
  | Some form =>
      match input_Temp form, input_Time form, input_VOacac form,
            input_DDT form, input_OAm form with
      | Some temp, Some time, Some voacac, Some ddt, Some oam =>
          match notebook_code p with
          | None => Throw TypeError
          | Some _ =>
              Return (set_notebook_code
                        (notebook_template temp time voacac ddt oam) p)
          end
      | _, _, _, _, _ => Throw TypeError
      end
  end.

Definition copy_failed : string :=
  "Failed to copy to clipboard. Please select and copy manually.".

Definition copied_markup : string :=
  "<span class=" ++ DQ ++ "btn-icon" ++ DQ ++ ">✓</span> Copied!".

(** [copyNotebookCode] up to its [await]: the text of the code block is
    read and handed to [navigator.clipboard.writeText].  Without a code
    block the read throws inside the [try], and the handler alerts. *)
Definition copyNotebookCode (p : Page) : Page :=
  match notebook_code p with
  | None => alert copy_failed p
  | Some text => set_pending_writes (pending_writes p ++ [text])%list p
  end.

(** [copyNotebookCode] after its [await], when the oldest pending write
    settles: granted, the text is on the clipboard and the button shows
    the confirmation, a timer holding its former markup; denied (or with
    no button to read), the handler alerts. *)
Definition copyNotebookCode_resumed (granted : bool) (p : Page) : Page :=
  match pending_writes p with
  | [] => p
  | text :: rest =>
      let p := set_pending_writes rest p in
      if granted then
        let p := set_clipboard text p in
        match copy_code_btn p with
        | None => alert copy_failed p
        | Some copyBtn =>
            let originalText := btn_innerHTML copyBtn in
            set_timers (timers p ++ [originalText])%list
              (set_copy_code_btn
                 {| btn_innerHTML := copied_markup;
                    btn_background := "var(--status-completed)" |} p)
        end
      else alert copy_failed p
  end.

(** The callback of the oldest pending [setTimeout], 2000 ms after it was
    set. *)
Definition timeout_fired (p : Page) : Page :=
  match timers p with
  | [] => p
  | originalText :: rest =>
      set_copy_code_btn {| btn_innerHTML := originalText; btn_background := "" |}
        (set_timers rest p)
  end.

(** [e.preventDefault ()] aside: the code is rebuilt, then copied; a throw
    of the first ends the handler. *)
Definition handlePredictForm (p : Page) : completion Page :=
  match updateNotebookCode p with
  | Return p' => Return (copyNotebookCode p')
  | Throw e => Throw e
  end.

(** The [input] listener of the form, the user having brought the inputs
    to [edited]. *)
Definition predictForm_input (edited : PredictForm) (p : Page) : completion Page :=
  updateNotebookCode (set_predict_form edited p).

(* ================================================================== *)
(** * Part 3: the vocabulary of the properties *)
(* ================================================================== *)

(** The experiments the selection asks for: those whose source equals
    [currentSource], every one of them under ['all'].  Likewise for the
    recommendations and [currentFilter]. *)
Definition selected_experiments (s : State) : list Experiment :=
  if currentSource s =? "all" then experiments s
  else filter (fun e => strict_eq (source e) (currentSource s)) (experiments s).

Definition selected_recommendations (s : State) : list Recommendation :=
  if currentFilter s =? "all" then recommendations s
  else filter (fun r => status r =? currentFilter s) (recommendations s).

(** The rows of a table body and the cards of a list; markup of another
    shape holds none. *)
Definition rows_of (h : Html) : list Row :=
  match h with
  | Rows rows => rows
  | _ => []
  end.

Definition cards_of (h : Html) : list Card :=
  match h with
  | Cards cards => cards
  | _ => []
  end.

(** What each renderer assigns to [innerHTML] for the array it shows. *)
Definition experiments_markup (shown : list Experiment) : Html :=
  match shown with
  | [] => EmptyStateRow "No experiments found for the selected source."
  | _ :: _ => Rows (map createExperimentRow shown)
  end.

Definition recommendations_markup (filter : string) (shown : list Recommendation)
  : Html :=
  match shown with
  | [] => EmptyStateDiv "◇"
            ("No " ++ (if filter =? "all" then "" else filter)
               ++ " recommendations found.")
  | _ :: _ => Cards (map createRecommendationCard shown)
  end.

(** The two orders of the tables. *)
Definition by_number (a b : Experiment) : Prop := (exp_num a <= exp_num b)%Z.
Definition latest_first (a b : Recommendation) : Prop := (timestamp a >= timestamp b)%Z.

(** How many elements satisfy a test. *)
Definition count {A} (p : A -> bool) (l : list A) : nat := List.length (filter p l).

Definition with_status (s : string) (r : Recommendation) : bool := status r =? s.
Definition from_source (s : string) (e : Experiment) : bool := strict_eq (source e) s.

(** [label] occurs somewhere in [text]. *)
Definition mentions (label text : string) : bool :=
  match index 0 label text with
  | Some _ => true
  | None => false
  end.

(** The fragment [showError] puts into both panels. *)
Definition error_fragment : Html :=
  EmptyStateDiv "⚠"
    "Unable to load data. Make sure the JSON files are in the data/ folder.".

(** A request that does not deliver a document: rejected, answered with a
    status outside 200-299, or answered with a body that is not JSON. *)
Definition failed {A} (f : Fetch A) : bool :=
  match f with
  | Rejected => true
  | Resolved r =>
      negb (ok r) || match body r with Some _ => false | None => true end
  end.

(** A request answered with status 200 and the JSON object [{key: ..}]. *)
Definition delivered {A} (key : option (list A)) : Fetch A :=
  Resolved {| ok := true; body := Some (JsonObject key) |}.

(** ** Sample data *)

(** A page whose elements are still empty. *)
Definition blank_page : Document :=
  {| total_experiments := ""; pending_count := ""; completed_count := "";
     model_accuracy := ""; pending_badge := ""; completed_badge := "";
     skipped_badge := "";
     recommendations_list := Cards []; experiments_tbody := Rows [];
     active_filter_tab := "pending"; active_source_tab := "all" |}.

(** The world when the script has been read and nothing has happened yet. *)
Definition at_start : World := {| st := state; doc := blank_page |}.

Definition sample_experiment (id : string) (src : string) : Experiment :=
  {| exp_id := id;
     Temp := JS.Num (JS.Finite 280); Time := JS.Num (JS.Finite 30);
     VOacac := JS.Num (JS.Finite (1 # 2)); DDT := JS.Num (JS.Finite 2);
     OAm := JS.Num (JS.Finite 8); Size := JS.Num (JS.Finite (25 # 2));
     GSD := JS.Num (JS.Finite (5 # 4)); Squareness := JS.Null;
     source := Some src |}.

Definition sample_recommendation (id st : string) (t : Z) : Recommendation :=
  {| rec_id := id; status := st;
     conditions := Some {| cond_Temp := JS.Num (JS.Finite 285);
                           cond_Time := JS.Num (JS.Finite 45);
                           cond_VOacac := JS.Num (JS.Finite (1 # 2));
                           cond_DDT := JS.Num (JS.Finite 2);
                           cond_OAm := JS.Num (JS.Finite 8) |};
     predictions := None;
     target := Some {| size := JS.Num (JS.Finite 12);
                       tolerance := JS.Num (JS.Finite 1) |};
     timestamp := t;
     skip_reason := None |}.

(** ** Vocabulary of the further properties *)

(** The three ways a call of [loadData] can end: in the handler with
    nothing assigned; in the handler with the experiments assigned (the
    read of [recData.recommendations] threw); or past [updateUI] with both
    arrays assigned. *)
Inductive LoadOutcome : Type :=
| NothingAssigned
| ExperimentsAssigned (exps : list Experiment)
| BothAssigned (exps : list Experiment) (recs : list Recommendation).

(** The array read under the key of a document that is not [null]. *)
Definition array_of {A} (j : Json A) : option (list A) :=
  match j with
  | JsonNull => None
  | JsonObject key => Some (or_else key [])
  | JsonOther => Some []
  end.

Definition load_outcome (expFetch : Fetch Experiment) (recFetch : Fetch Recommendation)
  : LoadOutcome :=
  match expFetch, recFetch with
  | Resolved expResponse, Resolved recResponse =>
      if ok expResponse && ok recResponse then
        match body expResponse, body recResponse with
        | Some expData, Some recData =>
            match array_of expData, array_of recData with
            | Some exps, Some recs => BothAssigned exps recs
            | Some exps, None => ExperimentsAssigned exps
            | None, _ => NothingAssigned
            end
        | _, _ => NothingAssigned
        end
      else NothingAssigned
  | _, _ => NothingAssigned
  end.

Definition load_error : string :=
  "Unable to load data. Make sure the JSON files are in the data/ folder.".

(** The active tab of each group is the selection in force. *)
Definition tabs_in_sync (w : World) : Prop :=
  active_filter_tab (doc w) = currentFilter (st w)
  /\ active_source_tab (doc w) = currentSource (st w).

(** A panel shows what its renderer makes of the state as it is now. *)
Definition recommendations_panel_current (w : World) : Prop :=
  recommendations_list (doc w)
  = recommendations_markup (currentFilter (st w))
      (JS.sort byTimestamp (selected_recommendations (st w))).

Definition experiments_panel_current (w : World) : Prop :=
  experiments_tbody (doc w)
  = experiments_markup (JS.sort byExpId (selected_experiments (st w))).

(** The statistics and the badges show the counts of the state as it is
    now. *)
Definition statistics_current (w : World) : Prop :=
  total_experiments (doc w) = JS.String_of_nat (List.length (experiments (st w)))
  /\ pending_count (doc w)
     = JS.String_of_nat (count (with_status "pending") (recommendations (st w)))
  /\ completed_count (doc w)
     = JS.String_of_nat (count (with_status "completed") (recommendations (st w)))
  /\ model_accuracy (doc w)
     = JS.String_of_nat (count (from_source "imported") (experiments (st w)))
       ++ "/" ++ JS.String_of_nat (count (from_source "recommendation") (experiments (st w)))
       ++ "/" ++ JS.String_of_nat (count (from_source "manual") (experiments (st w)))
  /\ pending_badge (doc w)
     = JS.String_of_nat (count (with_status "pending") (recommendations (st w)))
  /\ completed_badge (doc w)
     = JS.String_of_nat (count (with_status "completed") (recommendations (st w)))
  /\ skipped_badge (doc w)
     = JS.String_of_nat (count (with_status "skipped") (recommendations (st w))).

(** A panel shows the state as it is now, or the error fragment. *)
Definition panels_current_or_error (w : World) : Prop :=
  (recommendations_panel_current w
   \/ recommendations_list (doc w) = error_fragment)
  /\ (experiments_panel_current w
      \/ experiments_tbody (doc w) = error_fragment).

(** An event that assigns the experiments and then fails. *)
Definition assigns_experiments_only (ev : Event) : bool :=
  match ev with
  | Loaded expFetch recFetch =>
      match load_outcome expFetch recFetch with
      | ExperimentsAssigned _ => true
      | _ => false
      end
  | _ => false
  end.

Definition is_load (ev : Event) : bool :=
  match ev with
  | Loaded _ _ => true
  | _ => false
  end.

Definition is_filter_click (ev : Event) : bool :=
  match ev with
  | FilterTabClicked _ => true
  | _ => false
  end.

Definition is_source_click (ev : Event) : bool :=
  match ev with
  | SourceTabClicked _ => true
  | _ => false
  end.

(** A decimal numeral: digits and points, after an optional minus sign. *)
Definition numeral_char (c : ascii) : bool :=
  JS.is_digit c || Ascii.eqb c "."%char.

Fixpoint all_chars (p : ascii -> bool) (s : string) : bool :=
  match s with
  | EmptyString => true
  | String c s' => p c && all_chars p s'
  end.

Definition numeral (s : string) : bool :=
  match s with
  | EmptyString => false
  | String c s' =>
      if Ascii.eqb c "-"%char then all_chars numeral_char s'
      else all_chars numeral_char s
  end.

(** A numeral in exponent form: after an optional minus sign a digit, then
    digits, a point, [e] and [+]. *)
Definition scientific_char (c : ascii) : bool :=
  JS.is_digit c || Ascii.eqb c "."%char || Ascii.eqb c "e"%char || Ascii.eqb c "+"%char.

Definition unsigned_scientific (s : string) : bool :=
  match s with
  | EmptyString => false
  | String c rest => JS.is_digit c && all_chars scientific_char rest
  end.

Definition scientific (s : string) : bool :=
  match s with
  | EmptyString => false
  | String c s' =>
      if Ascii.eqb c "-"%char then unsigned_scientific s' else unsigned_scientific s
  end.

(** The source shown for an experiment: its tag in the table. *)
Definition shown_as (s : string) (e : Experiment) : bool :=
  row_source_tag (createExperimentRow e) =? s.

Definition known_source (e : Experiment) : bool :=
  from_source "imported" e || from_source "recommendation" e || from_source "manual" e.

Definition tagged (s : string) (r : Row) : bool := row_source_tag r =? s.

Definition without_source (e : Experiment) : bool :=
  match source e with
  | Some src => src =? ""
  | None => true
  end.

Definition non_digit (c : ascii) : bool := negb (JS.is_digit c).

(** The integer of an id, in the words of the specification: every
    character that is no decimal digit is dropped and the digits that are
    left are read in base ten; what leaves no digit counts as 0.  An id is
    malformed when it holds no digit at all. *)
Definition digit_of (c : ascii) : option Z :=
  match c with
  | "0"%char => Some 0%Z
  | "1"%char => Some 1%Z
  | "2"%char => Some 2%Z
  | "3"%char => Some 3%Z
  | "4"%char => Some 4%Z
  | "5"%char => Some 5%Z
  | "6"%char => Some 6%Z
  | "7"%char => Some 7%Z
  | "8"%char => Some 8%Z
  | "9"%char => Some 9%Z
  | _ => None
  end.

Fixpoint integer_of (acc : Z) (id : string) : Z :=
  match id with
  | EmptyString => acc
  | String c id' =>
      match digit_of c with
      | Some d => integer_of (10 * acc + d)%Z id'
      | None => integer_of acc id'
      end
  end.

Definition id_integer (id : string) : Z := integer_of 0%Z id.

Definition malformed (id : string) : bool :=
  all_chars (fun c => match digit_of c with None => true | Some _ => false end) id.

Definition by_integer (a b : Experiment) : Prop :=
  (id_integer (exp_id a) <= id_integer (exp_id b))%Z.

(** A text without a line feed. *)
Definition one_line (s : string) : bool :=
  all_chars (fun c => negb (Ascii.eqb c "010"%char)) s.

(** A form with all five inputs. *)
Definition form_of (temp time voacac ddt oam : string) : PredictForm :=
  {| input_Temp := Some temp; input_Time := Some time;
     input_VOacac := Some voacac; input_DDT := Some ddt; input_OAm := Some oam |}.

(** [f] applied [n] times. *)
Fixpoint repeatedly {A} (n : nat) (f : A -> A) (a : A) : A :=
  match n with
  | O => a
  | S n' => repeatedly n' f (f a)
  end.

(** A page with the form, the code block and the button, nothing pending. *)
Definition sample_page : Page :=
  {| predict_form := Some (form_of "280" "30" "0.5" "2" "8");
     notebook_code := Some "";
     copy_code_btn := Some {| btn_innerHTML := "Copy Code"; btn_background := "" |};
     clipboard := "";
     pending_writes := [];
     timers := [];
     alerts := [] |}.

Definition card_with_status (s : string) (c : Card) : bool := card_data_status c =? s.

(* ================================================================== *)
(** * Part 4: properties *)
(* ================================================================== *)

Local Open Scope Z_scope.

(** ** The runtime's sort, for a comparator that orders by an integer key *)

Section SortByKey.
Variable A : Type.
Variable comparefn : A -> A -> Z.
Variable key : A -> Z.
Hypothesis comparefn_key :
  forall a b, (comparefn a b <=? 0) = (key a <=? key b).

Lemma insert_perm (x : A) (l : list A) :
  Permutation (JS.insert comparefn x l) (x :: l).
Proof.
  induction l as [|y l IH]; simpl.
  - apply Permutation_refl.
  - destruct (comparefn x y <=? 0).
    + apply Permutation_refl.
    + eapply perm_trans; [apply perm_skip, IH | apply perm_swap].
Qed.

Lemma sort_perm (l : list A) : Permutation (JS.sort comparefn l) l.
Proof.
  induction l as [|x l IH]; simpl.
  - constructor.
  - eapply perm_trans; [apply insert_perm | apply perm_skip, IH].
Qed.

Lemma insert_sorted (x : A) (l : list A) :
  StronglySorted (fun a b => key a <= key b) l ->
  StronglySorted (fun a b => key a <= key b) (JS.insert comparefn x l).
Proof.
  induction 1 as [|y l Hl IH Hy]; simpl.
  - repeat constructor.
  - rewrite comparefn_key. destruct (Z.leb_spec (key x) (key y)) as [Hxy|Hxy].
    + constructor; [constructor; assumption|].
      constructor; [exact Hxy|].
      eapply Forall_impl; [|exact Hy]. simpl. intros; lia.
    + constructor; [exact IH|].
      eapply Permutation_Forall; [apply Permutation_sym, insert_perm|].
      constructor; [lia | exact Hy].
Qed.

Lemma sort_sorted (l : list A) :
  StronglySorted (fun a b => key a <= key b) (JS.sort comparefn l).
Proof.
  induction l as [|x l IH]; simpl.
  - constructor.
  - apply insert_sorted, IH.
Qed.

(** Stability: the elements of one key come out in the order they went in. *)
Lemma insert_stable (k : Z) (x : A) (l : list A) :
  filter (fun a => key a =? k) (JS.insert comparefn x l)
  = filter (fun a => key a =? k) (x :: l).
Proof.
  induction l as [|y l IH]; simpl.
  - reflexivity.
  - rewrite comparefn_key. destruct (Z.leb_spec (key x) (key y)) as [Hxy|Hxy].
    + reflexivity.
    + simpl. rewrite IH. simpl.
      destruct (Z.eqb_spec (key x) k), (Z.eqb_spec (key y) k);
        try reflexivity; lia.
Qed.

Lemma sort_stable (k : Z) (l : list A) :
  filter (fun a => key a =? k) (JS.sort comparefn l)
  = filter (fun a => key a =? k) l.
Proof.
  induction l as [|x l IH]; simpl.
  - reflexivity.
  - rewrite insert_stable. simpl. rewrite IH. reflexivity.
Qed.

(** An array already in order is left as it is. *)
Lemma sort_sorted_id (l : list A) :
  Sorted (fun a b => key a <= key b) l -> JS.sort comparefn l = l.
Proof.
  induction 1 as [|x l Hl IH Hx]; simpl.
  - reflexivity.
  - rewrite IH. destruct Hx as [|y l' Hxy]; simpl.
    + reflexivity.
    + rewrite comparefn_key.
      destruct (Z.leb_spec (key x) (key y)); [reflexivity | lia].
Qed.

End SortByKey.

Lemma StronglySorted_weaken {A} (R S : A -> A -> Prop) (l : list A) :
  (forall a b, R a b -> S a b) -> StronglySorted R l -> StronglySorted S l.
Proof.
  intros HRS. induction 1 as [|x l Hl IH Hx]; constructor.
  - exact IH.
  - eapply Forall_impl; [|exact Hx]. intros b; apply HRS.
Qed.

Lemma Sorted_weaken {A} (R S : A -> A -> Prop) (l : list A) :
  (forall a b, R a b -> S a b) -> Sorted R l -> Sorted S l.
Proof.
  intros HRS. induction 1 as [|x l Hl IH Hx]; constructor.
  - exact IH.
  - destruct Hx; constructor. apply HRS; assumption.
Qed.

(** Counting is blind to the order of the array. *)
Lemma count_perm {A} (p : A -> bool) (l l' : list A) :
  Permutation l l' -> count p l = count p l'.
Proof.
  unfold count. induction 1 as [|x l l' _ IH|x y l|l l' l'' _ IH1 _ IH2]; simpl.
  - reflexivity.
  - destruct (p x); simpl; congruence.
  - destruct (p x), (p y); reflexivity.
  - congruence.
Qed.

(** ** The outcome of a stable sort is unique *)

Section StableSortUnique.
Variable A : Type.
Variable key : A -> Z.

Lemma filter_key_head (x : A) (l : list A) :
  filter (fun a => key a =? key x) (x :: l)
  = x :: filter (fun a => key a =? key x) l.
Proof. simpl. rewrite Z.eqb_refl. reflexivity. Qed.

Lemma filter_key_nonempty_In (k : Z) (l : list A) :
  filter (fun a => key a =? k) l <> [] -> exists a, In a l /\ key a = k.
Proof.
  intros H. destruct (filter (fun a => key a =? k) l) as [|a f] eqn:E;
    [contradiction|].
  assert (Ha : In a (filter (fun a => key a =? k) l)) by (rewrite E; left; reflexivity).
  apply filter_In in Ha. destruct Ha as [Ha Hk].
  exists a. split; [exact Ha | apply Z.eqb_eq, Hk].
Qed.

(** Two arrays in key order with the same elements of every key, in the
    same order, are the same array. *)
Lemma sorted_stable_unique (l1 l2 : list A) :
  StronglySorted (fun a b => key a <= key b) l1 ->
  StronglySorted (fun a b => key a <= key b) l2 ->
  (forall k, filter (fun a => key a =? k) l1 = filter (fun a => key a =? k) l2) ->
  l1 = l2.
Proof.
  intros S1. revert l2.
  induction S1 as [|x l1 S1 IH Hx]; intros l2 S2 H.
  - destruct l2 as [|y l2]; [reflexivity|].
    specialize (H (key y)). rewrite filter_key_head in H. discriminate.
  - destruct S2 as [|y l2 S2 Hy].
    + specialize (H (key x)). rewrite filter_key_head in H. discriminate.
    + assert (Hxy : key x = key y).
      { apply Z.le_antisymm.
        - destruct (filter_key_nonempty_In (key y) (x :: l1)) as [a [Ha Hk]].
          { rewrite H, filter_key_head. discriminate. }
          destruct Ha as [<-|Ha]; [lia|].
          rewrite Forall_forall in Hx. specialize (Hx a Ha). simpl in Hx. lia.
        - destruct (filter_key_nonempty_In (key x) (y :: l2)) as [a [Ha Hk]].
          { rewrite <- H, filter_key_head. discriminate. }
          destruct Ha as [<-|Ha]; [lia|].
          rewrite Forall_forall in Hy. specialize (Hy a Ha). simpl in Hy. lia. }
      assert (Hhead := H (key x)).
      simpl in Hhead. rewrite <- Hxy, Z.eqb_refl in Hhead.
      injection Hhead as Hx' Htl.
      subst y. f_equal. apply IH; [exact S2|].
      intros k. specialize (H k). simpl in H.
      destruct (Z.eqb_spec (key x) k) as [E|E].
      * subst k. exact Htl.
      * exact H.
Qed.

End StableSortUnique.

(** Whatever procedure the engine uses, an array that holds the elements of
    [l] in key order, those of one key in the order they had, is the array
    of [JS.sort]. *)
Lemma sort_is_the_stable_sort {A} (comparefn : A -> A -> Z) (key : A -> Z)
      (l sorted : list A) :
  (forall a b, (comparefn a b <=? 0) = (key a <=? key b)) ->
  StronglySorted (fun a b => key a <= key b) sorted ->
  (forall k, filter (fun a => key a =? k) sorted = filter (fun a => key a =? k) l) ->
  sorted = JS.sort comparefn l.
Proof.
  intros Hkey Hs Hst.
  apply (sorted_stable_unique key); [exact Hs | apply sort_sorted, Hkey |].
  intros k. rewrite Hst. symmetry. apply sort_stable, Hkey.
Qed.

(** Sorting a selection of the sorted array gives what sorting the
    selection of the array gives: the in-place sort under ['all'] does not
    show in a later render. *)
Lemma sort_filter_sort {A} (comparefn : A -> A -> Z) (key : A -> Z)
      (p : A -> bool) (l : list A) :
  (forall a b, (comparefn a b <=? 0) = (key a <=? key b)) ->
  JS.sort comparefn (filter p (JS.sort comparefn l)) = JS.sort comparefn (filter p l).
Proof.
  intros Hkey.
  apply (sort_is_the_stable_sort comparefn key); [exact Hkey | apply sort_sorted, Hkey |].
  intros k.
  rewrite (sort_stable comparefn key Hkey).
  assert (C : forall m, filter (fun a => key a =? k) (filter p m)
                        = filter p (filter (fun a => key a =? k) m)).
  { induction m as [|a m IH]; simpl; [reflexivity|].
    destruct (p a) eqn:Pa, (key a =? k) eqn:Ka; simpl;
      rewrite ?Pa, ?Ka, IH; reflexivity. }
  rewrite !C. rewrite (sort_stable comparefn key Hkey). reflexivity.
Qed.

Lemma sort_sort {A} (comparefn : A -> A -> Z) (key : A -> Z) (l : list A) :
  (forall a b, (comparefn a b <=? 0) = (key a <=? key b)) ->
  JS.sort comparefn (JS.sort comparefn l) = JS.sort comparefn l.
Proof.
  intros Hkey. apply (sort_sorted_id comparefn key Hkey).
  apply StronglySorted_Sorted, sort_sorted, Hkey.
Qed.

(** ** The two comparators order by a key *)

Lemma byExpId_key (a b : Experiment) :
  (byExpId a b <=? 0) = (exp_num a <=? exp_num b).
Proof.
  unfold byExpId.
  destruct (Z.leb_spec (exp_num a - exp_num b) 0), (Z.leb_spec (exp_num a) (exp_num b));
    try reflexivity; lia.
Qed.

Lemma byTimestamp_key (a b : Recommendation) :
  (byTimestamp a b <=? 0) = (- timestamp a <=? - timestamp b).
Proof.
  unfold byTimestamp.
  destruct (Z.leb_spec (timestamp b - timestamp a) 0),
           (Z.leb_spec (- timestamp a) (- timestamp b)); try reflexivity; lia.
Qed.

Lemma sort_byExpId_by_number (l : list Experiment) :
  StronglySorted by_number (JS.sort byExpId l).
Proof. exact (sort_sorted byExpId exp_num byExpId_key l). Qed.



(** ** What the two renderers write, and what they leave *)

Lemma updateExperimentsTable_doc (w : World) :
  doc (updateExperimentsTable w)
  = set_experiments_tbody
      (experiments_markup (JS.sort byExpId (selected_experiments (st w)))) (doc w).
Proof.
  unfold updateExperimentsTable, selected_experiments, experiments_markup.
  destruct (String.eqb (currentSource (st w)) "all"); simpl.
  - destruct (JS.sort byExpId (experiments (st w))); reflexivity.
  - destruct (JS.sort byExpId _); reflexivity.
Qed.

Lemma updateExperimentsTable_st (w : World) :
  st (updateExperimentsTable w)
  = set_experiments
      (if String.eqb (currentSource (st w)) "all"
       then JS.sort byExpId (experiments (st w)) else experiments (st w))
      (st w).
Proof.
  unfold updateExperimentsTable.
  destruct (String.eqb (currentSource (st w)) "all"); simpl.
  - destruct (JS.sort byExpId (experiments (st w))); reflexivity.
  - destruct (JS.sort byExpId _); reflexivity.
Qed.

Lemma updateRecommendations_doc (w : World) :
  doc (updateRecommendations w)
  = set_recommendations_list
      (recommendations_markup (currentFilter (st w))
         (JS.sort byTimestamp (selected_recommendations (st w)))) (doc w).
Proof.
  unfold updateRecommendations, selected_recommendations, recommendations_markup.
  destruct (String.eqb (currentFilter (st w)) "all") eqn:E; simpl.
  - destruct (JS.sort byTimestamp (recommendations (st w))); simpl;
      try rewrite E; reflexivity.
  - destruct (JS.sort byTimestamp _); simpl; try rewrite E; reflexivity.
Qed.

Lemma updateRecommendations_st (w : World) :
  st (updateRecommendations w)
  = set_recommendations
      (if String.eqb (currentFilter (st w)) "all"
       then JS.sort byTimestamp (recommendations (st w)) else recommendations (st w))
      (st w).
Proof.
  unfold updateRecommendations.
  destruct (String.eqb (currentFilter (st w)) "all"); simpl.
  - destruct (JS.sort byTimestamp (recommendations (st w))); reflexivity.
  - destruct (JS.sort byTimestamp _); reflexivity.
Qed.

Lemma rows_of_experiments_markup (shown : list Experiment) :
  rows_of (experiments_markup shown) = map createExperimentRow shown.
Proof. destruct shown; reflexivity. Qed.

Lemma cards_of_recommendations_markup (filter : string) (shown : list Recommendation) :
  cards_of (recommendations_markup filter shown) = map createRecommendationCard shown.
Proof. destruct shown; reflexivity. Qed.

Lemma selected_experiments_In (s : State) (e : Experiment) :
  In e (selected_experiments s)
  <-> In e (experiments s)
      /\ (currentSource s = "all"%string \/ source e = Some (currentSource s)).
Proof.
  unfold selected_experiments.
  destruct (String.eqb_spec (currentSource s) "all") as [E|E].
  - split; [intros H; split; [exact H | left; exact E] | intros [H _]; exact H].
  - rewrite filter_In. unfold strict_eq. split.
    + intros [H1 H2]. split; [exact H1|]. right.
      destruct (source e) as [x|]; [|discriminate].
      apply String.eqb_eq in H2. congruence.
    + intros [H1 [H2|H2]]; [contradiction|]. split; [exact H1|].
      rewrite H2. apply String.eqb_refl.
Qed.


(** ** The experiments table *)

Lemma double_of_integer_exact (n : Z) :
  n < 2 ^ 53 -> JS.double_of_integer n = n.
Proof.
  intros H. unfold JS.double_of_integer.
  destruct (Z.ltb_spec n (2 ^ 53)); [reflexivity | lia].
Qed.

Lemma exp_num_exact (e : Experiment) :
  JS.digits_value 0 (JS.strip_non_digits (exp_id e)) < 2 ^ 53 ->
  exp_num e = JS.digits_value 0 (JS.strip_non_digits (exp_id e)).
Proof.
  intros H. unfold exp_num, JS.parseInt.
  destruct (JS.strip_non_digits (exp_id e)) as [|c digits]; [reflexivity|].
  apply double_of_integer_exact, H.
Qed.

Lemma digit_of_is_digit (c : ascii) :
  digit_of c
  = if JS.is_digit c then Some (Z.of_nat (nat_of_ascii c) - 48) else None.
Proof. destruct c as [[] [] [] [] [] [] [] []]; reflexivity. Qed.

(** Reading the digits the pattern leaves is reading the integer of the
    id. *)
Lemma digits_value_strip (id : string) :
  forall acc : Z,
    JS.digits_value acc (JS.strip_non_digits id) = integer_of acc id.
Proof.
  induction id as [|c id IH]; intros acc; [reflexivity|].
  cbn [JS.strip_non_digits integer_of].
  rewrite digit_of_is_digit.
  destruct (JS.is_digit c); [cbn [JS.digits_value]|]; apply IH.
Qed.

Lemma exp_num_id_integer (e : Experiment) :
  exp_num e = JS.double_of_integer (id_integer (exp_id e)).
Proof.
  unfold exp_num, id_integer, JS.parseInt.
  rewrite <- digits_value_strip.
  destruct (JS.strip_non_digits (exp_id e)); reflexivity.
Qed.

Lemma exp_num_id_integer_exact (e : Experiment) :
  id_integer (exp_id e) < 2 ^ 53 -> exp_num e = id_integer (exp_id e).
Proof.
  intros H. rewrite exp_num_id_integer. apply double_of_integer_exact, H.
Qed.

Lemma integer_of_malformed (id : string) :
  malformed id = true -> forall acc : Z, integer_of acc id = acc.
Proof.
  unfold malformed.
  induction id as [|c id IH]; intros H acc; [reflexivity|].
  cbn [all_chars] in H. cbn [integer_of].
  destruct (digit_of c); [discriminate|]. apply IH, H.
Qed.

Lemma StronglySorted_In_impl {A} (R R' : A -> A -> Prop) (l : list A) :
  (forall a b, In a l -> In b l -> R a b -> R' a b) ->
  StronglySorted R l -> StronglySorted R' l.
Proof.
  intros H S. induction S as [|a l S IH F]; constructor.
  - apply IH. intros x y Hx Hy. apply H; right; assumption.
  - rewrite Forall_forall in *. intros x Hx.
    apply H; [left; reflexivity | right; exact Hx | apply F, Hx].
Qed.

Lemma filter_ext_on {A} (p q : A -> bool) (l : list A) :
  (forall a, In a l -> p a = q a) -> filter p l = filter q l.
Proof.
  induction l as [|x l IH]; intros H; simpl; [reflexivity|].
  rewrite (H x (or_introl eq_refl)), IH; [reflexivity|].
  intros a Ha. apply H. right. exact Ha.
Qed.

(** The rows of the table, whatever the ids: the selected experiments in
    ascending order of the Number [parseInt] returns, experiments of one
    such Number in the order they had. *)
Lemma experiments_table_selected_by_parsed_number (w : World) :
  rows_of (experiments_tbody (doc (updateExperimentsTable w)))
  = map createExperimentRow (JS.sort byExpId (selected_experiments (st w)))
  /\ Permutation (JS.sort byExpId (selected_experiments (st w)))
                 (selected_experiments (st w))
  /\ StronglySorted by_number (JS.sort byExpId (selected_experiments (st w)))
  /\ (forall n, filter (fun e => exp_num e =? n)
                       (JS.sort byExpId (selected_experiments (st w)))
                = filter (fun e => exp_num e =? n) (selected_experiments (st w))).
Proof.
  split; [|split; [|split]].
  - rewrite updateExperimentsTable_doc. simpl. apply rows_of_experiments_markup.
  - apply sort_perm.
  - apply sort_byExpId_by_number.
  - intros n. exact (sort_stable byExpId exp_num byExpId_key n _).
Qed.

(** C1.  Whatever the loaded experiments and the source selection, the rows
    of the rendered table are the rows of exactly the experiments whose
    source equals [currentSource] (of all of them under ['all']), each as
    often as it is loaded, in ascending order of the Number that [parseInt]
    returns for the digits of [exp_id], experiments of one such Number in
    the order they had.  That Number is the double nearest to the integer
    of the id (the id without its non-digit characters, read in base ten).
    So when the integer of every selected id is below 2^53, the rows are
    in ascending order of the integers of their ids, experiments of one
    integer in the order they had.  A malformed id, one without a digit,
    has the integer 0 and sorts as 0; the integers of E2, E10 and E1 are
    2, 10 and 1, and these ids come out as E1, E2, E10. *)
Theorem experiments_table_selected_in_integer_order :
  forall w : World,
    (exists shown : list Experiment,
        rows_of (experiments_tbody (doc (updateExperimentsTable w)))
        = map createExperimentRow shown
        /\ Permutation shown (selected_experiments (st w))
        /\ (forall e, In e shown <->
                      In e (experiments (st w))
                      /\ (currentSource (st w) = "all"%string
                          \/ source e = Some (currentSource (st w))))
        /\ StronglySorted by_number shown
        /\ (forall n, filter (fun e => exp_num e =? n) shown
                      = filter (fun e => exp_num e =? n) (selected_experiments (st w)))
        /\ ((forall e, In e (selected_experiments (st w)) ->
                       id_integer (exp_id e) < 2 ^ 53) ->
            StronglySorted by_integer shown
            /\ (forall n, filter (fun e => id_integer (exp_id e) =? n) shown
                          = filter (fun e => id_integer (exp_id e) =? n)
                                   (selected_experiments (st w)))))
    /\ (forall e, exp_num e = JS.double_of_integer (id_integer (exp_id e)))
    /\ (forall e, id_integer (exp_id e) < 2 ^ 53 -> exp_num e = id_integer (exp_id e))
    /\ (forall e, malformed (exp_id e) = true ->
                  id_integer (exp_id e) = 0 /\ exp_num e = 0)
    /\ map id_integer ["E2"; "E10"; "E1"; "EXP-007"; "B2-E7"; "none"; ""]%string
       = [2; 10; 1; 7; 27; 0; 0]
    /\ (map exp_id (experiments (st w)) = ["E2"; "E10"; "E1"]%string ->
        currentSource (st w) = "all"%string ->
        map row_exp_id (rows_of (experiments_tbody (doc (updateExperimentsTable w))))
        = ["E1"; "E2"; "E10"]%string).
Proof.
  intros w.
  destruct (experiments_table_selected_by_parsed_number w)
    as (Hrows & Hperm & Hsorted & Hstable).
  split; [|split; [|split; [|split; [|split]]]].
  - exists (JS.sort byExpId (selected_experiments (st w))).
    split; [exact Hrows|]. split; [exact Hperm|].
    split; [|split; [exact Hsorted|split; [exact Hstable|]]].
    + intros e. rewrite <- selected_experiments_In.
      split; apply Permutation_in; [| apply Permutation_sym]; exact Hperm.
    + intros Hsmall.
      assert (Hshown : forall e,
                 In e (JS.sort byExpId (selected_experiments (st w))) ->
                 exp_num e = id_integer (exp_id e)).
      { intros e He. apply exp_num_id_integer_exact, Hsmall.
        exact (Permutation_in _ Hperm He). }
      split.
      * apply (StronglySorted_In_impl (R := by_number)); [|exact Hsorted].
        intros a b Ha Hb. unfold by_number, by_integer.
        rewrite (Hshown a Ha), (Hshown b Hb). exact (fun H => H).
      * intros n.
        rewrite (filter_ext_on (fun e => id_integer (exp_id e) =? n)
                               (fun e => exp_num e =? n)
                               (JS.sort byExpId (selected_experiments (st w)))),
                (filter_ext_on (fun e => id_integer (exp_id e) =? n)
                               (fun e => exp_num e =? n)
                               (selected_experiments (st w))).
        -- apply Hstable.
        -- intros e He. rewrite (exp_num_id_integer_exact e (Hsmall e He)).
           reflexivity.
        -- intros e He. rewrite (Hshown e He). reflexivity.
  - apply exp_num_id_integer.
  - apply exp_num_id_integer_exact.
  - intros e H.
    assert (E : id_integer (exp_id e) = 0) by (apply integer_of_malformed, H).
    split; [exact E|]. rewrite exp_num_id_integer, E. reflexivity.
  - reflexivity.
  - intros Hids Hall. rewrite Hrows.
    unfold selected_experiments. rewrite Hall. simpl.
    destruct (experiments (st w)) as [|a [|b [|c [|d l]]]]; try discriminate.
    injection Hids as Ha Hb Hc.
    destruct a, b, c; simpl in Ha, Hb, Hc; subst. reflexivity.
Qed.

(** The table of the sample experiments E2, E10, E1 under ['all']: the
    integers of the ids are below 2^53, and the rows are in their order. *)
Lemma experiments_table_E2_E10_E1 :
  map row_exp_id
      (rows_of (experiments_tbody (doc (updateExperimentsTable
         {| st := set_experiments [sample_experiment "E2" "manual";
                                   sample_experiment "E10" "imported";
                                   sample_experiment "E1" "recommendation"] state;
            doc := blank_page |}))))
  = ["E1"; "E2"; "E10"]%string
  /\ exists shown : list Experiment,
       rows_of (experiments_tbody (doc (updateExperimentsTable
         {| st := set_experiments [sample_experiment "E2" "manual";
                                   sample_experiment "E10" "imported";
                                   sample_experiment "E1" "recommendation"] state;
            doc := blank_page |})))
       = map createExperimentRow shown
       /\ StronglySorted by_integer shown.
Proof.
  destruct (experiments_table_selected_in_integer_order
              {| st := set_experiments [sample_experiment "E2" "manual";
                                        sample_experiment "E10" "imported";
                                        sample_experiment "E1" "recommendation"] state;
                 doc := blank_page |})
    as [[shown (Hrows & _ & _ & _ & _ & Hint)] (_ & _ & _ & _ & Hex)].
  split.
  - apply Hex; reflexivity.
  - exists shown. split; [exact Hrows|]. apply Hint.
    intros e H. simpl in H.
    destruct H as [<-|[<-|[<-|[]]]]; vm_compute; reflexivity.
Defined.

(** C1, as the claim has it, fails from 2^53 on: the ids E9007199254740993
    and E9007199254740992, loaded in this order, are rendered in this
    order, the greater integer first, because [parseInt] returns the same
    Number, 2^53, for both and the sort keeps the order of equals. *)
Lemma experiments_table_not_in_integer_order_from_2_53 :
  map row_exp_id
      (rows_of (experiments_tbody (doc (updateExperimentsTable
         {| st := set_experiments
                    [sample_experiment "E9007199254740993" "manual";
                     sample_experiment "E9007199254740992" "manual"] state;
            doc := blank_page |}))))
  = ["E9007199254740993"; "E9007199254740992"]%string
  /\ id_integer "E9007199254740993" = 9007199254740993
  /\ id_integer "E9007199254740992" = 9007199254740992
  /\ exp_num (sample_experiment "E9007199254740993" "manual") = 2 ^ 53
  /\ exp_num (sample_experiment "E9007199254740992" "manual") = 2 ^ 53
  /\ ~ (forall w : World,
          exists shown : list Experiment,
            rows_of (experiments_tbody (doc (updateExperimentsTable w)))
            = map createExperimentRow shown
            /\ StronglySorted by_integer shown).
Proof.
  split; [vm_compute; reflexivity|].
  split; [vm_compute; reflexivity|].
  split; [vm_compute; reflexivity|].
  split; [vm_compute; reflexivity|].
  split; [vm_compute; reflexivity|].
  intros H.
  destruct (H {| st := set_experiments
                         [sample_experiment "E9007199254740993" "manual";
                          sample_experiment "E9007199254740992" "manual"] state;
                 doc := blank_page |}) as [shown [Hrows Hsorted]].
  apply (f_equal (map row_exp_id)) in Hrows.
  rewrite map_map in Hrows. cbn [createExperimentRow row_exp_id] in Hrows.
  change (map row_exp_id _) with ["E9007199254740993"; "E9007199254740992"]%string
    in Hrows at 1.
  destruct shown as [|a [|b [|c l]]]; try discriminate.
  injection Hrows as Ha Hb.
  inversion Hsorted as [|x l S F]; subst.
  inversion F as [|y l' Hab _]; subst.
  unfold by_integer in Hab. rewrite <- Ha, <- Hb in Hab.
  vm_compute in Hab. apply Hab. reflexivity.
Qed.

(** ** The recommendations list *)



(** C9.  A list of recommendations that is already in descending order of
    timestamp comes out of the timestamp sort of [updateRecommendations]
    exactly as it went in. *)
Theorem sort_by_timestamp_idempotent :
  forall l : list Recommendation,
    Sorted latest_first l -> JS.sort byTimestamp l = l.
Proof.
  intros l H.
  apply (sort_sorted_id byTimestamp (fun r => - timestamp r) byTimestamp_key).
  eapply Sorted_weaken; [|exact H].
  unfold latest_first. simpl. intros; lia.
Qed.

(** Three samples in descending order, two of them of one timestamp. *)
Lemma sort_by_timestamp_idempotent_sample :
  JS.sort byTimestamp
    [sample_recommendation "R3" "skipped" 1700000600000;
     sample_recommendation "R1" "pending" 1700000000000;
     sample_recommendation "R2" "completed" 1700000000000]
  = [sample_recommendation "R3" "skipped" 1700000600000;
     sample_recommendation "R1" "pending" 1700000000000;
     sample_recommendation "R2" "completed" 1700000000000].
Proof.
  apply sort_by_timestamp_idempotent.
  repeat constructor; unfold latest_first; simpl; lia.
Defined.

(** ** [toFixed]: the number of decimals *)

Lemma length_append (a b : string) :
  String.length (a ++ b) = (String.length a + String.length b)%nat.
Proof. induction a as [|x a IH]; simpl; [reflexivity | rewrite IH; reflexivity]. Qed.

Lemma length_zeros (k : nat) : String.length (JS.zeros k) = k.
Proof. induction k as [|k IH]; simpl; [reflexivity | rewrite IH; reflexivity]. Qed.

Lemma length_substring (s : string) (n m : nat) :
  (n + m <= String.length s)%nat -> String.length (substring n m s) = m.
Proof.
  revert n m. induction s as [|x s IH]; intros n m H; simpl in *.
  - destruct n, m; simpl in *; try reflexivity; lia.
  - destruct n as [|n].
    + destruct m as [|m]; simpl; [reflexivity|].
      rewrite IH; [reflexivity | simpl in *; lia].
    + apply IH. lia.
Qed.

(** With [f > 0] decimals asked for, the digits of [n] are printed with a
    point followed by exactly [f] digits, and at least one before it. *)
Lemma fixed_digits_decimals (n : N) (f : nat) :
  exists whole fraction : string,
    JS.fixed_digits n (S f) = (whole ++ "." ++ fraction)%string
    /\ String.length fraction = S f
    /\ (1 <= String.length whole)%nat.
Proof.
  unfold JS.fixed_digits.
  set (m := JS.String_of_N n).
  set (m' := if (String.length m <=? S f)%nat
             then (JS.zeros (S f + 1 - String.length m) ++ m)%string else m).
  assert (Hlen : (S f + 1 <= String.length m')%nat).
  { unfold m'. destruct (Nat.leb_spec (String.length m) (S f)).
    - rewrite length_append, length_zeros. lia.
    - lia. }
  exists (substring 0 (String.length m' - S f) m'),
         (substring (String.length m' - S f) (S f) m').
  split; [reflexivity|]. split.
  - apply length_substring. lia.
  - rewrite length_substring; lia.
Qed.

(** A finite value below 10^21 in magnitude is printed by [toFixed] with
    its sign and exactly the decimals asked for; with none asked for, as an
    integer without a point. *)
Lemma toFixed_decimals (q : Q) (f : nat) :
  Z.abs (Qnum q) < 10 ^ 21 * Z.pos (Qden q) ->
  let sign := if Qnum q <? 0 then "-"%string else ""%string in
  let n := Z.to_N ((2 * Z.abs (Qnum q) * 10 ^ Z.of_nat f + Z.pos (Qden q))
                   / (2 * Z.pos (Qden q))) in
  match f with
  | O => JS.toFixed (JS.Finite q) f = Some (sign ++ JS.String_of_N n)%string
  | S _ => exists whole fraction : string,
             JS.toFixed (JS.Finite q) f
             = Some (sign ++ whole ++ "." ++ fraction)%string
             /\ String.length fraction = f
             /\ (1 <= String.length whole)%nat
  end.
Proof.
  intros Hq sign n. unfold JS.toFixed.
  destruct (Z.leb_spec (10 ^ 21 * Z.pos (Qden q)) (Z.abs (Qnum q))) as [H|H]; [lia|].
  destruct f as [|f].
  - reflexivity.
  - destruct (fixed_digits_decimals n f) as [whole [fraction [E [L1 L2]]]].
    exists whole, fraction. fold sign. fold n. rewrite E.
    split; [reflexivity|]. split; assumption.
Qed.

(** ** The two number formatters *)

(** The formatter of the experiment rows turns [null], [undefined] and NaN
    into two dashes, whatever the number of decimals. *)
Lemma createExperimentRow_formatNum_dashes (decimals : nat) :
  createExperimentRow_formatNum JS.Null decimals = Some "--"%string
  /\ createExperimentRow_formatNum JS.Undefined decimals = Some "--"%string
  /\ createExperimentRow_formatNum (JS.Num JS.NaN) decimals = Some "--"%string.
Proof. repeat split; reflexivity. Qed.

(** The formatter of the cards does so for [null] and [undefined]. *)
Lemma createRecommendationCard_formatNum_dashes (decimals : nat) :
  createRecommendationCard_formatNum JS.Null decimals = Some "--"%string
  /\ createRecommendationCard_formatNum JS.Undefined decimals = Some "--"%string.
Proof. split; reflexivity. Qed.

(** On a Number that is not NaN both formatters are [toFixed]. *)
Lemma formatNum_toFixed (x : JS.number) (decimals : nat) :
  x <> JS.NaN ->
  createExperimentRow_formatNum (JS.Num x) decimals = JS.toFixed x decimals
  /\ createRecommendationCard_formatNum (JS.Num x) decimals = JS.toFixed x decimals.
Proof.
  intros Hx. split; [|reflexivity].
  destruct x; [contradiction | reflexivity | reflexivity].
Qed.

(** The double nearest to 3.14159 is 3537115888337719 / 2^50. *)
Lemma formatNum_examples :
  createExperimentRow_formatNum JS.Null 2 = Some "--"%string
  /\ createExperimentRow_formatNum
       (JS.Num (JS.Finite (3537115888337719 # 1125899906842624))) 2
     = Some "3.14"%string
  /\ createExperimentRow_formatNum (JS.Num (JS.Finite 0)) 0 = Some "0"%string
  /\ createRecommendationCard_formatNum JS.Null 2 = Some "--"%string
  /\ createRecommendationCard_formatNum
       (JS.Num (JS.Finite (3537115888337719 # 1125899906842624))) 2
     = Some "3.14"%string
  /\ createRecommendationCard_formatNum (JS.Num (JS.Finite 0)) 0 = Some "0"%string.
Proof. repeat split; vm_compute; reflexivity. Qed.

(** C3.  The formatter of the recommendation cards has no NaN test: on NaN
    it returns the text NaN where the formatter of the experiment rows
    returns two dashes.  A recommendation without [predictions] (or without
    [p_feasible]) brings this about, since [undefined * 100] is NaN: its
    card shows NaN for the feasibility. *)
Theorem card_formatNum_prints_NaN :
  (forall decimals : nat,
      createRecommendationCard_formatNum (JS.Num JS.NaN) decimals = Some "NaN"%string
      /\ createExperimentRow_formatNum (JS.Num JS.NaN) decimals = Some "--"%string)
  /\ (forall r : Recommendation,
         predictions r = None ->
         card_p_feasible (createRecommendationCard r) = Some "NaN"%string)
  /\ card_p_feasible
       (createRecommendationCard (sample_recommendation "R1" "pending" 1700000000000))
     = Some "NaN"%string.
Proof.
  split; [|split].
  - intros decimals. split; reflexivity.
  - intros r Hr. unfold createRecommendationCard. rewrite Hr. reflexivity.
  - reflexivity.
Qed.

(** The card of a skipped sample without predictions. *)
Lemma card_of_sample_shows_NaN :
  card_p_feasible
    (createRecommendationCard (sample_recommendation "R7" "skipped" 1700000900000))
  = Some "NaN"%string.
Proof.
  apply (proj1 (proj2 card_formatNum_prints_NaN)
           (sample_recommendation "R7" "skipped" 1700000900000)).
  reflexivity.
Defined.

(** ** Rendering and the arrays of the state *)

(** Under a selection other than ['all'] a render leaves the state as it
    was. *)
Lemma updateExperimentsTable_keeps_state (w : World) :
  currentSource (st w) <> "all"%string -> st (updateExperimentsTable w) = st w.
Proof.
  intros H. rewrite updateExperimentsTable_st.
  destruct (String.eqb_spec (currentSource (st w)) "all"); [contradiction|].
  destruct (st w); reflexivity.
Qed.

Lemma updateRecommendations_keeps_state (w : World) :
  currentFilter (st w) <> "all"%string -> st (updateRecommendations w) = st w.
Proof.
  intros H. rewrite updateRecommendations_st.
  destruct (String.eqb_spec (currentFilter (st w)) "all"); [contradiction|].
  destruct (st w); reflexivity.
Qed.

(** Under ['all'] the array of the state is the one sorted. *)
Lemma updateExperimentsTable_all (w : World) :
  currentSource (st w) = "all"%string ->
  experiments (st (updateExperimentsTable w)) = JS.sort byExpId (experiments (st w)).
Proof.
  intros H. rewrite updateExperimentsTable_st, H. reflexivity.
Qed.

Lemma updateRecommendations_all (w : World) :
  currentFilter (st w) = "all"%string ->
  recommendations (st (updateRecommendations w))
  = JS.sort byTimestamp (recommendations (st w)).
Proof.
  intros H. rewrite updateRecommendations_st, H. reflexivity.
Qed.

(** C4.  Rendering under ['all'] reorders the array of the state: with
    the experiments E2, E1 loaded, the first render (the source selection
    starts as ['all']) leaves E1, E2 in [state.experiments]; and with the
    filter ['all'] chosen, rendering the recommendations of timestamps 1, 2
    leaves them as 2, 1 in [state.recommendations]. *)
Theorem rendering_all_reorders_the_state :
  map exp_id
      (experiments (st (loadData
         (delivered (Some [sample_experiment "E2" "manual";
                           sample_experiment "E1" "imported"]))
         (delivered (Some []))
         at_start)))
  = ["E1"; "E2"]%string
  /\ map exp_id
       (experiments (st (updateExperimentsTable
          {| st := set_experiments [sample_experiment "E2" "manual";
                                    sample_experiment "E1" "imported"] state;
             doc := blank_page |})))
     = ["E1"; "E2"]%string
  /\ map rec_id
       (recommendations (st (filterTab_click "all"
          {| st := set_recommendations [sample_recommendation "R1" "pending" 1;
                                        sample_recommendation "R2" "pending" 2] state;
             doc := blank_page |})))
     = ["R2"; "R1"]%string.
Proof. repeat split; vm_compute; reflexivity. Qed.

(** ** [updateUI] *)

Lemma selected_recommendations_sorted_count (p : Recommendation -> bool) (s : State) :
  count p (if String.eqb (currentFilter s) "all"
           then JS.sort byTimestamp (recommendations s) else recommendations s)
  = count p (recommendations s).
Proof.
  destruct (String.eqb (currentFilter s) "all"); [|reflexivity].
  apply count_perm, sort_perm.
Qed.

(** The state after a full render: the two arrays, sorted where the
    selection is ['all']. *)
Lemma updateUI_st (w : World) :
  st (updateUI w)
  = set_experiments
      (if String.eqb (currentSource (st w)) "all"
       then JS.sort byExpId (experiments (st w)) else experiments (st w))
      (set_recommendations
         (if String.eqb (currentFilter (st w)) "all"
          then JS.sort byTimestamp (recommendations (st w))
          else recommendations (st w))
         (st w)).
Proof.
  unfold updateUI, updateBadges. simpl.
  rewrite updateExperimentsTable_st, updateRecommendations_st.
  reflexivity.
Qed.

(** The page after a full render. *)
Lemma updateUI_doc (w : World) :
  doc (updateUI w)
  = set_badges
      (JS.String_of_nat (count (with_status "pending") (recommendations (st w))))
      (JS.String_of_nat (count (with_status "completed") (recommendations (st w))))
      (JS.String_of_nat (count (with_status "skipped") (recommendations (st w))))
      (set_experiments_tbody
         (experiments_markup (JS.sort byExpId (selected_experiments (st w))))
         (set_recommendations_list
            (recommendations_markup (currentFilter (st w))
               (JS.sort byTimestamp (selected_recommendations (st w))))
            (set_stats
               (JS.String_of_nat (List.length (experiments (st w))))
               (JS.String_of_nat (count (with_status "pending") (recommendations (st w))))
               (JS.String_of_nat (count (with_status "completed") (recommendations (st w))))
               (JS.String_of_nat (count (from_source "imported") (experiments (st w)))
                  ++ "/" ++ JS.String_of_nat (count (from_source "recommendation") (experiments (st w)))
                  ++ "/" ++ JS.String_of_nat (count (from_source "manual") (experiments (st w))))%string
               (doc w)))).
Proof.
  unfold updateUI, updateBadges. simpl.
  rewrite updateExperimentsTable_st, updateExperimentsTable_doc,
    updateRecommendations_st, updateRecommendations_doc.
  simpl.
  change (fun r : Recommendation => String.eqb (status r) "pending")
    with (with_status "pending").
  change (fun r : Recommendation => String.eqb (status r) "completed")
    with (with_status "completed").
  change (fun r : Recommendation => String.eqb (status r) "skipped")
    with (with_status "skipped").
  fold (count (with_status "pending")
          (if String.eqb (currentFilter (st w)) "all"
           then JS.sort byTimestamp (recommendations (st w))
           else recommendations (st w))).
  fold (count (with_status "completed")
          (if String.eqb (currentFilter (st w)) "all"
           then JS.sort byTimestamp (recommendations (st w))
           else recommendations (st w))).
  fold (count (with_status "skipped")
          (if String.eqb (currentFilter (st w)) "all"
           then JS.sort byTimestamp (recommendations (st w))
           else recommendations (st w))).
  rewrite !selected_recommendations_sorted_count.
  reflexivity.
Qed.

(** ** [loadData] *)

(** A failed request sends [loadData] to its handler before any assignment. *)
Lemma loadData_failed (expFetch : Fetch Experiment) (recFetch : Fetch Recommendation)
      (w : World) :
  failed expFetch = true \/ failed recFetch = true ->
  loadData expFetch recFetch w
  = showError "Unable to load data. Make sure the JSON files are in the data/ folder." w.
Proof.
  intros H.
  destruct expFetch as [|[ok1 [j1|]]], recFetch as [|[ok2 [j2|]]];
    try destruct ok1; try destruct ok2; simpl in H;
    try reflexivity; destruct H; discriminate.
Qed.

(** Two delivered documents are assigned, then rendered. *)
Lemma loadData_delivered (exps : option (list Experiment))
      (recs : option (list Recommendation)) (w : World) :
  loadData (delivered exps) (delivered recs) w
  = updateUI
      {| st := set_isLoading false
                 (set_recommendations (or_else recs [])
                    (set_experiments (or_else exps []) (st w)));
         doc := doc w |}.
Proof. reflexivity. Qed.

(** C5.  When either request fails (rejected, a status that is not ok, or a
    body that is not JSON) [loadData] assigns nothing to the state and both
    panels hold the error fragment, the rest of the page as before.  When
    both deliver an object, the arrays under the two keys are assigned, an
    absent key as the empty array, and both panels hold what the renderers
    make of them: loading does not fail. *)
Theorem loadData_all_or_nothing :
  forall w : World,
    (forall (expFetch : Fetch Experiment) (recFetch : Fetch Recommendation),
        failed expFetch = true \/ failed recFetch = true ->
        st (loadData expFetch recFetch w) = st w
        /\ doc (loadData expFetch recFetch w)
           = set_experiments_tbody error_fragment
               (set_recommendations_list error_fragment (doc w))
        /\ recommendations_list (doc (loadData expFetch recFetch w)) = error_fragment
        /\ experiments_tbody (doc (loadData expFetch recFetch w)) = error_fragment)
    /\ (forall (exps : option (list Experiment)) (recs : option (list Recommendation)),
           let w' := loadData (delivered exps) (delivered recs) w in
           Permutation (experiments (st w')) (or_else exps [])
           /\ Permutation (recommendations (st w')) (or_else recs [])
           /\ (exps = None -> experiments (st w') = [])
           /\ (recs = None -> recommendations (st w') = [])
           /\ isLoading (st w') = false
           /\ recommendations_list (doc w') <> error_fragment
           /\ experiments_tbody (doc w') <> error_fragment).
Proof.
  intros w. split.
  - intros expFetch recFetch H. rewrite (loadData_failed _ _ _ H).
    repeat split.
  - intros exps recs w'. subst w'. rewrite loadData_delivered.
    rewrite updateUI_st, updateUI_doc. simpl.
    assert (PE : forall l, Permutation
                   (if String.eqb (currentSource (st w)) "all"
                    then JS.sort byExpId l else l) l).
    { intros l. destruct (String.eqb (currentSource (st w)) "all");
        [apply sort_perm | apply Permutation_refl]. }
    assert (PR : forall l, Permutation
                   (if String.eqb (currentFilter (st w)) "all"
                    then JS.sort byTimestamp l else l) l).
    { intros l. destruct (String.eqb (currentFilter (st w)) "all");
        [apply sort_perm | apply Permutation_refl]. }
    split; [apply PE|]. split; [apply PR|].
    split; [|split; [|split; [|split]]].
    + intros ->. apply Permutation_nil, Permutation_sym, PE.
    + intros ->. apply Permutation_nil, Permutation_sym, PR.
    + reflexivity.
    + unfold recommendations_markup, error_fragment.
      destruct (JS.sort byTimestamp _); discriminate.
    + unfold experiments_markup, error_fragment.
      destruct (JS.sort byExpId _); discriminate.
Qed.

(** A first load whose second request is answered with status 404. *)
Lemma loadData_all_or_nothing_404 :
  st (loadData (delivered (Some [sample_experiment "E1" "imported"]))
               (Resolved {| ok := false; body := None |}) at_start)
  = state
  /\ recommendations_list
       (doc (loadData (delivered (Some [sample_experiment "E1" "imported"]))
                      (Resolved {| ok := false; body := None |}) at_start))
     = error_fragment
  /\ experiments_tbody
       (doc (loadData (delivered (Some [sample_experiment "E1" "imported"]))
                      (Resolved {| ok := false; body := None |}) at_start))
     = error_fragment.
Proof.
  destruct (proj1 (loadData_all_or_nothing at_start)
              (delivered (Some [sample_experiment "E1" "imported"]))
              (Resolved {| ok := false; body := None |})
              (or_intror eq_refl)) as [H1 [_ [H3 H4]]].
  exact (conj H1 (conj H3 H4)).
Defined.

(** X3.  A recommendations document that parses to [null] is no failed request,
    yet [loadData] ends in its handler: the experiments are assigned by
    then, the recommendations and [isLoading] are not, and both panels hold
    the error fragment. *)
Theorem loadData_null_document_commits_experiments :
  forall (w : World) (exps : option (list Experiment)),
    let w' := loadData (delivered exps)
                       (Resolved {| ok := true; body := Some JsonNull |}) w in
    failed (Resolved {| ok := true; body := Some (@JsonNull Recommendation) |}) = false
    /\ experiments (st w') = or_else exps []
    /\ recommendations (st w') = recommendations (st w)
    /\ isLoading (st w') = isLoading (st w)
    /\ recommendations_list (doc w') = error_fragment
    /\ experiments_tbody (doc w') = error_fragment.
Proof. intros w exps w'. repeat split. Qed.

(** ** Statistics and badges *)

Lemma count_from_source (s : string) (l : list Experiment) :
  count (from_source s) l = count (fun x => strict_eq x s) (map source l).
Proof.
  unfold count, from_source. induction l as [|e l IH]; simpl.
  - reflexivity.
  - destruct (strict_eq (source e) s); simpl; rewrite IH; reflexivity.
Qed.

Lemma count_with_status (s : string) (l : list Recommendation) :
  count (with_status s) l = count (fun x => String.eqb x s) (map status l).
Proof.
  unfold count, with_status. induction l as [|r l IH]; simpl.
  - reflexivity.
  - destruct (String.eqb (status r) s); simpl; rewrite IH; reflexivity.
Qed.

(** C6.  After a full render the statistics show the number of experiments,
    of pending and of completed recommendations, the badges the numbers of
    pending, completed and skipped recommendations, and the breakdown the
    numbers of imported, recommended and manual experiments with a slash
    between them.  Loading three experiments, one of each source, and
    three recommendations, one of each status, shows 3, 1, 1, badges
    1, 1, 1 and the breakdown 1/1/1. *)
Theorem statistics_and_badges_count :
  forall w : World,
    (let d := doc (updateUI w) in
     let exps := experiments (st w) in
     let recs := recommendations (st w) in
     total_experiments d = JS.String_of_nat (List.length exps)
     /\ pending_count d = JS.String_of_nat (count (with_status "pending") recs)
     /\ completed_count d = JS.String_of_nat (count (with_status "completed") recs)
     /\ pending_badge d = JS.String_of_nat (count (with_status "pending") recs)
     /\ completed_badge d = JS.String_of_nat (count (with_status "completed") recs)
     /\ skipped_badge d = JS.String_of_nat (count (with_status "skipped") recs)
     /\ model_accuracy d
        = (JS.String_of_nat (count (from_source "imported") exps)
             ++ "/" ++ JS.String_of_nat (count (from_source "recommendation") exps)
             ++ "/" ++ JS.String_of_nat (count (from_source "manual") exps))%string)
    /\ (forall (exps : list Experiment) (recs : list Recommendation),
           Permutation (map source exps)
                       [Some "imported"; Some "recommendation"; Some "manual"]%string ->
           Permutation (map status recs) ["pending"; "completed"; "skipped"]%string ->
           let d := doc (loadData (delivered (Some exps)) (delivered (Some recs)) w) in
           total_experiments d = "3"%string
           /\ pending_count d = "1"%string
           /\ completed_count d = "1"%string
           /\ pending_badge d = "1"%string
           /\ completed_badge d = "1"%string
           /\ skipped_badge d = "1"%string
           /\ model_accuracy d = "1/1/1"%string).
Proof.
  intros w. split.
  - rewrite updateUI_doc. simpl. repeat split.
  - intros exps recs Hexps Hrecs d. subst d.
    rewrite loadData_delivered, updateUI_doc. simpl.
    rewrite !count_from_source, !count_with_status.
    rewrite !(count_perm _ Hexps), !(count_perm _ Hrecs).
    rewrite <- (length_map source exps), (Permutation_length Hexps).
    repeat split.
Qed.

(** The fixture of three experiments and three recommendations, loaded
    into the page at its start. *)
Lemma statistics_and_badges_fixture :
  let d := doc (loadData
                  (delivered (Some [sample_experiment "E1" "imported";
                                    sample_experiment "E2" "recommendation";
                                    sample_experiment "E3" "manual"]))
                  (delivered (Some [sample_recommendation "R1" "pending" 1700000000000;
                                    sample_recommendation "R2" "completed" 1700000300000;
                                    sample_recommendation "R3" "skipped" 1700000600000]))
                  at_start) in
  total_experiments d = "3"%string
  /\ pending_count d = "1"%string
  /\ completed_count d = "1"%string
  /\ pending_badge d = "1"%string
  /\ completed_badge d = "1"%string
  /\ skipped_badge d = "1"%string
  /\ model_accuracy d = "1/1/1"%string.
Proof.
  apply (proj2 (statistics_and_badges_count at_start)
           [sample_experiment "E1" "imported";
            sample_experiment "E2" "recommendation";
            sample_experiment "E3" "manual"]
           [sample_recommendation "R1" "pending" 1700000000000;
            sample_recommendation "R2" "completed" 1700000300000;
            sample_recommendation "R3" "skipped" 1700000600000]);
    apply Permutation_refl.
Defined.

(** ** The filter tabs *)

(** C7.  A click on a recommendation filter tab sets [currentFilter] (and
    the tab active) and writes the recommendations list anew; it leaves
    [currentSource], the experiments, the experiments table, the four
    statistics and the three badges as they were.  A click on a source tab
    sets [currentSource] and writes the experiments table anew; it leaves
    [currentFilter], the recommendations, the recommendations list, the
    statistics and the badges as they were.  The array behind the view
    written keeps its elements, and its order unless the tab is ['all']. *)
Theorem tab_click_renders_its_view_only :
  forall (w : World) (tab : string),
    (let w' := filterTab_click tab w in
     currentFilter (st w') = tab
     /\ currentSource (st w') = currentSource (st w)
     /\ experiments (st w') = experiments (st w)
     /\ isLoading (st w') = isLoading (st w)
     /\ Permutation (recommendations (st w')) (recommendations (st w))
     /\ (tab <> "all"%string -> recommendations (st w') = recommendations (st w))
     /\ recommendations_list (doc w')
        = recommendations_markup tab
            (JS.sort byTimestamp
               (selected_recommendations (set_currentFilter tab (st w))))
     /\ experiments_tbody (doc w') = experiments_tbody (doc w)
     /\ total_experiments (doc w') = total_experiments (doc w)
     /\ pending_count (doc w') = pending_count (doc w)
     /\ completed_count (doc w') = completed_count (doc w)
     /\ model_accuracy (doc w') = model_accuracy (doc w)
     /\ pending_badge (doc w') = pending_badge (doc w)
     /\ completed_badge (doc w') = completed_badge (doc w)
     /\ skipped_badge (doc w') = skipped_badge (doc w)
     /\ active_source_tab (doc w') = active_source_tab (doc w))
    /\ (let w' := sourceTab_click tab w in
        currentSource (st w') = tab
        /\ currentFilter (st w') = currentFilter (st w)
        /\ recommendations (st w') = recommendations (st w)
        /\ isLoading (st w') = isLoading (st w)
        /\ Permutation (experiments (st w')) (experiments (st w))
        /\ (tab <> "all"%string -> experiments (st w') = experiments (st w))
        /\ experiments_tbody (doc w')
           = experiments_markup
               (JS.sort byExpId
                  (selected_experiments (set_currentSource tab (st w))))
        /\ recommendations_list (doc w') = recommendations_list (doc w)
        /\ total_experiments (doc w') = total_experiments (doc w)
        /\ pending_count (doc w') = pending_count (doc w)
        /\ completed_count (doc w') = completed_count (doc w)
        /\ model_accuracy (doc w') = model_accuracy (doc w)
        /\ pending_badge (doc w') = pending_badge (doc w)
        /\ completed_badge (doc w') = completed_badge (doc w)
        /\ skipped_badge (doc w') = skipped_badge (doc w)
        /\ active_filter_tab (doc w') = active_filter_tab (doc w)).
Proof.
  intros w tab. split.
  - unfold filterTab_click.
    rewrite updateRecommendations_st, updateRecommendations_doc. simpl.
    destruct (String.eqb_spec tab "all") as [E|E].
    + repeat split; try apply sort_perm. intros H; contradiction.
    + repeat split. apply Permutation_refl.
  - unfold sourceTab_click.
    rewrite updateExperimentsTable_st, updateExperimentsTable_doc. simpl.
    destruct (String.eqb_spec tab "all") as [E|E].
    + repeat split; try apply sort_perm. intros H; contradiction.
    + repeat split. apply Permutation_refl.
Qed.

(** With two samples loaded out of order, a click on the tab ['pending']
    leaves [state.recommendations] as it was. *)
Lemma pending_tab_keeps_the_array :
  recommendations
    (st (filterTab_click "pending"
           {| st := set_recommendations
                      [sample_recommendation "R1" "pending" 1700000000000;
                       sample_recommendation "R2" "completed" 1700000300000] state;
              doc := blank_page |}))
  = [sample_recommendation "R1" "pending" 1700000000000;
     sample_recommendation "R2" "completed" 1700000300000].
Proof.
  destruct (proj1 (tab_click_renders_its_view_only
                     {| st := set_recommendations
                                [sample_recommendation "R1" "pending" 1700000000000;
                                 sample_recommendation "R2" "completed" 1700000300000]
                                state;
                        doc := blank_page |} "pending"))
    as (_ & _ & _ & _ & _ & H & _).
  apply H. discriminate.
Defined.

(** ** The state at the start *)

(** C10.  The state starts with the filter ['pending'] and the source
    ['all']; so the first render, after both documents are delivered, lists
    the cards of the pending recommendations only, the most recent first,
    and the table holds the rows of all the experiments, in ascending order
    of their numbers. *)
Theorem first_render_pending_and_all_sources :
  currentFilter state = "pending"%string
  /\ currentSource state = "all"%string
  /\ forall (page : Document) (exps : list Experiment) (recs : list Recommendation),
       let w' := loadData (delivered (Some exps)) (delivered (Some recs))
                          {| st := state; doc := page |} in
       cards_of (recommendations_list (doc w'))
       = map createRecommendationCard
           (JS.sort byTimestamp (filter (with_status "pending") recs))
       /\ Forall (fun c => card_data_status c = "pending"%string)
                 (cards_of (recommendations_list (doc w')))
       /\ rows_of (experiments_tbody (doc w'))
          = map createExperimentRow (JS.sort byExpId exps)
       /\ Permutation (map row_exp_id (rows_of (experiments_tbody (doc w'))))
                      (map exp_id exps).
Proof.
  split; [reflexivity|]. split; [reflexivity|].
  intros page exps recs w'. subst w'.
  rewrite loadData_delivered, updateUI_doc. simpl.
  rewrite cards_of_recommendations_markup, rows_of_experiments_markup.
  unfold selected_recommendations, selected_experiments. simpl.
  split; [reflexivity|]. split; [|split; [reflexivity|]].
  - apply Forall_forall. intros c Hc.
    apply in_map_iff in Hc. destruct Hc as [r [<- Hr]].
    eapply Permutation_in in Hr; [|apply sort_perm].
    apply filter_In in Hr. destruct Hr as [_ Hr].
    simpl. apply String.eqb_eq, Hr.
  - rewrite map_map. simpl. apply Permutation_map, sort_perm.
Qed.

(** ** The empty states *)

Lemma substring_prefix (b c : string) :
  substring 0 (String.length b) (b ++ c) = b.
Proof.
  induction b as [|x b IH]; simpl.
  - destruct c; reflexivity.
  - rewrite IH. reflexivity.
Qed.

Lemma substring_infix (a b c : string) :
  substring (String.length a) (String.length b) (a ++ b ++ c) = b.
Proof.
  induction a as [|x a IH]; simpl.
  - apply substring_prefix.
  - exact IH.
Qed.

Lemma mentions_infix (a b c : string) : mentions b (a ++ b ++ c) = true.
Proof.
  unfold mentions. destruct (index 0 b (a ++ b ++ c)) eqn:E; [reflexivity|].
  exfalso. destruct b as [|x b].
  - apply index_correct4 in E. inversion E.
  - refine (index_correct3 _ (String.length a) _ _ E _ _ (substring_infix a _ c)).
    + discriminate.
    + apply Nat.le_0_l.
Qed.

(** C8, as the code has it.  When nothing is selected the recommendations
    list holds the empty-state fragment whose text is No, the current
    filter (nothing under ['all']) and recommendations found, so a filter
    other than ['all'] is mentioned in it; the experiments table holds the
    empty-state row with the fixed text No experiments found for the
    selected source, whatever the source selected. *)
Theorem empty_states :
  forall w : World,
    (selected_recommendations (st w) = [] ->
     recommendations_list (doc (updateRecommendations w))
     = EmptyStateDiv "◇"
         ("No " ++ (if String.eqb (currentFilter (st w)) "all"
                    then "" else currentFilter (st w))
            ++ " recommendations found.")
     /\ (currentFilter (st w) <> "all"%string ->
         mentions (currentFilter (st w))
                  ("No " ++ currentFilter (st w) ++ " recommendations found.") = true))
    /\ (selected_experiments (st w) = [] ->
        experiments_tbody (doc (updateExperimentsTable w))
        = EmptyStateRow "No experiments found for the selected source.").
Proof.
  intros w. split.
  - intros H. split.
    + rewrite updateRecommendations_doc, H. reflexivity.
    + intros _.
      exact (mentions_infix "No " (currentFilter (st w)) " recommendations found.").
  - intros H. rewrite updateExperimentsTable_doc, H. reflexivity.
Qed.

(** Before any data is loaded, with the tabs ['skipped'] and ['manual']. *)
Lemma empty_states_before_loading :
  recommendations_list
    (doc (updateRecommendations {| st := set_currentFilter "skipped" state;
                                   doc := blank_page |}))
  = EmptyStateDiv "◇" "No skipped recommendations found."
  /\ experiments_tbody
       (doc (updateExperimentsTable {| st := set_currentSource "manual" state;
                                       doc := blank_page |}))
     = EmptyStateRow "No experiments found for the selected source.".
Proof.
  split.
  - exact (proj1 (proj1 (empty_states {| st := set_currentFilter "skipped" state;
                                         doc := blank_page |}) eq_refl)).
  - exact (proj2 (empty_states {| st := set_currentSource "manual" state;
                                  doc := blank_page |}) eq_refl).
Defined.

(** C8, as the claim has it, fails on the experiments table: with no
    experiment loaded and the source ['manual'] selected, the table holds
    the row No experiments found for the selected source, in which
    manual does not occur. *)
Lemma experiments_empty_state_does_not_name_the_source :
  selected_experiments (set_currentSource "manual" state) = []
  /\ experiments_tbody
       (doc (updateExperimentsTable {| st := set_currentSource "manual" state;
                                       doc := blank_page |}))
     = EmptyStateRow "No experiments found for the selected source."
  /\ mentions "manual" "No experiments found for the selected source." = false
  /\ ~ (forall w : World,
          selected_experiments (st w) = [] ->
          exists message : string,
            experiments_tbody (doc (updateExperimentsTable w)) = EmptyStateRow message
            /\ mentions (currentSource (st w)) message = true).
Proof.
  repeat split.
  intros H.
  destruct (H {| st := set_currentSource "manual" state; doc := blank_page |} eq_refl)
    as [message [H1 H2]].
  vm_compute in H1. injection H1 as <-. vm_compute in H2. discriminate.
Qed.

(** ** Renders depend on the data and the selection only *)

Lemma World_eq (w1 w2 : World) : st w1 = st w2 -> doc w1 = doc w2 -> w1 = w2.
Proof. destruct w1, w2; simpl; intros -> ->; reflexivity. Qed.

(** X1.  Rendering a view a second time changes nothing: neither the page nor
    the state. *)
Theorem renders_idempotent :
  forall w : World,
    updateRecommendations (updateRecommendations w) = updateRecommendations w
    /\ updateExperimentsTable (updateExperimentsTable w) = updateExperimentsTable w.
Proof.
  intros w. split; apply World_eq.
  - rewrite !updateRecommendations_st. simpl.
    destruct (String.eqb (currentFilter (st w)) "all");
      [rewrite (sort_sort byTimestamp _ _ byTimestamp_key)|]; reflexivity.
  - rewrite !updateRecommendations_doc, updateRecommendations_st.
    unfold selected_recommendations. simpl.
    destruct (String.eqb (currentFilter (st w)) "all");
      [rewrite (sort_sort byTimestamp _ _ byTimestamp_key)|]; reflexivity.
  - rewrite !updateExperimentsTable_st. simpl.
    destruct (String.eqb (currentSource (st w)) "all");
      [rewrite (sort_sort byExpId _ _ byExpId_key)|]; reflexivity.
  - rewrite !updateExperimentsTable_doc, updateExperimentsTable_st.
    unfold selected_experiments. simpl.
    destruct (String.eqb (currentSource (st w)) "all");
      [rewrite (sort_sort byExpId _ _ byExpId_key)|]; reflexivity.
Qed.

(** X2.  The reordering of the state under ['all'] does not show on the page:
    after a click on any tab the view is the one that the same click would
    have produced had no tab been visited before. *)
Theorem views_forget_earlier_tabs :
  forall (w : World) (earlier tab : string),
    recommendations_list (doc (filterTab_click tab (filterTab_click earlier w)))
    = recommendations_list (doc (filterTab_click tab w))
    /\ experiments_tbody (doc (sourceTab_click tab (sourceTab_click earlier w)))
       = experiments_tbody (doc (sourceTab_click tab w)).
Proof.
  intros w earlier tab. split.
  - unfold filterTab_click.
    rewrite !updateRecommendations_doc, updateRecommendations_st.
    unfold selected_recommendations. simpl. f_equal.
    destruct (String.eqb earlier "all"), (String.eqb tab "all"); try reflexivity.
    + apply (sort_sort byTimestamp _ _ byTimestamp_key).
    + apply (sort_filter_sort byTimestamp _ _ _ byTimestamp_key).
  - unfold sourceTab_click.
    rewrite !updateExperimentsTable_doc, updateExperimentsTable_st.
    unfold selected_experiments. simpl. f_equal.
    destruct (String.eqb earlier "all"), (String.eqb tab "all"); try reflexivity.
    + apply (sort_sort byExpId _ _ byExpId_key).
    + apply (sort_filter_sort byExpId _ _ _ byExpId_key).
Qed.

(* ================================================================== *)
(** * Part 5: further properties *)
(* ================================================================== *)

(** ** The outcomes of [loadData] *)

(** A call of [loadData] ends in one of three ways, decided by the two
    requests alone: nothing is assigned and both panels get the error
    fragment; or only the experiments are assigned (the recommendations
    document is [null]) and both panels get the error fragment; or the two
    arrays are assigned, [isLoading] is cleared and the page is rendered. *)
Lemma loadData_outcomes :
  forall (expFetch : Fetch Experiment) (recFetch : Fetch Recommendation) (w : World),
    loadData expFetch recFetch w
    = match load_outcome expFetch recFetch with
      | NothingAssigned => showError load_error w
      | ExperimentsAssigned exps =>
          showError load_error
            {| st := set_experiments exps (st w); doc := doc w |}
      | BothAssigned exps recs =>
          updateUI
            {| st := set_isLoading false
                       (set_recommendations recs (set_experiments exps (st w)));
               doc := doc w |}
      end.
Proof.
  intros expFetch recFetch w.
  destruct expFetch as [|[ok1 [[|k1|]|]]], recFetch as [|[ok2 [[|k2|]|]]];
    try destruct ok1; try destruct ok2; reflexivity.
Qed.

(** A load leaves the selection and the active tabs alone. *)
Lemma loadData_selection (expFetch : Fetch Experiment) (recFetch : Fetch Recommendation)
      (w : World) :
  currentFilter (st (loadData expFetch recFetch w)) = currentFilter (st w)
  /\ currentSource (st (loadData expFetch recFetch w)) = currentSource (st w)
  /\ active_filter_tab (doc (loadData expFetch recFetch w)) = active_filter_tab (doc w)
  /\ active_source_tab (doc (loadData expFetch recFetch w)) = active_source_tab (doc w).
Proof.
  rewrite loadData_outcomes.
  destruct (load_outcome expFetch recFetch) as [|exps|exps recs].
  - repeat split.
  - repeat split.
  - rewrite updateUI_st, updateUI_doc. repeat split.
Qed.

(** X4.  Loading the same two documents a second time changes nothing: the
    world after the second load is the world after the first, whatever the
    requests delivered and whatever was loaded before. *)
Theorem loadData_idempotent :
  forall (expFetch : Fetch Experiment) (recFetch : Fetch Recommendation) (w : World),
    loadData expFetch recFetch (loadData expFetch recFetch w)
    = loadData expFetch recFetch w.
Proof.
  intros expFetch recFetch w. rewrite !loadData_outcomes.
  destruct (load_outcome expFetch recFetch) as [|exps|exps recs].
  - reflexivity.
  - reflexivity.
  - apply World_eq.
    + rewrite !updateUI_st. reflexivity.
    + rewrite !updateUI_doc, updateUI_st. reflexivity.
Qed.

(** X5.  What a successful load leaves behind depends on the documents,
    the selection and the active tabs only: two worlds that agree on the
    selection and the tabs are the same world after loading the same
    documents, whatever data, statistics or panels they held before. *)
Theorem loadData_replaces_everything :
  forall (exps : option (list Experiment)) (recs : option (list Recommendation))
         (w1 w2 : World),
    currentFilter (st w1) = currentFilter (st w2) ->
    currentSource (st w1) = currentSource (st w2) ->
    active_filter_tab (doc w1) = active_filter_tab (doc w2) ->
    active_source_tab (doc w1) = active_source_tab (doc w2) ->
    loadData (delivered exps) (delivered recs) w1
    = loadData (delivered exps) (delivered recs) w2.
Proof.
  intros exps recs w1 w2 Hf Hs Haf Has.
  rewrite !loadData_delivered. apply World_eq.
  - rewrite !updateUI_st.
    unfold set_experiments, set_recommendations, set_isLoading. simpl.
    rewrite Hf, Hs. reflexivity.
  - rewrite !updateUI_doc. unfold selected_experiments, selected_recommendations.
    simpl. rewrite Hf, Hs.
    unfold set_badges, set_experiments_tbody, set_recommendations_list, set_stats.
    simpl. rewrite Haf, Has. reflexivity.
Qed.

(** A page on which an earlier load failed and the page at its start: the
    same documents give the same world. *)
Lemma loadData_replaces_everything_sample :
  loadData (delivered (Some [sample_experiment "E2" "manual";
                             sample_experiment "E1" "imported"]))
           (delivered (Some [sample_recommendation "R1" "pending" 1700000000000]))
           (loadData (delivered (Some [sample_experiment "E9" "manual"]))
                     (Resolved {| ok := false; body := None |}) at_start)
  = loadData (delivered (Some [sample_experiment "E2" "manual";
                               sample_experiment "E1" "imported"]))
             (delivered (Some [sample_recommendation "R1" "pending" 1700000000000]))
             at_start.
Proof.
  apply loadData_replaces_everything; reflexivity.
Defined.

(** ** Invariants of the event loop *)

Lemma updateRecommendations_current (w : World) :
  recommendations_panel_current (updateRecommendations w).
Proof.
  unfold recommendations_panel_current.
  rewrite updateRecommendations_doc, updateRecommendations_st.
  unfold selected_recommendations. simpl.
  destruct (String.eqb (currentFilter (st w)) "all");
    [rewrite (sort_sort byTimestamp _ _ byTimestamp_key)|]; reflexivity.
Qed.

Lemma updateExperimentsTable_current (w : World) :
  experiments_panel_current (updateExperimentsTable w).
Proof.
  unfold experiments_panel_current.
  rewrite updateExperimentsTable_doc, updateExperimentsTable_st.
  unfold selected_experiments. simpl.
  destruct (String.eqb (currentSource (st w)) "all");
    [rewrite (sort_sort byExpId _ _ byExpId_key)|]; reflexivity.
Qed.

(** Each renderer leaves the other panel, and what that panel shows, alone. *)
Lemma updateRecommendations_keeps_experiments_panel (w : World) :
  experiments_tbody (doc (updateRecommendations w)) = experiments_tbody (doc w)
  /\ selected_experiments (st (updateRecommendations w)) = selected_experiments (st w).
Proof.
  rewrite updateRecommendations_doc, updateRecommendations_st. split; reflexivity.
Qed.

Lemma updateExperimentsTable_keeps_recommendations_panel (w : World) :
  recommendations_list (doc (updateExperimentsTable w)) = recommendations_list (doc w)
  /\ selected_recommendations (st (updateExperimentsTable w))
     = selected_recommendations (st w)
  /\ currentFilter (st (updateExperimentsTable w)) = currentFilter (st w).
Proof.
  rewrite updateExperimentsTable_doc, updateExperimentsTable_st.
  repeat split; reflexivity.
Qed.

Lemma updateUI_current (w : World) :
  recommendations_panel_current (updateUI w) /\ experiments_panel_current (updateUI w).
Proof.
  unfold recommendations_panel_current, experiments_panel_current.
  rewrite updateUI_doc, updateUI_st.
  unfold selected_recommendations, selected_experiments. simpl.
  split.
  - destruct (String.eqb (currentFilter (st w)) "all");
      [rewrite (sort_sort byTimestamp _ _ byTimestamp_key)|]; reflexivity.
  - destruct (String.eqb (currentSource (st w)) "all");
      [rewrite (sort_sort byExpId _ _ byExpId_key)|]; reflexivity.
Qed.

Lemma handle_panels (ev : Event) (w : World) :
  panels_current_or_error w -> panels_current_or_error (handle ev w).
Proof.
  intros [Hr He]. destruct ev as [expFetch recFetch|filter|src]; simpl.
  - rewrite loadData_outcomes.
    destruct (load_outcome expFetch recFetch) as [|exps|exps recs].
    + split; right; reflexivity.
    + split; right; reflexivity.
    + destruct (updateUI_current
                  {| st := set_isLoading false
                             (set_recommendations recs (set_experiments exps (st w)));
                     doc := doc w |}) as [H1 H2].
      split; left; assumption.
  - unfold filterTab_click. split.
    + left. apply updateRecommendations_current.
    + unfold experiments_panel_current.
      destruct (updateRecommendations_keeps_experiments_panel
                  {| st := set_currentFilter filter (st w);
                     doc := set_active_filter_tab filter (doc w) |}) as [H1 H2].
      rewrite H1, H2. exact He.
  - unfold sourceTab_click. split.
    + unfold recommendations_panel_current.
      destruct (updateExperimentsTable_keeps_recommendations_panel
                  {| st := set_currentSource src (st w);
                     doc := set_active_source_tab src (doc w) |}) as [H1 [H2 H3]].
      rewrite H1, H2, H3. exact Hr.
    + left. apply updateExperimentsTable_current.
Qed.

Lemma loadData_panels (expFetch : Fetch Experiment) (recFetch : Fetch Recommendation)
      (w : World) :
  panels_current_or_error (loadData expFetch recFetch w).
Proof.
  rewrite loadData_outcomes.
  destruct (load_outcome expFetch recFetch) as [|exps|exps recs].
  - split; right; reflexivity.
  - split; right; reflexivity.
  - destruct (updateUI_current
                {| st := set_isLoading false
                           (set_recommendations recs (set_experiments exps (st w)));
                   doc := doc w |}) as [H1 H2].
    split; left; assumption.
Qed.

(** X6.  From the first load on, whatever it delivered and whatever loads
    and tab clicks follow, each of the two panels shows either what its
    renderer makes of the state as it now is (the current arrays under the
    current selection) or the error fragment: a panel is never left showing
    an earlier selection or earlier data. *)
Theorem panels_never_stale :
  forall (expFetch : Fetch Experiment) (recFetch : Fetch Recommendation)
         (evs : list Event) (w : World),
    panels_current_or_error (run evs (loadData expFetch recFetch w)).
Proof.
  intros expFetch recFetch evs w.
  assert (H : panels_current_or_error (loadData expFetch recFetch w))
    by apply loadData_panels.
  revert H. generalize (loadData expFetch recFetch w). clear w.
  induction evs as [|ev evs IH]; intros w H; simpl.
  - exact H.
  - apply IH, handle_panels, H.
Qed.

Lemma selected_recommendations_sorted_count_at (p : Recommendation -> bool)
      (filter : string) (l : list Recommendation) :
  count p (if String.eqb filter "all" then JS.sort byTimestamp l else l) = count p l.
Proof.
  destruct (String.eqb filter "all"); [|reflexivity]. apply count_perm, sort_perm.
Qed.

Lemma updateUI_statistics (w : World) : statistics_current (updateUI w).
Proof.
  unfold statistics_current. rewrite updateUI_doc, updateUI_st. simpl.
  rewrite !selected_recommendations_sorted_count.
  assert (PE : Permutation
                 (if String.eqb (currentSource (st w)) "all"
                  then JS.sort byExpId (experiments (st w)) else experiments (st w))
                 (experiments (st w))).
  { destruct (String.eqb (currentSource (st w)) "all");
      [apply sort_perm | apply Permutation_refl]. }
  rewrite !(count_perm _ PE), (Permutation_length PE).
  repeat split.
Qed.

Lemma handle_statistics (ev : Event) (w : World) :
  assigns_experiments_only ev = false ->
  statistics_current w -> statistics_current (handle ev w).
Proof.
  intros Hev H. destruct ev as [expFetch recFetch|filter|src]; simpl in *.
  - rewrite loadData_outcomes.
    destruct (load_outcome expFetch recFetch) as [|exps|exps recs].
    + exact H.
    + discriminate.
    + apply updateUI_statistics.
  - unfold statistics_current, filterTab_click.
    rewrite updateRecommendations_doc, updateRecommendations_st. simpl.
    rewrite !selected_recommendations_sorted_count_at. exact H.
  - unfold statistics_current, sourceTab_click.
    rewrite updateExperimentsTable_doc, updateExperimentsTable_st. simpl.
    assert (PE : Permutation
                   (if String.eqb src "all"
                    then JS.sort byExpId (experiments (st w)) else experiments (st w))
                   (experiments (st w))).
    { destruct (String.eqb src "all"); [apply sort_perm | apply Permutation_refl]. }
    rewrite !(count_perm _ PE), (Permutation_length PE). exact H.
Qed.

(** X7.  Once a load has rendered the page, the statistics and the badges
    keep showing the counts of the arrays the state holds, through any tab
    clicks, failed loads and further loads, as long as no load assigns the
    experiments and then fails (a recommendations document that is [null]);
    such a load is what breaks it: the page at its start, loaded with one
    experiment and then reloaded with two and a [null] recommendations
    document, shows 1 beside a state that holds two. *)
Theorem statistics_follow_the_state :
  forall (exps : option (list Experiment)) (recs : option (list Recommendation))
         (evs : list Event) (w : World),
    (forallb (fun ev => negb (assigns_experiments_only ev)) evs = true ->
     statistics_current (run evs (loadData (delivered exps) (delivered recs) w)))
    /\ (let broken :=
          run [Loaded (delivered (Some [sample_experiment "E1" "imported";
                                        sample_experiment "E2" "manual"]))
                      (Resolved {| ok := true; body := Some JsonNull |})]
              (loadData (delivered (Some [sample_experiment "E1" "imported"]))
                        (delivered (Some [])) at_start) in
        total_experiments (doc broken) = "1"%string
        /\ List.length (experiments (st broken)) = 2%nat).
Proof.
  intros exps recs evs w. split; [|split; reflexivity].
  rewrite loadData_delivered.
  assert (H : statistics_current
                (updateUI {| st := set_isLoading false
                                     (set_recommendations (or_else recs [])
                                        (set_experiments (or_else exps []) (st w)));
                             doc := doc w |}))
    by apply updateUI_statistics.
  revert H. generalize (updateUI {| st := set_isLoading false
                                     (set_recommendations (or_else recs [])
                                        (set_experiments (or_else exps []) (st w)));
                             doc := doc w |}).
  clear w. induction evs as [|ev evs IH]; intros w H Hevs; simpl in *.
  - exact H.
  - apply andb_prop in Hevs. destruct Hevs as [Hev Hevs].
    apply IH; [|exact Hevs].
    apply handle_statistics; [|exact H].
    destruct (assigns_experiments_only ev); [discriminate | reflexivity].
Qed.

(** A load, the tab ['all'], a load that fails with status 500, the tab
    ['manual']: the statistics are those of the state. *)
Lemma statistics_follow_the_state_sample :
  statistics_current
    (run [FilterTabClicked "all";
          Loaded (Resolved {| ok := false; body := None |})
                 (delivered (Some [sample_recommendation "R9" "pending" 1700000900000]));
          SourceTabClicked "manual"]
         (loadData
            (delivered (Some [sample_experiment "E2" "manual";
                              sample_experiment "E1" "imported"]))
            (delivered (Some [sample_recommendation "R1" "pending" 1700000000000;
                              sample_recommendation "R2" "skipped" 1700000300000]))
            at_start)).
Proof.
  apply (proj1 (statistics_follow_the_state
                  (Some [sample_experiment "E2" "manual";
                         sample_experiment "E1" "imported"])
                  (Some [sample_recommendation "R1" "pending" 1700000000000;
                         sample_recommendation "R2" "skipped" 1700000300000])
                  [FilterTabClicked "all";
                   Loaded (Resolved {| ok := false; body := None |})
                          (delivered (Some [sample_recommendation "R9" "pending"
                                                                  1700000900000]));
                   SourceTabClicked "manual"]
                  at_start)).
  reflexivity.
Defined.

Lemma handle_tabs_in_sync (ev : Event) (w : World) :
  tabs_in_sync w -> tabs_in_sync (handle ev w).
Proof.
  unfold tabs_in_sync. intros [Hf Hs].
  destruct ev as [expFetch recFetch|filter|src]; simpl.
  - destruct (loadData_selection expFetch recFetch w) as [H1 [H2 [H3 H4]]].
    rewrite H1, H2, H3, H4. split; assumption.
  - unfold filterTab_click.
    rewrite updateRecommendations_doc, updateRecommendations_st. simpl.
    split; [reflexivity | exact Hs].
  - unfold sourceTab_click.
    rewrite updateExperimentsTable_doc, updateExperimentsTable_st. simpl.
    split; [exact Hf | reflexivity].
Qed.

Lemma handle_selection (ev : Event) (w : World) :
  (is_filter_click ev = false ->
   currentFilter (st (handle ev w)) = currentFilter (st w))
  /\ (is_source_click ev = false ->
      currentSource (st (handle ev w)) = currentSource (st w)).
Proof.
  destruct ev as [expFetch recFetch|filter|src]; simpl.
  - destruct (loadData_selection expFetch recFetch w) as [H1 [H2 _]].
    split; intros _; assumption.
  - unfold filterTab_click. rewrite updateRecommendations_st.
    split; [discriminate | reflexivity].
  - unfold sourceTab_click. rewrite updateExperimentsTable_st.
    split; [reflexivity | discriminate].
Qed.

(** X8.  If the active tab of each group is the selection in force, it
    stays so through any loads and tab clicks; and the selection changes
    by a click on a tab of its own group only: events without a filter
    click leave [currentFilter] as it was, events without a source click
    leave [currentSource] as it was (a reload keeps the user's filters). *)
Theorem selection_follows_the_tabs :
  forall (evs : list Event) (w : World),
    (tabs_in_sync w -> tabs_in_sync (run evs w))
    /\ (forallb (fun ev => negb (is_filter_click ev)) evs = true ->
        currentFilter (st (run evs w)) = currentFilter (st w))
    /\ (forallb (fun ev => negb (is_source_click ev)) evs = true ->
        currentSource (st (run evs w)) = currentSource (st w)).
Proof.
  induction evs as [|ev evs IH]; intros w; simpl.
  - split; [intros H; exact H | split; intros _; reflexivity].
  - destruct (IH (handle ev w)) as [I1 [I2 I3]].
    destruct (handle_selection ev w) as [S1 S2].
    split; [|split].
    + intros H. apply I1, handle_tabs_in_sync, H.
    + intros H. apply andb_prop in H. destruct H as [Hev Hevs].
      rewrite (I2 Hevs). apply S1.
      destruct (is_filter_click ev); [discriminate | reflexivity].
    + intros H. apply andb_prop in H. destruct H as [Hev Hevs].
      rewrite (I3 Hevs). apply S2.
      destruct (is_source_click ev); [discriminate | reflexivity].
Qed.

(** From the start: a click on ['completed'], a load, a click on
    ['manual']. *)
Lemma selection_follows_the_tabs_sample :
  tabs_in_sync
    (run [FilterTabClicked "completed";
          Loaded (delivered (Some [sample_experiment "E1" "imported"]))
                 (delivered (Some [sample_recommendation "R1" "pending" 1700000000000]));
          SourceTabClicked "manual"]
         at_start)
  /\ currentFilter
       (st (run [Loaded (delivered (Some [sample_experiment "E1" "imported"]))
                        (delivered None);
                 SourceTabClicked "manual"]
                (filterTab_click "skipped" at_start)))
     = "skipped"%string.
Proof.
  split.
  - apply (proj1 (selection_follows_the_tabs _ at_start)). split; reflexivity.
  - apply (proj1 (proj2 (selection_follows_the_tabs
                           [Loaded (delivered (Some [sample_experiment "E1" "imported"]))
                                   (delivered None);
                            SourceTabClicked "manual"]
                           (filterTab_click "skipped" at_start)))).
    reflexivity.
Defined.

Lemma handle_click_keeps_data (ev : Event) (w : World) :
  is_load ev = false ->
  Permutation (experiments (st (handle ev w))) (experiments (st w))
  /\ Permutation (recommendations (st (handle ev w))) (recommendations (st w))
  /\ isLoading (st (handle ev w)) = isLoading (st w)
  /\ total_experiments (doc (handle ev w)) = total_experiments (doc w)
  /\ pending_count (doc (handle ev w)) = pending_count (doc w)
  /\ completed_count (doc (handle ev w)) = completed_count (doc w)
  /\ model_accuracy (doc (handle ev w)) = model_accuracy (doc w)
  /\ pending_badge (doc (handle ev w)) = pending_badge (doc w)
  /\ completed_badge (doc (handle ev w)) = completed_badge (doc w)
  /\ skipped_badge (doc (handle ev w)) = skipped_badge (doc w).
Proof.
  intros Hev. destruct ev as [expFetch recFetch|filter|src]; simpl in *.
  - discriminate.
  - unfold filterTab_click.
    rewrite updateRecommendations_doc, updateRecommendations_st. simpl.
    repeat split; try apply Permutation_refl.
    destruct (String.eqb filter "all"); [apply sort_perm | apply Permutation_refl].
  - unfold sourceTab_click.
    rewrite updateExperimentsTable_doc, updateExperimentsTable_st. simpl.
    repeat split; try apply Permutation_refl.
    destruct (String.eqb src "all"); [apply sort_perm | apply Permutation_refl].
Qed.

(** X9.  Tab clicks never add, drop or change a loaded record, never touch
    [isLoading], and never rewrite a statistic or a badge: after any
    sequence of clicks the two arrays hold the same records as before
    (possibly in another order) and the seven texts are as they were.  Only
    a load changes them. *)
Theorem clicks_keep_data_and_statistics :
  forall (evs : list Event) (w : World),
    forallb (fun ev => negb (is_load ev)) evs = true ->
    Permutation (experiments (st (run evs w))) (experiments (st w))
    /\ Permutation (recommendations (st (run evs w))) (recommendations (st w))
    /\ isLoading (st (run evs w)) = isLoading (st w)
    /\ total_experiments (doc (run evs w)) = total_experiments (doc w)
    /\ pending_count (doc (run evs w)) = pending_count (doc w)
    /\ completed_count (doc (run evs w)) = completed_count (doc w)
    /\ model_accuracy (doc (run evs w)) = model_accuracy (doc w)
    /\ pending_badge (doc (run evs w)) = pending_badge (doc w)
    /\ completed_badge (doc (run evs w)) = completed_badge (doc w)
    /\ skipped_badge (doc (run evs w)) = skipped_badge (doc w).
Proof.
  induction evs as [|ev evs IH]; intros w H; simpl in *.
  - repeat split; apply Permutation_refl.
  - apply andb_prop in H. destruct H as [Hev Hevs].
    assert (Hev' : is_load ev = false)
      by (destruct (is_load ev); [discriminate | reflexivity]).
    destruct (handle_click_keeps_data ev w Hev')
      as (A1 & A2 & A3 & A4 & A5 & A6 & A7 & A8 & A9 & A10).
    destruct (IH (handle ev w) Hevs)
      as (B1 & B2 & B3 & B4 & B5 & B6 & B7 & B8 & B9 & B10).
    repeat split;
      first [ eapply perm_trans; eassumption | etransitivity; eassumption ].
Qed.

(** Four clicks on a loaded page. *)
Lemma clicks_keep_data_and_statistics_sample :
  let w := loadData
             (delivered (Some [sample_experiment "E2" "manual";
                               sample_experiment "E1" "imported"]))
             (delivered (Some [sample_recommendation "R1" "pending" 1700000000000;
                               sample_recommendation "R2" "skipped" 1700000300000]))
             at_start in
  let evs := [FilterTabClicked "all"; SourceTabClicked "manual";
              FilterTabClicked "skipped"; SourceTabClicked "all"] in
  Permutation (experiments (st (run evs w))) (experiments (st w))
  /\ Permutation (recommendations (st (run evs w))) (recommendations (st w))
  /\ isLoading (st (run evs w)) = isLoading (st w)
  /\ total_experiments (doc (run evs w)) = total_experiments (doc w)
  /\ pending_count (doc (run evs w)) = pending_count (doc w)
  /\ completed_count (doc (run evs w)) = completed_count (doc w)
  /\ model_accuracy (doc (run evs w)) = model_accuracy (doc w)
  /\ pending_badge (doc (run evs w)) = pending_badge (doc w)
  /\ completed_badge (doc (run evs w)) = completed_badge (doc w)
  /\ skipped_badge (doc (run evs w)) = skipped_badge (doc w).
Proof.
  apply clicks_keep_data_and_statistics. reflexivity.
Defined.

(** ** Badges, statistics and what the panels show *)

Lemma length_cards_of_markup (filter : string) (shown : list Recommendation) :
  List.length (cards_of (recommendations_markup filter shown)) = List.length shown.
Proof.
  rewrite cards_of_recommendations_markup. apply length_map.
Qed.

(** X10.  After a full render, the badge on each of the three status tabs
    is the number of cards a click on that tab lists, and a click on a tab
    of any other value lists as many cards as there are recommendations of
    that status; under ['all'] every recommendation has its card. *)
Theorem badges_count_the_cards :
  forall (w : World) (tab : string),
    let rendered := updateUI w in
    let cards := cards_of (recommendations_list (doc (filterTab_click tab rendered))) in
    (tab <> "all"%string ->
     List.length cards = count (with_status tab) (recommendations (st w)))
    /\ (tab = "all"%string ->
        List.length cards = List.length (recommendations (st w)))
    /\ pending_badge (doc rendered)
       = JS.String_of_nat
           (List.length (cards_of (recommendations_list
                                     (doc (filterTab_click "pending" rendered)))))
    /\ completed_badge (doc rendered)
       = JS.String_of_nat
           (List.length (cards_of (recommendations_list
                                     (doc (filterTab_click "completed" rendered)))))
    /\ skipped_badge (doc rendered)
       = JS.String_of_nat
           (List.length (cards_of (recommendations_list
                                     (doc (filterTab_click "skipped" rendered))))).
Proof.
  intros w tab rendered cards. subst rendered cards.
  assert (L : forall t,
             List.length (cards_of (recommendations_list
                                      (doc (filterTab_click t (updateUI w)))))
             = if String.eqb t "all" then List.length (recommendations (st w))
               else count (with_status t) (recommendations (st w))).
  { intros t. unfold filterTab_click.
    rewrite updateRecommendations_doc, updateUI_st. simpl.
    rewrite length_cards_of_markup, (Permutation_length (sort_perm _ _)).
    unfold selected_recommendations. simpl.
    destruct (String.eqb t "all").
    - destruct (String.eqb (currentFilter (st w)) "all");
        [apply Permutation_length, sort_perm | reflexivity].
    - fold (with_status t).
      apply (selected_recommendations_sorted_count (with_status t) (st w)). }
  split; [|split; [|split; [|split]]].
  - intros H. rewrite L. destruct (String.eqb_spec tab "all"); [contradiction|reflexivity].
  - intros ->. rewrite L. reflexivity.
  - rewrite L, updateUI_doc. reflexivity.
  - rewrite L, updateUI_doc. reflexivity.
  - rewrite L, updateUI_doc. reflexivity.
Qed.

(** Two pending samples and one skipped: the tab ['pending'] lists two. *)
Lemma badges_count_the_cards_sample :
  List.length
    (cards_of (recommendations_list
       (doc (filterTab_click "pending"
          (updateUI {| st := set_recommendations
                               [sample_recommendation "R1" "pending" 1700000000000;
                                sample_recommendation "R2" "skipped" 1700000300000;
                                sample_recommendation "R3" "pending" 1700000600000]
                               state;
                       doc := blank_page |})))))
  = 2%nat.
Proof.
  apply (proj1 (badges_count_the_cards
                  {| st := set_recommendations
                             [sample_recommendation "R1" "pending" 1700000000000;
                              sample_recommendation "R2" "skipped" 1700000300000;
                              sample_recommendation "R3" "pending" 1700000600000]
                             state;
                     doc := blank_page |} "pending")).
  discriminate.
Defined.

Lemma count_map {A B} (f : A -> B) (p : B -> bool) (l : list A) :
  count p (map f l) = count (fun a => p (f a)) l.
Proof.
  unfold count. induction l as [|a l IH]; simpl; [reflexivity|].
  destruct (p (f a)); simpl; rewrite IH; reflexivity.
Qed.

Lemma count_cons {A} (p : A -> bool) (a : A) (l : list A) :
  count p (a :: l) = ((if p a then 1 else 0) + count p l)%nat.
Proof. unfold count. simpl. destruct (p a); reflexivity. Qed.

Lemma count_le_length {A} (p : A -> bool) (l : list A) :
  (count p l <= List.length l)%nat.
Proof. apply filter_length_le. Qed.

(** The tag of a row: the source of the experiment, ['imported'] when the
    source is absent or empty. *)
Lemma shown_as_imported (e : Experiment) :
  shown_as "imported" e = from_source "imported" e || without_source e.
Proof.
  unfold shown_as, from_source, without_source, strict_eq, createExperimentRow. simpl.
  destruct (source e) as [src|]; [|reflexivity].
  destruct (String.eqb_spec src "") as [->|Hne]; [reflexivity|].
  rewrite orb_false_r. reflexivity.
Qed.

Lemma source_counts_cons (e : Experiment) :
  ((if from_source "imported" e then 1 else 0)
   + (if from_source "recommendation" e then 1 else 0)
   + (if from_source "manual" e then 1 else 0)
   = if known_source e then 1 else 0)%nat.
Proof.
  unfold known_source, from_source, strict_eq.
  destruct (source e) as [src|]; [|reflexivity].
  destruct (String.eqb_spec src "imported") as [->|H1]; [reflexivity|].
  destruct (String.eqb_spec src "recommendation") as [->|H2]; [reflexivity|].
  destruct (String.eqb_spec src "manual") as [->|H3]; reflexivity.
Qed.

Lemma source_counts_sum (l : list Experiment) :
  (count (from_source "imported") l + count (from_source "recommendation") l
   + count (from_source "manual") l = count known_source l)%nat.
Proof.
  induction l as [|e l IH]; [reflexivity|].
  rewrite !count_cons, <- IH, <- (source_counts_cons e). lia.
Qed.

Lemma count_all {A} (p : A -> bool) (l : list A) :
  count p l = List.length l <-> Forall (fun a => p a = true) l.
Proof.
  induction l as [|a l IH].
  - split; [constructor | reflexivity].
  - rewrite count_cons. simpl. pose proof (count_le_length p l) as Hle.
    destruct (p a) eqn:Pa; split; intros H.
    + constructor; [exact Pa|]. apply IH. lia.
    + inversion H as [|? ? _ Hl]; subst. apply IH in Hl. lia.
    + lia.
    + inversion H as [|? ? Ha _]; subst. congruence.
Qed.

(** X11.  The three numbers of the source breakdown add up to the total
    exactly when every experiment has one of the three sources; otherwise
    they fall short of it.  An experiment without a source (or with an
    empty one) is in the total and in no number of the breakdown, yet its
    row is tagged ['imported']: under ['all'] the table has as many rows
    tagged ['imported'] as there are imported experiments and experiments
    without a source together. *)
Theorem breakdown_and_tags :
  forall w : World,
    let exps := experiments (st w) in
    let imported := count (from_source "imported") exps in
    let recommendation := count (from_source "recommendation") exps in
    let manual := count (from_source "manual") exps in
    (imported + recommendation + manual <= List.length exps)%nat
    /\ ((imported + recommendation + manual = List.length exps)%nat
        <-> Forall (fun e => known_source e = true) exps)
    /\ count (tagged "imported")
             (rows_of (experiments_tbody (doc (sourceTab_click "all" w))))
       = (imported + count without_source exps)%nat.
Proof.
  intros w exps imported recommendation manual.
  subst imported recommendation manual.
  rewrite source_counts_sum. split; [apply count_le_length|].
  split; [apply count_all|].
  unfold sourceTab_click. rewrite updateExperimentsTable_doc. simpl.
  rewrite rows_of_experiments_markup, count_map.
  unfold selected_experiments. simpl. fold exps.
  rewrite (count_perm _ (sort_perm byExpId exps)).
  change (fun a => tagged "imported" (createExperimentRow a))
    with (shown_as "imported").
  induction exps as [|e l IH]; [reflexivity|].
  rewrite !count_cons, IH, shown_as_imported.
  unfold from_source, without_source, strict_eq.
  destruct (source e) as [src|]; [|simpl; lia].
  destruct (String.eqb_spec src "imported") as [->|H1]; [simpl; lia|].
  destruct (String.eqb src ""); simpl; lia.
Qed.

(** X12.  Under a source tab other than ['all'] whose value is not empty,
    every row of the table is tagged with the source selected.  (Under the
    empty value the rows would be tagged ['imported'].) *)
Theorem rows_tagged_with_the_selection :
  forall (w : World) (src : string),
    src <> "all"%string -> src <> ""%string ->
    Forall (fun r => row_source_tag r = src)
           (rows_of (experiments_tbody (doc (sourceTab_click src w)))).
Proof.
  intros w src Hall Hempty. unfold sourceTab_click.
  rewrite updateExperimentsTable_doc. simpl.
  rewrite rows_of_experiments_markup.
  unfold selected_experiments. simpl.
  destruct (String.eqb_spec src "all") as [|_]; [contradiction|].
  apply Forall_forall. intros r Hr.
  apply in_map_iff in Hr. destruct Hr as [e [<- He]].
  eapply Permutation_in in He; [|apply sort_perm].
  apply filter_In in He. destruct He as [_ He].
  unfold strict_eq in He. unfold createExperimentRow. simpl.
  destruct (source e) as [s|]; [|discriminate].
  apply String.eqb_eq in He. subst s.
  destruct (String.eqb_spec src ""); [contradiction | reflexivity].
Qed.

(** The tab ['manual'] over three samples. *)
Lemma rows_tagged_with_the_selection_sample :
  Forall (fun r => row_source_tag r = "manual"%string)
    (rows_of (experiments_tbody (doc (sourceTab_click "manual"
       {| st := set_experiments [sample_experiment "E3" "manual";
                                 sample_experiment "E1" "imported";
                                 sample_experiment "E2" "manual"] state;
          doc := blank_page |})))).
Proof.
  apply rows_tagged_with_the_selection; discriminate.
Defined.

(** ** A load that fails after one that succeeded *)

(** X13.  A load that fails puts the error fragment into both panels but
    leaves the state and each of the four statistics and three badges as
    it was; the next click on a tab then lists the data loaded earlier
    again, exactly as the same click would have without the failed load. *)
Theorem failed_load_then_click :
  forall (expFetch : Fetch Experiment) (recFetch : Fetch Recommendation)
         (w : World) (tab : string),
    failed expFetch = true \/ failed recFetch = true ->
    let w' := loadData expFetch recFetch w in
    st w' = st w
    /\ statistics_current w = statistics_current w'
    /\ recommendations_list (doc w') = error_fragment
    /\ experiments_tbody (doc w') = error_fragment
    /\ recommendations_list (doc (filterTab_click tab w'))
       = recommendations_list (doc (filterTab_click tab w))
    /\ st (filterTab_click tab w') = st (filterTab_click tab w)
    /\ experiments_tbody (doc (sourceTab_click tab w'))
       = experiments_tbody (doc (sourceTab_click tab w))
    /\ st (sourceTab_click tab w') = st (sourceTab_click tab w)
    /\ total_experiments (doc w') = total_experiments (doc w)
    /\ pending_count (doc w') = pending_count (doc w)
    /\ completed_count (doc w') = completed_count (doc w)
    /\ model_accuracy (doc w') = model_accuracy (doc w)
    /\ pending_badge (doc w') = pending_badge (doc w)
    /\ completed_badge (doc w') = completed_badge (doc w)
    /\ skipped_badge (doc w') = skipped_badge (doc w).
Proof.
  intros expFetch recFetch w tab H w'. subst w'.
  rewrite (loadData_failed _ _ _ H).
  unfold filterTab_click, sourceTab_click.
  rewrite !updateRecommendations_doc, !updateRecommendations_st,
    !updateExperimentsTable_doc, !updateExperimentsTable_st.
  repeat split.
Qed.

(** A refresh answered with status 503 after a first load of two
    experiments, then the tab ['manual']. *)
Lemma failed_load_then_click_sample :
  map row_exp_id
    (rows_of (experiments_tbody (doc (sourceTab_click "manual"
       (loadData (Resolved {| ok := false; body := None |})
                 (Resolved {| ok := false; body := None |})
          (loadData (delivered (Some [sample_experiment "E2" "manual";
                                      sample_experiment "E1" "imported"]))
                    (delivered (Some [])) at_start))))))
  = ["E2"]%string.
Proof.
  destruct (failed_load_then_click
              (Resolved {| ok := false; body := None |})
              (Resolved {| ok := false; body := None |})
              (loadData (delivered (Some [sample_experiment "E2" "manual";
                                          sample_experiment "E1" "imported"]))
                        (delivered (Some [])) at_start)
              "manual" (or_introl eq_refl))
    as (_ & _ & _ & _ & _ & _ & H & _).
  rewrite H. reflexivity.
Defined.

(** ** The four updaters of [updateUI] *)

Lemma sorted_experiments_perm (src : string) (l : list Experiment) :
  Permutation (if String.eqb src "all" then JS.sort byExpId l else l) l.
Proof. destruct (String.eqb src "all"); [apply sort_perm | apply Permutation_refl]. Qed.

Lemma updateStats_updateRecommendations (w : World) :
  updateStats (updateRecommendations w) = updateRecommendations (updateStats w).
Proof.
  apply World_eq.
  - rewrite updateRecommendations_st. unfold updateStats. simpl.
    rewrite updateRecommendations_st. reflexivity.
  - rewrite updateRecommendations_doc. unfold updateStats. simpl.
    rewrite updateRecommendations_st, updateRecommendations_doc. simpl.
    fold (count (fun r => String.eqb (status r) "pending")
            (if String.eqb (currentFilter (st w)) "all"
             then JS.sort byTimestamp (recommendations (st w))
             else recommendations (st w))).
    fold (count (fun r => String.eqb (status r) "completed")
            (if String.eqb (currentFilter (st w)) "all"
             then JS.sort byTimestamp (recommendations (st w))
             else recommendations (st w))).
    rewrite !selected_recommendations_sorted_count. reflexivity.
Qed.

Lemma updateStats_updateExperimentsTable (w : World) :
  updateStats (updateExperimentsTable w) = updateExperimentsTable (updateStats w).
Proof.
  pose proof (sorted_experiments_perm (currentSource (st w)) (experiments (st w))) as PE.
  apply World_eq.
  - rewrite updateExperimentsTable_st. unfold updateStats. simpl.
    rewrite updateExperimentsTable_st. reflexivity.
  - rewrite updateExperimentsTable_doc. unfold updateStats. simpl.
    rewrite updateExperimentsTable_st, updateExperimentsTable_doc. simpl.
    rewrite (Permutation_length PE).
    fold (count (fun e => strict_eq (source e) "imported")
            (if String.eqb (currentSource (st w)) "all"
             then JS.sort byExpId (experiments (st w)) else experiments (st w))).
    fold (count (fun e => strict_eq (source e) "recommendation")
            (if String.eqb (currentSource (st w)) "all"
             then JS.sort byExpId (experiments (st w)) else experiments (st w))).
    fold (count (fun e => strict_eq (source e) "manual")
            (if String.eqb (currentSource (st w)) "all"
             then JS.sort byExpId (experiments (st w)) else experiments (st w))).
    rewrite !(count_perm _ PE). reflexivity.
Qed.

Lemma updateBadges_updateRecommendations (w : World) :
  updateBadges (updateRecommendations w) = updateRecommendations (updateBadges w).
Proof.
  apply World_eq.
  - rewrite updateRecommendations_st. unfold updateBadges. simpl.
    rewrite updateRecommendations_st. reflexivity.
  - rewrite updateRecommendations_doc. unfold updateBadges. simpl.
    rewrite updateRecommendations_st, updateRecommendations_doc. simpl.
    fold (count (fun r => String.eqb (status r) "pending")
            (if String.eqb (currentFilter (st w)) "all"
             then JS.sort byTimestamp (recommendations (st w))
             else recommendations (st w))).
    fold (count (fun r => String.eqb (status r) "completed")
            (if String.eqb (currentFilter (st w)) "all"
             then JS.sort byTimestamp (recommendations (st w))
             else recommendations (st w))).
    fold (count (fun r => String.eqb (status r) "skipped")
            (if String.eqb (currentFilter (st w)) "all"
             then JS.sort byTimestamp (recommendations (st w))
             else recommendations (st w))).
    rewrite !selected_recommendations_sorted_count. reflexivity.
Qed.

Lemma updateBadges_updateExperimentsTable (w : World) :
  updateBadges (updateExperimentsTable w) = updateExperimentsTable (updateBadges w).
Proof.
  apply World_eq.
  - rewrite updateExperimentsTable_st. unfold updateBadges. simpl.
    rewrite updateExperimentsTable_st. reflexivity.
  - rewrite updateExperimentsTable_doc. unfold updateBadges. simpl.
    rewrite updateExperimentsTable_st, updateExperimentsTable_doc. reflexivity.
Qed.

Lemma updateRecommendations_updateExperimentsTable (w : World) :
  updateRecommendations (updateExperimentsTable w)
  = updateExperimentsTable (updateRecommendations w).
Proof.
  apply World_eq.
  - rewrite updateRecommendations_st, updateExperimentsTable_st,
      updateExperimentsTable_st, updateRecommendations_st. reflexivity.
  - rewrite updateRecommendations_doc, updateExperimentsTable_doc,
      updateExperimentsTable_doc, updateRecommendations_doc,
      updateExperimentsTable_st, updateRecommendations_st. reflexivity.
Qed.

Lemma updateStats_updateBadges (w : World) :
  updateStats (updateBadges w) = updateBadges (updateStats w).
Proof. reflexivity. Qed.

(** X14.  The four updaters of [updateUI] can run in any order: any two of
    them commute (the in-place sorts of the two renderers change no count),
    so every order of the four leaves the same world; in particular the
    reverse of the order [updateUI] uses. *)
Theorem updaters_commute :
  forall w : World,
    updateStats (updateBadges w) = updateBadges (updateStats w)
    /\ updateStats (updateRecommendations w) = updateRecommendations (updateStats w)
    /\ updateStats (updateExperimentsTable w) = updateExperimentsTable (updateStats w)
    /\ updateBadges (updateRecommendations w) = updateRecommendations (updateBadges w)
    /\ updateBadges (updateExperimentsTable w) = updateExperimentsTable (updateBadges w)
    /\ updateRecommendations (updateExperimentsTable w)
       = updateExperimentsTable (updateRecommendations w)
    /\ updateStats (updateRecommendations (updateExperimentsTable (updateBadges w)))
       = updateUI w.
Proof.
  intros w.
  split; [apply updateStats_updateBadges|].
  split; [apply updateStats_updateRecommendations|].
  split; [apply updateStats_updateExperimentsTable|].
  split; [apply updateBadges_updateRecommendations|].
  split; [apply updateBadges_updateExperimentsTable|].
  split; [apply updateRecommendations_updateExperimentsTable|].
  unfold updateUI.
  rewrite <- updateBadges_updateExperimentsTable,
    <- updateBadges_updateRecommendations, updateStats_updateBadges,
    updateRecommendations_updateExperimentsTable,
    updateStats_updateExperimentsTable, updateStats_updateRecommendations.
  reflexivity.
Qed.

(** ** What the two formatters can return *)

Lemma all_chars_append (p : ascii -> bool) (a b : string) :
  all_chars p (a ++ b) = all_chars p a && all_chars p b.
Proof.
  induction a as [|c a IH]; simpl; [reflexivity|].
  rewrite IH. apply andb_assoc.
Qed.

Lemma all_chars_substring (p : ascii -> bool) (s : string) (n m : nat) :
  all_chars p s = true -> all_chars p (substring n m s) = true.
Proof.
  revert n m. induction s as [|c s IH]; intros n m H; simpl in *.
  - destruct n, m; reflexivity.
  - apply andb_prop in H. destruct H as [Hc Hs].
    destruct n as [|n].
    + destruct m as [|m]; simpl; [reflexivity|].
      rewrite Hc. apply IH, Hs.
    + apply IH, Hs.
Qed.

Lemma all_chars_weaken (p q : ascii -> bool) (s : string) :
  (forall c, p c = true -> q c = true) ->
  all_chars p s = true -> all_chars q s = true.
Proof.
  intros Hpq. induction s as [|c s IH]; simpl; [reflexivity|].
  intros H. apply andb_prop in H. destruct H as [Hc Hs].
  rewrite (Hpq c Hc). apply IH, Hs.
Qed.

Lemma string_of_uint_digits (d : Decimal.uint) :
  all_chars JS.is_digit (NilEmpty.string_of_uint d) = true.
Proof. induction d; simpl; try rewrite IHd; reflexivity. Qed.

Lemma String_of_N_digits (n : N) : all_chars JS.is_digit (JS.String_of_N n) = true.
Proof. apply string_of_uint_digits. Qed.

Lemma String_of_N_nonempty (n : N) : JS.String_of_N n <> ""%string.
Proof.
  unfold JS.String_of_N. destruct n as [|p]; [discriminate|].
  simpl. pose proof (DecimalPos.Unsigned.to_uint_nonnil p) as H.
  destruct (Pos.to_uint p); [contradiction | discriminate ..].
Qed.

Lemma all_chars_zeros (k : nat) : all_chars JS.is_digit (JS.zeros k) = true.
Proof. induction k as [|k IH]; simpl; [reflexivity | exact IH]. Qed.

Lemma digit_is_numeral_char (c : ascii) :
  JS.is_digit c = true -> numeral_char c = true.
Proof. intros H. unfold numeral_char. rewrite H. reflexivity. Qed.

(** The digits printed by [toFixed]: not empty, digits and points only. *)
Lemma fixed_digits_numeral (n : N) (f : nat) :
  JS.fixed_digits n f <> ""%string
  /\ all_chars numeral_char (JS.fixed_digits n f) = true.
Proof.
  destruct f as [|f].
  - split; [apply String_of_N_nonempty|].
    apply (all_chars_weaken JS.is_digit); [apply digit_is_numeral_char|].
    apply String_of_N_digits.
  - destruct (fixed_digits_decimals n f) as [whole [fraction [E [_ Hw]]]].
    split.
    + rewrite E. destruct whole; simpl in *; [lia | discriminate].
    + unfold JS.fixed_digits. rewrite !all_chars_append.
      set (m := if (String.length (JS.String_of_N n) <=? S f)%nat
                then (JS.zeros (S f + 1 - String.length (JS.String_of_N n))
                        ++ JS.String_of_N n)%string
                else JS.String_of_N n).
      assert (Hm : all_chars numeral_char m = true).
      { apply (all_chars_weaken JS.is_digit); [apply digit_is_numeral_char|].
        unfold m. destruct (String.length (JS.String_of_N n) <=? S f)%nat.
        - rewrite all_chars_append, all_chars_zeros, String_of_N_digits. reflexivity.
        - apply String_of_N_digits. }
      rewrite !(all_chars_substring _ _ _ _ Hm). reflexivity.
Qed.

Lemma numeral_signed (negative : bool) (s : string) :
  s <> ""%string -> all_chars numeral_char s = true ->
  numeral ((if negative then "-" else "") ++ s) = true.
Proof.
  intros Hne Hs. destruct negative; simpl.
  - exact Hs.
  - destruct s as [|c s]; [contradiction|].
    simpl in *. apply andb_prop in Hs. destruct Hs as [Hc Hs].
    destruct (Ascii.eqb_spec c "-"%char) as [->|_]; [discriminate|].
    rewrite Hc. exact Hs.
Qed.

Lemma digit_is_scientific_char (c : ascii) :
  JS.is_digit c = true -> scientific_char c = true.
Proof. intros H. unfold scientific_char. rewrite H. reflexivity. Qed.

(** The exponent form starts with a digit and holds digits, a point, [e]
    and [+] only. *)
Lemma exponent_form_shape (v : Z) : unsigned_scientific (JS.exponent_form v) = true.
Proof.
  unfold JS.exponent_form.
  destruct (JS.shortest_digits _ 1 _ v) as [s n].
  pose proof (String_of_N_nonempty (Z.to_N s)) as Hne.
  pose proof (String_of_N_digits (Z.to_N s)) as Hd.
  assert (He : all_chars scientific_char (JS.String_of_N (Z.to_N (n - 1))) = true).
  { apply (all_chars_weaken JS.is_digit); [apply digit_is_scientific_char|].
    apply String_of_N_digits. }
  destruct (JS.String_of_N (Z.to_N s)) as [|c rest]; [contradiction|].
  simpl in Hd. apply andb_prop in Hd. destruct Hd as [Hc Hrest].
  destruct rest as [|c' rest'].
  - simpl. rewrite Hc. exact He.
  - cbn [unsigned_scientific]. rewrite Hc.
    change (String c' rest') with (String c' rest') in *.
    rewrite !all_chars_append, He.
    rewrite (all_chars_weaken JS.is_digit scientific_char _
               digit_is_scientific_char Hrest).
    reflexivity.
Qed.

Lemma scientific_signed (negative : bool) (s : string) :
  unsigned_scientific s = true ->
  scientific ((if negative then "-" else "") ++ s) = true.
Proof.
  intros H. destruct negative; simpl; [exact H|].
  destruct s as [|c rest]; [discriminate|].
  simpl in *. apply andb_prop in H. destruct H as [Hc Hrest].
  destruct (Ascii.eqb_spec c "-"%char) as [->|_]; [discriminate|].
  rewrite Hc. exact Hrest.
Qed.

(** What [toFixed] returns on a finite Number: below 10^21 a decimal
    numeral; from there on a numeral in exponent form (or Infinity, for a
    value past the largest double). *)
Lemma toFixed_finite (q : Q) (f : nat) :
  exists s : string,
    JS.toFixed (JS.Finite q) f = Some s
    /\ (numeral s = true \/ scientific s = true
        \/ s = "Infinity"%string \/ s = "-Infinity"%string).
Proof.
  unfold JS.toFixed.
  destruct (10 ^ 21 * Z.pos (Qden q) <=? Z.abs (Qnum q)).
  - eexists. split; [reflexivity|].
    destruct (2 ^ 1024 <=? JS.double_of_integer (Z.abs (Qnum q) / Z.pos (Qden q))).
    + destruct (Qnum q <? 0); auto.
    + right. left. apply scientific_signed, exponent_form_shape.
  - eexists. split; [reflexivity|]. left.
    destruct (fixed_digits_numeral
                (Z.to_N ((2 * Z.abs (Qnum q) * 10 ^ Z.of_nat f + Z.pos (Qden q))
                         / (2 * Z.pos (Qden q)))) f) as [H1 H2].
    apply numeral_signed; assumption.
Qed.

Lemma toFixed_finite_not (q : Q) (f : nat) :
  JS.toFixed (JS.Finite q) f <> Some "--"%string
  /\ JS.toFixed (JS.Finite q) f <> Some "NaN"%string.
Proof.
  destruct (toFixed_finite q f) as [s [E H]]. rewrite E.
  split; intros E'; injection E' as ->;
    destruct H as [H|[H|[H|H]]]; discriminate.
Qed.

(** X15.  A cell of a row is two dashes exactly for [null], [undefined] and
    NaN, and is never the text NaN; a number field of a card is two dashes
    exactly for [null] and [undefined], and is the text NaN exactly for
    NaN.  Either formatter always returns a text, and whatever else the
    row formatter returns is Infinity with its sign, a decimal numeral or,
    from 10^21 on, a numeral in exponent form: 10^21 itself is printed as
    1e+21, whatever the decimals asked for, 2^70 as 1.1805916207174113e+21,
    -1.5 times 10^21 as -1.5e+21 and 10^22 as 1e+22. *)
Theorem formatNum_dashes_exactly_when_missing :
  forall (v : JS.value) (decimals : nat),
    (createExperimentRow_formatNum v decimals = Some "--"%string
     <-> v = JS.Null \/ v = JS.Undefined \/ v = JS.Num JS.NaN)
    /\ ~ createExperimentRow_formatNum v decimals = Some "NaN"%string
    /\ (createRecommendationCard_formatNum v decimals = Some "--"%string
        <-> v = JS.Null \/ v = JS.Undefined)
    /\ (createRecommendationCard_formatNum v decimals = Some "NaN"%string
        <-> v = JS.Num JS.NaN)
    /\ (exists s : string,
           createExperimentRow_formatNum v decimals = Some s
           /\ (s = "--"%string \/ s = "Infinity"%string \/ s = "-Infinity"%string
               \/ numeral s = true \/ scientific s = true))
    /\ (exists s : string, createRecommendationCard_formatNum v decimals = Some s)
    /\ createExperimentRow_formatNum (JS.Num (JS.Finite (10 ^ 21 # 1))) decimals
       = Some "1e+21"%string
    /\ createRecommendationCard_formatNum (JS.Num (JS.Finite (10 ^ 21 # 1))) decimals
       = Some "1e+21"%string
    /\ map (fun q => createExperimentRow_formatNum (JS.Num (JS.Finite q)) decimals)
           [2 ^ 70 # 1; (- (15 * 10 ^ 20)) # 1; 10 ^ 22 # 1]
       = [Some "1.1805916207174113e+21"; Some "-1.5e+21"; Some "1e+22"]%string.
Proof.
  intros v decimals.
  assert (Big : createExperimentRow_formatNum (JS.Num (JS.Finite (10 ^ 21 # 1))) decimals
                = Some "1e+21"%string
                /\ createRecommendationCard_formatNum
                     (JS.Num (JS.Finite (10 ^ 21 # 1))) decimals
                   = Some "1e+21"%string
                     /\ map (fun q => createExperimentRow_formatNum
                                        (JS.Num (JS.Finite q)) decimals)
                            [2 ^ 70 # 1; (- (15 * 10 ^ 20)) # 1; 10 ^ 22 # 1]
                        = [Some "1.1805916207174113e+21"; Some "-1.5e+21";
                           Some "1e+22"]%string)
    by (split; [|split]; vm_compute; reflexivity).
  destruct Big as [Big1 [Big2 Big3]].
  enough (Main :
    (createExperimentRow_formatNum v decimals = Some "--"%string
     <-> v = JS.Null \/ v = JS.Undefined \/ v = JS.Num JS.NaN)
    /\ ~ createExperimentRow_formatNum v decimals = Some "NaN"%string
    /\ (createRecommendationCard_formatNum v decimals = Some "--"%string
        <-> v = JS.Null \/ v = JS.Undefined)
    /\ (createRecommendationCard_formatNum v decimals = Some "NaN"%string
        <-> v = JS.Num JS.NaN)
    /\ (exists s : string,
           createExperimentRow_formatNum v decimals = Some s
           /\ (s = "--"%string \/ s = "Infinity"%string \/ s = "-Infinity"%string
               \/ numeral s = true \/ scientific s = true))
    /\ (exists s : string, createRecommendationCard_formatNum v decimals = Some s)).
  { destruct Main as (M1 & M2 & M3 & M4 & M5 & M6).
    repeat (split; [assumption|]). assumption. }
  clear Big1 Big2 Big3.
  destruct v as [| |[|negative|q]].
  1-3: simpl; repeat split; try discriminate; eauto 6;
    intros [H|H]; discriminate.
  - destruct negative; simpl; repeat split; try discriminate;
      eauto 6;
      first [ intros [H|[H|H]]; discriminate | intros [H|H]; discriminate ].
  - unfold createExperimentRow_formatNum, createRecommendationCard_formatNum in *.
    change (JS.isNaN (JS.Num (JS.Finite q))) with false.
    change (JS.ToNumber (JS.Num (JS.Finite q))) with (JS.Finite q).
    destruct (toFixed_finite_not q decimals) as [D1 D2].
    destruct (toFixed_finite q decimals) as [s [E H]].
    split; [split; [intros E'; contradiction
                   | intros [E'|[E'|E']]; discriminate]|].
    split; [exact D2|].
    split; [split; [intros E'; contradiction | intros [E'|E']; discriminate]|].
    split; [split; [intros E'; contradiction | intros E'; discriminate]|].
    split.
    { exists s. split; [exact E|]. destruct H as [H|[H|[H|H]]]; auto. }
    exists s; exact E.
Qed.

Lemma fixed_digits_shape (n : N) (f : nat) :
  exists whole fraction : string,
    JS.fixed_digits n (S f) = (whole ++ "." ++ fraction)%string
    /\ all_chars JS.is_digit whole = true
    /\ (1 <= String.length whole)%nat
    /\ all_chars JS.is_digit fraction = true
    /\ String.length fraction = S f.
Proof.
  unfold JS.fixed_digits.
  set (m := JS.String_of_N n).
  set (m' := if (String.length m <=? S f)%nat
             then (JS.zeros (S f + 1 - String.length m) ++ m)%string else m).
  assert (Hlen : (S f + 1 <= String.length m')%nat).
  { unfold m'. destruct (Nat.leb_spec (String.length m) (S f)).
    - rewrite length_append, length_zeros. lia.
    - lia. }
  assert (Hm : all_chars JS.is_digit m' = true).
  { unfold m'. destruct (String.length m <=? S f)%nat.
    - rewrite all_chars_append, all_chars_zeros. apply String_of_N_digits.
    - apply String_of_N_digits. }
  exists (substring 0 (String.length m' - S f) m'),
         (substring (String.length m' - S f) (S f) m').
  split; [reflexivity|].
  split; [apply all_chars_substring, Hm|].
  split; [rewrite length_substring; lia|].
  split; [apply all_chars_substring, Hm|].
  apply length_substring. lia.
Qed.

(** X16.  On a finite number below 10^21 in magnitude both formatters
    return a decimal numeral with exactly the decimals asked for: a minus
    sign if the number is negative, at least one digit, and, when decimals
    are asked for, a point and exactly that many digits; with none asked
    for there is no point. *)
Theorem formatNum_prints_the_decimals_asked_for :
  forall (q : Q),
    Z.abs (Qnum q) < 10 ^ 21 * Z.pos (Qden q) ->
    let sign := if Qnum q <? 0 then "-"%string else ""%string in
    (exists whole : string,
        createExperimentRow_formatNum (JS.Num (JS.Finite q)) 0
        = Some (sign ++ whole)%string
        /\ createRecommendationCard_formatNum (JS.Num (JS.Finite q)) 0
           = Some (sign ++ whole)%string
        /\ all_chars JS.is_digit whole = true
        /\ (1 <= String.length whole)%nat)
    /\ (forall decimals : nat,
           exists whole fraction : string,
             createExperimentRow_formatNum (JS.Num (JS.Finite q)) (S decimals)
             = Some (sign ++ whole ++ "." ++ fraction)%string
             /\ createRecommendationCard_formatNum (JS.Num (JS.Finite q)) (S decimals)
                = Some (sign ++ whole ++ "." ++ fraction)%string
             /\ all_chars JS.is_digit whole = true
             /\ (1 <= String.length whole)%nat
             /\ all_chars JS.is_digit fraction = true
             /\ String.length fraction = S decimals).
Proof.
  intros q Hq sign.
  unfold createExperimentRow_formatNum, createRecommendationCard_formatNum.
  change (JS.isNaN (JS.Num (JS.Finite q))) with false.
  change (JS.ToNumber (JS.Num (JS.Finite q))) with (JS.Finite q).
  unfold JS.toFixed.
  destruct (Z.leb_spec (10 ^ 21 * Z.pos (Qden q)) (Z.abs (Qnum q))) as [H|_]; [lia|].
  fold sign. split.
  - eexists. split; [reflexivity|]. split; [reflexivity|].
    unfold JS.fixed_digits. split; [apply String_of_N_digits|].
    pose proof (String_of_N_nonempty
                  (Z.to_N ((2 * Z.abs (Qnum q) * 10 ^ Z.of_nat 0 + Z.pos (Qden q))
                           / (2 * Z.pos (Qden q))))) as Hne.
    destruct (JS.String_of_N _); [contradiction | simpl; lia].
  - intros decimals.
    destruct (fixed_digits_shape
                (Z.to_N ((2 * Z.abs (Qnum q) * 10 ^ Z.of_nat (S decimals)
                          + Z.pos (Qden q)) / (2 * Z.pos (Qden q)))) decimals)
      as [whole [fraction [E [H1 [H2 [H3 H4]]]]]].
    exists whole, fraction. rewrite E. repeat split; assumption.
Qed.

(** 3.14159 with two decimals, and -0.5 with one. *)
Lemma formatNum_prints_the_decimals_asked_for_sample :
  (exists whole fraction : string,
      createExperimentRow_formatNum
        (JS.Num (JS.Finite (3537115888337719 # 1125899906842624))) 2
      = Some (whole ++ "." ++ fraction)%string
      /\ String.length fraction = 2%nat)
  /\ (exists whole fraction : string,
         createExperimentRow_formatNum (JS.Num (JS.Finite (-1 # 2))) 1
         = Some ("-" ++ whole ++ "." ++ fraction)%string
         /\ String.length fraction = 1%nat).
Proof.
  split.
  - destruct (proj2 (formatNum_prints_the_decimals_asked_for
                       (3537115888337719 # 1125899906842624) eq_refl) 1%nat)
      as [whole [fraction [E [_ [_ [_ [_ L]]]]]]].
    exists whole, fraction. split; [exact E | exact L].
  - destruct (proj2 (formatNum_prints_the_decimals_asked_for (-1 # 2) eq_refl) 0%nat)
      as [whole [fraction [E [_ [_ [_ [_ L]]]]]]].
    exists whole, fraction. split; [exact E | exact L].
Defined.

(** ** The number of an experiment id *)

Lemma strip_non_digits_append (a b : string) :
  JS.strip_non_digits (a ++ b)
  = (JS.strip_non_digits a ++ JS.strip_non_digits b)%string.
Proof.
  induction a as [|c a IH]; simpl; [reflexivity|].
  destruct (JS.is_digit c); simpl; rewrite IH; reflexivity.
Qed.

Lemma strip_non_digits_none (x : string) :
  all_chars non_digit x = true -> JS.strip_non_digits x = ""%string.
Proof.
  induction x as [|c x IH]; simpl; [reflexivity|].
  intros H. apply andb_prop in H. destruct H as [Hc Hx].
  unfold non_digit in Hc. destruct (JS.is_digit c); [discriminate|]. apply IH, Hx.
Qed.

Lemma strip_non_digits_digits (s : string) :
  all_chars JS.is_digit (JS.strip_non_digits s) = true.
Proof.
  induction s as [|c s IH]; simpl; [reflexivity|].
  destruct (JS.is_digit c) eqn:E; simpl; [rewrite E|]; exact IH.
Qed.

Lemma digits_value_append (acc : Z) (a b : string) :
  JS.digits_value acc (a ++ b) = JS.digits_value (JS.digits_value acc a) b.
Proof.
  revert acc. induction a as [|c a IH]; intros acc; simpl; [reflexivity|]. apply IH.
Qed.

Lemma digits_value_acc (acc : Z) (s : string) :
  JS.digits_value acc s
  = acc * 10 ^ Z.of_nat (String.length s) + JS.digits_value 0 s.
Proof.
  revert acc. induction s as [|c s IH]; intros acc.
  - simpl. lia.
  - cbn [JS.digits_value String.length].
    rewrite (IH (10 * acc + (Z.of_nat (nat_of_ascii c) - 48))),
      (IH (10 * 0 + (Z.of_nat (nat_of_ascii c) - 48))).
    rewrite Nat2Z.inj_succ, Z.pow_succ_r by lia. ring.
Qed.

Lemma digits_value_zeros (k : nat) (s : string) :
  JS.digits_value 0 (JS.zeros k ++ s) = JS.digits_value 0 s.
Proof. induction k as [|k IH]; simpl; [reflexivity | exact IH]. Qed.

Lemma exp_num_of_digits (e : Experiment) :
  exp_num e = JS.double_of_integer (JS.digits_value 0 (JS.strip_non_digits (exp_id e))).
Proof.
  unfold exp_num, JS.parseInt.
  destruct (JS.strip_non_digits (exp_id e)); reflexivity.
Qed.

(** X17.  The number of an experiment is read off the digits of its id
    alone, all of them as one numeral: characters that are no digits change
    nothing wherever they stand, leading zeros change nothing, and the
    digits on either side of a separator are joined (the digits before it
    count 10 to the number of digits after it).  Ids that differ in such
    ways only compare as equal and keep their loaded order in the table. *)
Theorem exp_num_reads_the_digits_only :
  (forall (e1 e2 : Experiment) (before x after : string),
      all_chars non_digit x = true ->
      exp_id e1 = (before ++ x ++ after)%string ->
      exp_id e2 = (before ++ after)%string ->
      exp_num e1 = exp_num e2 /\ byExpId e1 e2 = 0)
  /\ (forall (e1 e2 : Experiment) (k : nat),
         JS.strip_non_digits (exp_id e1)
         = (JS.zeros k ++ JS.strip_non_digits (exp_id e2))%string ->
         exp_num e1 = exp_num e2 /\ byExpId e1 e2 = 0)
  /\ (forall (e : Experiment) (before after : string),
         exp_id e = (before ++ after)%string ->
         exp_num e
         = JS.double_of_integer
             (JS.digits_value 0 (JS.strip_non_digits before)
              * 10 ^ Z.of_nat (String.length (JS.strip_non_digits after))
              + JS.digits_value 0 (JS.strip_non_digits after))).
Proof.
  split; [|split].
  - intros e1 e2 before x after Hx H1 H2.
    assert (E : exp_num e1 = exp_num e2).
    { rewrite !exp_num_of_digits, H1, H2, !strip_non_digits_append,
        (strip_non_digits_none _ Hx). reflexivity. }
    split; [exact E|]. unfold byExpId. rewrite E. lia.
  - intros e1 e2 k H.
    assert (E : exp_num e1 = exp_num e2).
    { rewrite !exp_num_of_digits, H, digits_value_zeros. reflexivity. }
    split; [exact E|]. unfold byExpId. rewrite E. lia.
  - intros e before after H.
    rewrite exp_num_of_digits, H, strip_non_digits_append, digits_value_append,
      digits_value_acc. reflexivity.
Qed.

(** EXP-007 and x7; B2-E7, which reads as 27. *)
Lemma exp_num_reads_the_digits_only_sample :
  exp_num (sample_experiment "EXP-007" "manual") = exp_num (sample_experiment "x7" "manual")
  /\ exp_num (sample_experiment "B2-E7" "manual") = 27.
Proof.
  split.
  - apply (proj1 (proj2 exp_num_reads_the_digits_only) _ _ 2%nat). reflexivity.
  - rewrite (proj2 (proj2 exp_num_reads_the_digits_only)
               (sample_experiment "B2-E7" "manual") "B2-" "E7" eq_refl).
    reflexivity.
Defined.

(** ** The notebook snippet *)

Lemma append_assoc (a b c : string) : ((a ++ b) ++ c = a ++ b ++ c)%string.
Proof. induction a as [|x a IH]; simpl; [reflexivity | rewrite IH; reflexivity]. Qed.

Lemma append_cancel_l (a x y : string) : (a ++ x = a ++ y)%string -> x = y.
Proof.
  induction a as [|c a IH]; simpl; intros H; [exact H|].
  injection H as H. apply IH, H.
Qed.

Lemma append_comma_cancel (x y : string) : (x ++ "," = y ++ ",")%string -> x = y.
Proof.
  revert y. induction x as [|c x IH]; intros [|d y] H; simpl in H.
  - reflexivity.
  - injection H as _ H. destruct y; discriminate.
  - injection H as _ H. destruct x; discriminate.
  - injection H as -> H. f_equal. apply IH, H.
Qed.

(** Two texts that agree, each a line followed by a line feed and a rest,
    agree on the line and on the rest. *)
Lemma first_line_unique (a b x y : string) :
  one_line a = true -> one_line b = true ->
  (a ++ LF ++ x = b ++ LF ++ y)%string -> a = b /\ x = y.
Proof.
  revert b. induction a as [|c a IH]; intros [|d b] Ha Hb H; simpl in *.
  - injection H as H. split; [reflexivity | exact H].
  - injection H as <- _. discriminate.
  - injection H as -> _. discriminate.
  - injection H as -> H.
    apply andb_prop in Ha. destruct Ha as [_ Ha].
    apply andb_prop in Hb. destruct Hb as [_ Hb].
    destruct (IH b Ha Hb H) as [-> ->]. split; reflexivity.
Qed.

Lemma one_line_append (a b : string) :
  one_line (a ++ b) = one_line a && one_line b.
Proof. apply all_chars_append. Qed.

(** One argument line of the template: cut off, it gives back its value. *)
Lemma argument_line_unique (name v v' rest rest' : string) :
  one_line name = true -> one_line v = true -> one_line v' = true ->
  (name ++ v ++ "," ++ LF ++ rest = name ++ v' ++ "," ++ LF ++ rest')%string ->
  v = v' /\ rest = rest'.
Proof.
  intros Hn Hv Hv' H. apply append_cancel_l in H.
  rewrite <- !(append_assoc v), <- !(append_assoc v') in H.
  change ((v ++ ",") ++ LF ++ rest = (v' ++ ",") ++ LF ++ rest')%string in H.
  apply first_line_unique in H.
  - destruct H as [H1 H2]. split; [apply append_comma_cancel, H1 | exact H2].
  - rewrite one_line_append, Hv. reflexivity.
  - rewrite one_line_append, Hv'. reflexivity.
Qed.

(** X18.  The snippet carries the five values without loss as long as none
    of them holds a line feed: two settings of the form with the same
    snippet are the same setting.  With a line feed in a value this fails:
    the values [1,(LF)    Time=2] and [3] give the snippet of the values [1]
    and [2,(LF)    Time=3]. *)
Theorem notebook_template_injective :
  (forall temp time voacac ddt oam temp' time' voacac' ddt' oam' : string,
      one_line temp = true -> one_line time = true -> one_line voacac = true ->
      one_line ddt = true -> one_line oam = true ->
      one_line temp' = true -> one_line time' = true -> one_line voacac' = true ->
      one_line ddt' = true -> one_line oam' = true ->
      notebook_template temp time voacac ddt oam
      = notebook_template temp' time' voacac' ddt' oam' ->
      temp = temp' /\ time = time' /\ voacac = voacac' /\ ddt = ddt' /\ oam = oam')
  /\ notebook_template ("1," ++ LF ++ "    Time=2") "3" "0.5" "2" "8"
     = notebook_template "1" ("2," ++ LF ++ "    Time=3") "0.5" "2" "8".
Proof.
  split; [|reflexivity].
  intros temp time voacac ddt oam temp' time' voacac' ddt' oam'
         H1 H2 H3 H4 H5 H1' H2' H3' H4' H5' H.
  unfold notebook_template in H.
  do 7 apply append_cancel_l in H.
  apply argument_line_unique in H; [|reflexivity|assumption|assumption].
  destruct H as [-> H].
  apply argument_line_unique in H; [|reflexivity|assumption|assumption].
  destruct H as [-> H].
  apply argument_line_unique in H; [|reflexivity|assumption|assumption].
  destruct H as [-> H].
  apply argument_line_unique in H; [|reflexivity|assumption|assumption].
  destruct H as [-> H].
  apply append_cancel_l in H.
  apply first_line_unique in H; [|assumption|assumption].
  destruct H as [-> _]. repeat split.
Qed.

(** The snippet of 280, 30, 0.5, 2, 8 is that of no other setting of
    one-line values; here, of the same one. *)
Lemma notebook_template_injective_sample :
  "280"%string = "280"%string /\ "30"%string = "30"%string
  /\ "0.5"%string = "0.5"%string /\ "2"%string = "2"%string
  /\ "8"%string = "8"%string.
Proof.
  apply (proj1 notebook_template_injective
           "280" "30" "0.5" "2" "8" "280" "30" "0.5" "2" "8")%string;
    reflexivity.
Defined.

(** ** Copying the snippet *)

Lemma updateNotebookCode_form (temp time voacac ddt oam old : string) (p : Page) :
  predict_form p = Some (form_of temp time voacac ddt oam) ->
  notebook_code p = Some old ->
  updateNotebookCode p
  = Return (set_notebook_code (notebook_template temp time voacac ddt oam) p).
Proof.
  intros Hf Hc. unfold updateNotebookCode. rewrite Hf, Hc. reflexivity.
Qed.

(** X19.  Submitting the form puts on the clipboard the snippet of the
    values the form holds at that moment, once the write is granted; the
    code block shows the same snippet.  If the form is edited before the
    write settles, the code block shows the snippet of the edited values
    while the clipboard still receives the one of the submit. *)
Theorem submit_copies_the_snippet_of_the_moment :
  forall (p : Page) (temp time voacac ddt oam old : string),
    predict_form p = Some (form_of temp time voacac ddt oam) ->
    notebook_code p = Some old ->
    pending_writes p = [] ->
    exists submitted : Page,
      handlePredictForm p = Return submitted
      /\ notebook_code submitted = Some (notebook_template temp time voacac ddt oam)
      /\ clipboard (copyNotebookCode_resumed true submitted)
         = notebook_template temp time voacac ddt oam
      /\ forall temp' time' voacac' ddt' oam' : string,
           exists edited : Page,
             predictForm_input (form_of temp' time' voacac' ddt' oam') submitted
             = Return edited
             /\ notebook_code edited
                = Some (notebook_template temp' time' voacac' ddt' oam')
             /\ clipboard (copyNotebookCode_resumed true edited)
                = notebook_template temp time voacac ddt oam.
Proof.
  intros p temp time voacac ddt oam old Hf Hc Hw.
  unfold handlePredictForm.
  rewrite (updateNotebookCode_form p Hf Hc).
  eexists. split; [reflexivity|].
  unfold copyNotebookCode, copyNotebookCode_resumed. simpl. rewrite Hw. simpl.
  split; [reflexivity|]. split.
  - destruct (copy_code_btn p); reflexivity.
  - intros temp' time' voacac' ddt' oam'.
    eexists. split; [reflexivity|]. simpl. split; [reflexivity|].
    destruct (copy_code_btn p); reflexivity.
Qed.

(** The sample page, submitted, then edited to 300 degrees. *)
Lemma submit_copies_the_snippet_of_the_moment_sample :
  exists submitted : Page,
    handlePredictForm sample_page = Return submitted
    /\ clipboard (copyNotebookCode_resumed true submitted)
       = notebook_template "280" "30" "0.5" "2" "8".
Proof.
  destruct (@submit_copies_the_snippet_of_the_moment
              sample_page "280" "30" "0.5" "2" "8" "" eq_refl eq_refl eq_refl)
    as [submitted [H1 [_ [H3 _]]]].
  exists submitted. split; [exact H1 | exact H3].
Defined.

(** X20.  One copy, granted, with nothing else pending: the clipboard holds
    the text of the code block, the button shows the confirmation on the
    completed colour, and when the timer fires the button has its former
    markup again, with an empty background; no alert is raised and nothing
    stays pending. *)
Theorem copy_button_round_trip :
  forall (p : Page) (text : string) (copyBtn : CopyButton),
    notebook_code p = Some text ->
    copy_code_btn p = Some copyBtn ->
    pending_writes p = [] ->
    timers p = [] ->
    let copied := copyNotebookCode_resumed true (copyNotebookCode p) in
    let restored := timeout_fired copied in
    clipboard copied = text
    /\ copy_code_btn copied
       = Some {| btn_innerHTML := copied_markup;
                 btn_background := "var(--status-completed)" |}
    /\ copy_code_btn restored
       = Some {| btn_innerHTML := btn_innerHTML copyBtn; btn_background := "" |}
    /\ clipboard restored = text
    /\ notebook_code restored = Some text
    /\ alerts restored = alerts p
    /\ pending_writes restored = []
    /\ timers restored = [].
Proof.
  intros p text copyBtn Hc Hb Hw Ht copied restored. subst copied restored.
  unfold copyNotebookCode. rewrite Hc.
  unfold copyNotebookCode_resumed. simpl. rewrite Hw. simpl. rewrite Hb.
  unfold timeout_fired. simpl. rewrite Ht. simpl. repeat split. exact Hc.
Qed.

Lemma copy_button_round_trip_sample :
  copy_code_btn
    (timeout_fired (copyNotebookCode_resumed true (copyNotebookCode sample_page)))
  = Some {| btn_innerHTML := "Copy Code"; btn_background := "" |}.
Proof.
  destruct (copy_button_round_trip sample_page eq_refl eq_refl eq_refl eq_refl)
    as (_ & _ & H & _).
  exact H.
Defined.

Lemma repeatedly_timeout_fired (p : Page) (copyBtn : CopyButton) (last : string)
      (pending : list string) :
  copy_code_btn p = Some copyBtn ->
  timers p = (pending ++ [last])%list ->
  let q := repeatedly (List.length (pending ++ [last])%list) timeout_fired p in
  copy_code_btn q = Some {| btn_innerHTML := last; btn_background := "" |}
  /\ timers q = []
  /\ clipboard q = clipboard p
  /\ alerts q = alerts p.
Proof.
  revert p copyBtn. induction pending as [|t pending IH]; intros p copyBtn Hb Ht.
  - simpl in *. unfold timeout_fired. rewrite Ht. simpl. repeat split.
  - cbn [List.length app repeatedly]. cbn [app] in Ht.
    pose (p1 := timeout_fired p).
    assert (Hb1 : copy_code_btn p1
                  = Some {| btn_innerHTML := t; btn_background := "" |})
      by (unfold p1, timeout_fired; rewrite Ht; reflexivity).
    assert (Ht1 : timers p1 = (pending ++ [last])%list)
      by (unfold p1, timeout_fired; rewrite Ht; reflexivity).
    destruct (IH p1 _ Hb1 Ht1) as [I1 [I2 [I3 I4]]].
    fold p1. split; [exact I1|]. split; [exact I2|].
    split; [rewrite I3 | rewrite I4]; unfold p1, timeout_fired; rewrite Ht; reflexivity.
Qed.

(** X21.  A copy that is granted while the confirmation of an earlier copy
    is still showing (its timer has not fired) captures the confirmation as
    the markup to restore: when all the timers have fired, the button still
    shows the confirmation, not its own label, and nothing is left to put
    the label back. *)
Theorem second_copy_leaves_the_confirmation :
  forall (p : Page) (copyBtn : CopyButton) (text : string) (writes : list string),
    copy_code_btn p = Some copyBtn ->
    btn_innerHTML copyBtn = copied_markup ->
    pending_writes p = text :: writes ->
    let granted := copyNotebookCode_resumed true p in
    let settled := repeatedly (List.length (timers granted)) timeout_fired granted in
    copy_code_btn settled
    = Some {| btn_innerHTML := copied_markup; btn_background := "" |}
    /\ timers settled = []
    /\ clipboard settled = text.
Proof.
  intros p copyBtn text writes Hb Hm Hw granted settled.
  assert (Hg : copy_code_btn granted
               = Some {| btn_innerHTML := copied_markup;
                         btn_background := "var(--status-completed)" |}).
  { unfold granted, copyNotebookCode_resumed. rewrite Hw. simpl. rewrite Hb. reflexivity. }
  assert (Ht : timers granted = (timers p ++ [copied_markup])%list).
  { unfold granted, copyNotebookCode_resumed. rewrite Hw. simpl. rewrite Hb, Hm.
    reflexivity. }
  assert (Hc : clipboard granted = text).
  { unfold granted, copyNotebookCode_resumed. rewrite Hw. simpl. rewrite Hb. reflexivity. }
  subst settled. rewrite Ht.
  destruct (@repeatedly_timeout_fired granted _ copied_markup (timers p) Hg Ht)
    as [H1 [H2 [H3 _]]].
  split; [exact H1|]. split; [exact H2|]. rewrite H3. exact Hc.
Qed.

(** Two clicks on the button of the sample page, both granted before the
    first timer fires. *)
Lemma second_copy_leaves_the_confirmation_sample :
  copy_code_btn
    (timeout_fired (timeout_fired
       (copyNotebookCode_resumed true
          (copyNotebookCode_resumed true
             (copyNotebookCode (copyNotebookCode sample_page))))))
  = Some {| btn_innerHTML := copied_markup; btn_background := "" |}.
Proof.
  exact (proj1 (second_copy_leaves_the_confirmation
                  (copyNotebookCode_resumed true
                     (copyNotebookCode (copyNotebookCode sample_page)))
                  eq_refl eq_refl eq_refl)).
Defined.

(** X22.  When the copy handler raises its alert.  A write that is denied
    raises it and changes nothing else: clipboard, button, code block and
    timers are as before.  A write that is granted on a page without the
    copy button raises it as well, although the text is on the clipboard
    by then.  A page without the code block raises it at once, and no write
    is started. *)
Theorem copy_failures :
  forall (p : Page),
    (forall (text : string) (writes : list string),
        pending_writes p = text :: writes ->
        let denied := copyNotebookCode_resumed false p in
        alerts denied = copy_failed :: alerts p
        /\ clipboard denied = clipboard p
        /\ copy_code_btn denied = copy_code_btn p
        /\ notebook_code denied = notebook_code p
        /\ timers denied = timers p
        /\ pending_writes denied = writes)
    /\ (forall (text : string) (writes : list string),
           pending_writes p = text :: writes ->
           copy_code_btn p = None ->
           let granted := copyNotebookCode_resumed true p in
           alerts granted = copy_failed :: alerts p
           /\ clipboard granted = text
           /\ timers granted = timers p)
    /\ (notebook_code p = None ->
        alerts (copyNotebookCode p) = copy_failed :: alerts p
        /\ pending_writes (copyNotebookCode p) = pending_writes p
        /\ clipboard (copyNotebookCode p) = clipboard p).
Proof.
  intros p. split; [|split].
  - intros text writes Hw denied. subst denied.
    unfold copyNotebookCode_resumed. rewrite Hw. repeat split.
  - intros text writes Hw Hb granted. subst granted.
    unfold copyNotebookCode_resumed. rewrite Hw. simpl. rewrite Hb. repeat split.
  - intros Hc. unfold copyNotebookCode. rewrite Hc. repeat split.
Qed.

(** The sample page without its button: the copy is made, and reported as
    failed. *)
Lemma copy_failures_sample :
  let p := copyNotebookCode
             {| predict_form := None; notebook_code := Some "optimizer";
                copy_code_btn := None; clipboard := ""; pending_writes := [];
                timers := []; alerts := [] |} in
  alerts (copyNotebookCode_resumed true p) = [copy_failed]
  /\ clipboard (copyNotebookCode_resumed true p) = "optimizer"%string.
Proof.
  destruct (proj1 (proj2 (copy_failures
              (copyNotebookCode
                 {| predict_form := None; notebook_code := Some "optimizer";
                    copy_code_btn := None; clipboard := ""; pending_writes := [];
                    timers := []; alerts := [] |})))
              "optimizer"%string [] eq_refl eq_refl) as [H1 [H2 _]].
  split; [exact H1 | exact H2].
Defined.

(** ** The navigation links *)

Lemma count_cleared (links : list bool) :
  count (fun b : bool => b) (map (fun _ => false) links) = 0%nat.
Proof. induction links as [|b links IH]; [reflexivity | exact IH]. Qed.

Lemma count_app {A} (p : A -> bool) (l1 l2 : list A) :
  count p (l1 ++ l2) = (count p l1 + count p l2)%nat.
Proof. unfold count. rewrite filter_app, length_app. reflexivity. Qed.

(** X23.  After a click on a navigation link exactly one link of the group
    is active, the one clicked, whatever was active before (none, or
    several); the group keeps its size.  When the element clicked is not a
    link of the group, no link is active afterwards. *)
Theorem navLink_click_one_active :
  forall (links : list bool) (target : nat),
    List.length (navLink_click target links) = List.length links
    /\ (target < List.length links ->
        count (fun b : bool => b) (navLink_click target links) = 1
        /\ nth target (navLink_click target links) false = true
        /\ forall i, i <> target -> nth i (navLink_click target links) false = false)%nat
    /\ (List.length links <= target ->
        count (fun b : bool => b) (navLink_click target links) = 0)%nat.
Proof.
  intros links target. unfold navLink_click.
  set (cleared := map (fun _ : bool => false) links).
  assert (Hlen : List.length cleared = List.length links) by apply length_map.
  assert (Hcl : forall i, nth i cleared false = false).
  { intros i. unfold cleared. clear. revert i.
    induction links as [|b links IH]; intros [|i]; simpl; auto. }
  assert (Hsplit : (firstn target cleared ++ skipn target cleared)%list = cleared)
    by apply firstn_skipn.
  assert (Hcount : count (fun b : bool => b) cleared = 0%nat) by apply count_cleared.
  rewrite <- Hsplit, count_app in Hcount.
  destruct (skipn target cleared) as [|b rest] eqn:Hskip.
  - assert (Hge : (List.length links <= target)%nat).
    { rewrite <- Hlen. destruct (Nat.le_gt_cases (List.length cleared) target) as [H|H];
        [exact H|].
      assert (L : List.length (skipn target cleared) = (List.length cleared - target)%nat)
        by apply length_skipn.
      rewrite Hskip in L. simpl in L. lia. }
    rewrite app_nil_r in *. rewrite Hsplit.
    split; [exact Hlen|]. split; [intros H; lia|].
    intros _. apply count_cleared.
  - assert (Hlt : (target < List.length links)%nat).
    { rewrite <- Hlen. destruct (Nat.le_gt_cases (List.length cleared) target) as [H|H];
        [|exact H].
      rewrite (skipn_all2 _ H) in Hskip. discriminate. }
    assert (Hf : List.length (firstn target cleared) = target)
      by (apply firstn_length_le; lia).
    pose proof (f_equal (@List.length bool) Hsplit) as L.
    rewrite length_app in L. simpl in L.
    split.
    + rewrite length_app. simpl. lia.
    + split; [|intros H; lia]. intros _.
      rewrite count_app, !count_cons in *. simpl in *.
      split; [lia|]. split.
      * rewrite app_nth2, Hf, Nat.sub_diag by lia. reflexivity.
      * intros i Hi. pose proof (Hcl i) as Hci. rewrite <- Hsplit in Hci.
        destruct (Nat.lt_ge_cases i target) as [Hit|Hit].
        -- rewrite app_nth1 in * by lia. exact Hci.
        -- rewrite app_nth2 in * by lia. rewrite Hf in *.
           destruct (i - target)%nat as [|j] eqn:Hj; [lia|]. exact Hci.
Qed.

(** Three links, the first two active, a click on the third. *)
Lemma navLink_click_one_active_sample :
  navLink_click 2 [true; true; false] = [false; false; true]
  /\ count (fun b : bool => b) (navLink_click 2 [true; true; false]) = 1%nat.
Proof.
  split; [reflexivity|].
  apply (proj1 (proj2 (navLink_click_one_active [true; true; false] 2))).
  simpl. lia.
Defined.

(** ** The feasibility of a card *)

Lemma card_formatNum_number_not_dashes (x : JS.number) (decimals : nat) :
  createRecommendationCard_formatNum (JS.Num x) decimals <> Some "--"%string.
Proof.
  unfold createRecommendationCard_formatNum.
  change (JS.ToNumber (JS.Num x)) with x.
  destruct x as [|negative|q].
  - discriminate.
  - destruct negative; discriminate.
  - apply toFixed_finite_not.
Qed.

Lemma card_formatNum_total (v : JS.value) (decimals : nat) :
  exists s : string, createRecommendationCard_formatNum v decimals = Some s.
Proof.
  unfold createRecommendationCard_formatNum.
  destruct v as [| |x]; try (eexists; reflexivity).
  change (JS.ToNumber (JS.Num x)) with x.
  destruct x as [|negative|q].
  - eexists; reflexivity.
  - destruct negative; eexists; reflexivity.
  - destruct (toFixed_finite q decimals) as [s [E _]]. exists s. exact E.
Qed.

(** X24.  The feasibility shown on a card is never two dashes: the value
    is multiplied by 100 before it reaches the formatter, so an absent
    [p_feasible] (or absent [predictions]) shows NaN and a [null] one shows
    0.0, as if the optimizer had predicted zero.  Some text is always
    shown, in exponent form once the product reaches 10^21: a feasibility
    of 10^19 shows 1e+21. *)
Theorem card_feasibility_never_dashes :
  forall r : Recommendation,
    ~ card_p_feasible (createRecommendationCard r) = Some "--"%string
    /\ (or_else (option_map p_feasible (predictions r)) JS.Undefined = JS.Undefined ->
        card_p_feasible (createRecommendationCard r) = Some "NaN"%string)
    /\ (option_map p_feasible (predictions r) = Some JS.Null ->
        card_p_feasible (createRecommendationCard r) = Some "0.0"%string)
    /\ (exists s : string, card_p_feasible (createRecommendationCard r) = Some s)
    /\ (option_map p_feasible (predictions r)
        = Some (JS.Num (JS.Finite (10 ^ 19 # 1))) ->
        card_p_feasible (createRecommendationCard r) = Some "1e+21"%string).
Proof.
  intros r. split; [|split; [|split; [|split]]]; cycle 3.
  - unfold createRecommendationCard. cbn [card_p_feasible].
    apply card_formatNum_total.
  - unfold createRecommendationCard. cbn [card_p_feasible].
    destruct (predictions r) as [preds|]; simpl; [|discriminate].
    intros H. injection H as ->. vm_compute. reflexivity.
  - unfold createRecommendationCard. cbn [card_p_feasible].
    apply card_formatNum_number_not_dashes.
  - unfold createRecommendationCard. cbn [card_p_feasible].
    destruct (predictions r) as [preds|]; simpl; [|reflexivity].
    intros ->. reflexivity.
  - unfold createRecommendationCard. cbn [card_p_feasible].
    destruct (predictions r) as [preds|]; simpl; [|discriminate].
    intros H. injection H as ->. reflexivity.
Qed.

(** A recommendation whose predictions hold [null] for the feasibility. *)
Lemma card_feasibility_never_dashes_sample :
  card_p_feasible
    (createRecommendationCard
       {| rec_id := "R1"; status := "pending"; conditions := None;
          predictions := Some {| size_mu := JS.Null; size_std := JS.Null;
                                 gsd_mu := JS.Null; gsd_std := JS.Null;
                                 sq_mu := JS.Null; sq_std := JS.Null;
                                 p_feasible := JS.Null |};
          target := None; timestamp := 1700000000000; skip_reason := None |})
  = Some "0.0"%string.
Proof.
  apply (proj2 (proj2 (card_feasibility_never_dashes _))). reflexivity.
Defined.

(** ** The order of a view is fixed by the data *)

Lemma filter_filter_comm {A} (p q : A -> bool) (l : list A) :
  filter p (filter q l) = filter q (filter p l).
Proof.
  induction l as [|a l IH]; simpl; [reflexivity|].
  destruct (p a) eqn:Pa, (q a) eqn:Qa; simpl; rewrite ?Pa, ?Qa, IH; reflexivity.
Qed.

Lemma StronglySorted_filter {A} (R : A -> A -> Prop) (p : A -> bool) (l : list A) :
  StronglySorted R l -> StronglySorted R (filter p l).
Proof.
  induction 1 as [|a l Hl IH Ha]; simpl; [constructor|].
  destruct (p a); [|exact IH].
  constructor; [exact IH|].
  apply Forall_forall. intros b Hb. apply filter_In in Hb.
  rewrite Forall_forall in Ha. apply Ha, Hb.
Qed.

(** Selecting from the sorted array is sorting the selection. *)
Lemma filter_sort {A} (comparefn : A -> A -> Z) (key : A -> Z)
      (p : A -> bool) (l : list A) :
  (forall a b, (comparefn a b <=? 0) = (key a <=? key b)) ->
  filter p (JS.sort comparefn l) = JS.sort comparefn (filter p l).
Proof.
  intros Hkey.
  apply (sort_is_the_stable_sort comparefn key); [exact Hkey | |].
  - apply StronglySorted_filter, sort_sorted, Hkey.
  - intros k. rewrite filter_filter_comm, (sort_stable comparefn key Hkey).
    apply filter_filter_comm.
Qed.

(** X25.  The order of the rows does not depend on how the engine sorts:
    any arrangement of the selected experiments that is in ascending order
    of their numbers and keeps experiments of one number in the order they
    have in the state is the arrangement the table shows; likewise any
    arrangement of the selected recommendations with the latest first that
    keeps recommendations of one timestamp in their order is the one the
    list shows. *)
Theorem view_order_is_unique :
  forall (w : World),
    (forall shown : list Experiment,
        StronglySorted by_number shown ->
        (forall n, filter (fun e => exp_num e =? n) shown
                   = filter (fun e => exp_num e =? n) (selected_experiments (st w))) ->
        rows_of (experiments_tbody (doc (updateExperimentsTable w)))
        = map createExperimentRow shown)
    /\ (forall shown : list Recommendation,
           StronglySorted latest_first shown ->
           (forall t, filter (fun r => timestamp r =? t) shown
                      = filter (fun r => timestamp r =? t)
                               (selected_recommendations (st w))) ->
           cards_of (recommendations_list (doc (updateRecommendations w)))
           = map createRecommendationCard shown).
Proof.
  intros w. split.
  - intros shown Hs Hst.
    rewrite updateExperimentsTable_doc. simpl. rewrite rows_of_experiments_markup.
    f_equal. symmetry.
    apply (sort_is_the_stable_sort byExpId exp_num);
      [apply byExpId_key | exact Hs | exact Hst].
  - intros shown Hs Hst.
    rewrite updateRecommendations_doc. simpl. rewrite cards_of_recommendations_markup.
    f_equal. symmetry.
    apply (sort_is_the_stable_sort byTimestamp (fun r => - timestamp r));
      [apply byTimestamp_key | |].
    + eapply StronglySorted_weaken; [|exact Hs].
      unfold latest_first. simpl. intros; lia.
    + intros k.
      assert (E : forall l', filter (fun r => - timestamp r =? k) l'
                             = filter (fun r => timestamp r =? - k) l').
      { intros l'. apply filter_ext. intros r.
        destruct (Z.eqb_spec (- timestamp r) k), (Z.eqb_spec (timestamp r) (- k));
          try reflexivity; lia. }
      rewrite !E. apply Hst.
Qed.

(** E1 and E2 loaded as E2, E1: the arrangement E1, E2 is the one shown. *)
Lemma view_order_is_unique_sample :
  rows_of (experiments_tbody (doc (updateExperimentsTable
     {| st := set_experiments [sample_experiment "E2" "manual";
                               sample_experiment "E1" "imported"] state;
        doc := blank_page |})))
  = map createExperimentRow [sample_experiment "E1" "imported";
                             sample_experiment "E2" "manual"].
Proof.
  apply (proj1 (view_order_is_unique
                  {| st := set_experiments [sample_experiment "E2" "manual";
                                            sample_experiment "E1" "imported"] state;
                     doc := blank_page |})).
  - repeat constructor; unfold by_number; vm_compute; discriminate.
  - intros n.
    change (selected_experiments _)
      with [sample_experiment "E2" "manual"; sample_experiment "E1" "imported"].
    cbn [filter].
    change (exp_num (sample_experiment "E1" "imported")) with 1.
    change (exp_num (sample_experiment "E2" "manual")) with 2.
    destruct (Z.eqb_spec 1 n), (Z.eqb_spec 2 n); try reflexivity; lia.
Defined.

(** X26.  A status tab lists the cards of the ['all'] list that carry its
    status, in the same order.  A source tab other than ['imported'] (and
    not empty) lists the rows of the ['all'] table that carry its tag, in
    the same order.  (The rows tagged ['imported'] for lack of a source
    are in the ['all'] table only.) *)
Theorem tabs_select_from_the_all_view :
  forall (w : World) (tab : string),
    tab <> "all"%string ->
    cards_of (recommendations_list (doc (filterTab_click tab w)))
    = filter (card_with_status tab)
             (cards_of (recommendations_list (doc (filterTab_click "all" w))))
    /\ (tab <> ""%string -> tab <> "imported"%string ->
        rows_of (experiments_tbody (doc (sourceTab_click tab w)))
        = filter (tagged tab)
                 (rows_of (experiments_tbody (doc (sourceTab_click "all" w))))).
Proof.
  intros w tab Hall.
  assert (FM : forall (A B : Type) (f : A -> B) (p : B -> bool) (l : list A),
             filter p (map f l) = map f (filter (fun a => p (f a)) l)).
  { intros A B f p l. induction l as [|a l IH]; simpl; [reflexivity|].
    destruct (p (f a)); simpl; rewrite IH; reflexivity. }
  split.
  - unfold filterTab_click. rewrite !updateRecommendations_doc. simpl.
    rewrite !cards_of_recommendations_markup, FM.
    unfold selected_recommendations. simpl.
    destruct (String.eqb_spec tab "all") as [|_]; [contradiction|].
    rewrite (filter_sort byTimestamp (fun r => - timestamp r) _ _ byTimestamp_key).
    reflexivity.
  - intros Hempty Himp.
    unfold sourceTab_click. rewrite !updateExperimentsTable_doc. simpl.
    rewrite !rows_of_experiments_markup, FM.
    unfold selected_experiments. simpl.
    destruct (String.eqb_spec tab "all") as [|_]; [contradiction|].
    rewrite (filter_sort byExpId exp_num _ _ byExpId_key).
    f_equal. f_equal. apply filter_ext. intros e.
    unfold tagged, createExperimentRow, strict_eq. simpl.
    destruct (source e) as [src|].
    + destruct (String.eqb_spec src "") as [->|Hne].
      * destruct (String.eqb_spec "" tab) as [E|_]; [congruence|].
        destruct (String.eqb_spec "imported" tab) as [E|_]; [congruence | reflexivity].
      * reflexivity.
    + destruct (String.eqb_spec "imported" tab) as [E|_]; [congruence | reflexivity].
Qed.

(** The tab ['manual'] over three samples. *)
Lemma tabs_select_from_the_all_view_sample :
  rows_of (experiments_tbody (doc (sourceTab_click "manual"
     {| st := set_experiments [sample_experiment "E3" "manual";
                               sample_experiment "E1" "imported";
                               sample_experiment "E2" "manual"] state;
        doc := blank_page |})))
  = filter (tagged "manual")
      (rows_of (experiments_tbody (doc (sourceTab_click "all"
         {| st := set_experiments [sample_experiment "E3" "manual";
                                   sample_experiment "E1" "imported";
                                   sample_experiment "E2" "manual"] state;
            doc := blank_page |})))).
Proof.
  apply (proj2 (tabs_select_from_the_all_view
                  {| st := set_experiments [sample_experiment "E3" "manual";
                                            sample_experiment "E1" "imported";
                                            sample_experiment "E2" "manual"] state;
                     doc := blank_page |} (tab := "manual") ltac:(discriminate)));
    discriminate.
Defined.
